(** * Benchmark runner: command construction, result extraction, event stream

    A shallow embedding of [benchmark-service/inspect_runner.py] and the
    properties its specification states about it.

    Conventions of the embedding.
    - Python [str] values are [string]s of ASCII characters (model identifiers
      are validated to be ASCII, and every pattern the runner searches for is
      ASCII).  Character classes follow Python's [re] and [str] methods on
      that range.
    - Values read from a JSON log and the event dictionaries the runner
      yields are [pyval]s; a [dict] is an association list in insertion
      order whose keys are distinct, looked up by key.  Calls to the logger
      change no value and are left out.
    - Python [float]s are IEEE-754 binary64 numbers, here primitive floats.
      [int / int] is the quotient of the two operands converted to binary64,
      which is what Python computes for operands below 2^53.
    - A Python exception is a value of [exn]; code that can raise returns a
      [result].  The generator [run_with_inspect_ai] is a computation in
      [gen], which records the events yielded so far and how the generator
      went on: normally, by [return], or by an exception nobody caught.
    - What the Python runtime and the operating system decide (the text of
      [str(x)] for a value that is not a string, [float(s)], timestamps, what
      the evaluation process prints, which files exist) is read from
      [Builtins] and [World]; the paths are POSIX paths. *)

From Stdlib Require Import ZArith NArith List String Ascii Bool Lia.
From Stdlib Require Import Floats Uint63 DecimalString.
Import ListNotations.

Set Warnings "-inexact-float,-register-all".
Set Implicit Arguments.

Open Scope list_scope.
Open Scope string_scope.

(** ** Characters and text *)

Definition code (c : ascii) : N := N_of_ascii c.

Definition in_range (lo hi : N) (c : ascii) : bool :=
  ((lo <=? code c) && (code c <=? hi))%N.

Definition is_upper (c : ascii) : bool := in_range 65 90 c.
Definition is_lower (c : ascii) : bool := in_range 97 122 c.
Definition is_digit (c : ascii) : bool := in_range 48 57 c.

(** [str.isspace] on ASCII: tab to carriage return, the four separators
    28..31, and the blank.  It is also the class [\s] of [re]. *)
Definition is_space (c : ascii) : bool :=
  in_range 9 13 c || in_range 28 31 c || (code c =? 32)%N.

(** The class [\w] of [re] on ASCII. *)
Definition is_word (c : ascii) : bool :=
  is_upper c || is_lower c || is_digit c || (code c =? 95)%N.

Definition to_lower (c : ascii) : ascii :=
  if is_upper c then ascii_of_N (code c + 32) else c.

Definition to_upper (c : ascii) : ascii :=
  if is_lower c then ascii_of_N (code c - 32) else c.

Fixpoint lower (s : string) : string :=
  match s with
  | EmptyString => EmptyString
  | String c t => String (to_lower c) (lower t)
  end.

Fixpoint upper (s : string) : string :=
  match s with
  | EmptyString => EmptyString
  | String c t => String (to_upper c) (upper t)
  end.

(** [p in s] for two strings. *)
Fixpoint contains (p s : string) : bool :=
  prefix p s ||
  match s with
  | EmptyString => false
  | String _ t => contains p t
  end.

Definition startswith (s p : string) : bool := prefix p s.

Definition string_rev (s : string) : string :=
  string_of_list_ascii (rev (list_ascii_of_string s)).

Definition endswith (s p : string) : bool :=
  prefix (string_rev p) (string_rev s).

Fixpoint lstrip (s : string) : string :=
  match s with
  | EmptyString => EmptyString
  | String c t => if is_space c then lstrip t else s
  end.

Definition rstrip (s : string) : string := string_rev (lstrip (string_rev s)).

Definition strip (s : string) : string := rstrip (lstrip s).

(** [s[:n]]. *)
Definition take (n : nat) (s : string) : string := substring 0 n s.

(** [s.split(sep)] for a separator of one character. *)
Fixpoint split_on (sep : ascii) (s : string) : list string :=
  match s with
  | EmptyString => [EmptyString]
  | String c t =>
      if Ascii.eqb c sep then EmptyString :: split_on sep t
      else match split_on sep t with
           | [] => [String c EmptyString]
           | w :: ws => String c w :: ws
           end
  end.

(** [s.replace(old, new)] for [old] of one character. *)
Fixpoint replace_char (old : ascii) (new : string) (s : string) : string :=
  match s with
  | EmptyString => EmptyString
  | String c t =>
      if Ascii.eqb c old then new ++ replace_char old new t
      else String c (replace_char old new t)
  end.

(** [str(n)] for an [int]. *)
Definition str_of_Z (z : Z) : string := NilZero.string_of_int (Z.to_int z).

(** [any(p in s for p in patterns)]. *)
Definition any_in (patterns : list string) (s : string) : bool :=
  existsb (fun p => contains p s) patterns.

(** ** Python values, exceptions, and what the runtime decides *)

Inductive pyval : Type :=
| PNone
| PBool (b : bool)
| PInt (z : Z)
| PFloat (f : float)
| PStr (s : string)
| PList (l : list pyval)
| PDict (d : list (string * pyval)).

Inductive exn : Type :=
| AttributeError
| TypeError
| KeyError
| ValueError
| OverflowError
| JSONDecodeError
| UnicodeDecodeError
| OSError
| FileNotFoundError
| PermissionError
| IsADirectoryError
| BadZipFile
| IndexError
| ZeroDivisionError
| TimeoutExpired
| RuntimeError.

(** [isinstance(e, ValueError)]: the decoding errors are its subclasses. *)
Definition is_ValueError (e : exn) : bool :=
  match e with
  | ValueError | JSONDecodeError | UnicodeDecodeError => true
  | _ => false
  end.

Inductive result (A : Type) : Type :=
| Ok (a : A)
| Raise (e : exn).
Arguments Ok {A} a.
Arguments Raise {A} e.

Definition rbind {A B : Type} (m : result A) (f : A -> result B) : result B :=
  match m with
  | Ok a => f a
  | Raise e => Raise e
  end.

Notation "x <- m ;; k" := (rbind m (fun x => k))
  (at level 61, m at next level, right associativity).

Record Builtins : Type := {
  (* [str(v)] for a value that is not a [str] *)
  py_repr : pyval -> string;
  (* [float(s)]; [None] where it raises [ValueError] *)
  py_float : string -> option float;
  (* [format(x, ".1f")] *)
  py_format_1f : pyval -> string;
  (* [datetime.fromisoformat(s)]; [None] where it raises [ValueError] *)
  datetime : Type;
  fromisoformat : string -> option datetime;
  (* [(later - earlier).total_seconds() * 1000]; [None] where the
     subtraction raises [TypeError] *)
  delta_ms : datetime -> datetime -> option float;
  (* [str(e)] for an exception *)
  exn_str : exn -> string
}.

(** ** Error codes and the static tables *)

Inductive ErrorCode : Type :=
| INSPECT_NOT_INSTALLED
| EVALS_NOT_INSTALLED
| BENCHMARK_NOT_FOUND
| PROVIDER_NOT_FOUND
| API_KEY_MISSING
| EVALUATION_TIMEOUT
| EVALUATION_FAILED
| INVALID_PARAMETER
| PARSE_ERROR.

(** [code.value] *)
Definition ErrorCode_value (c : ErrorCode) : string :=
  match c with
  | INSPECT_NOT_INSTALLED => "INSPECT_NOT_INSTALLED"
  | EVALS_NOT_INSTALLED => "EVALS_NOT_INSTALLED"
  | BENCHMARK_NOT_FOUND => "BENCHMARK_NOT_FOUND"
  | PROVIDER_NOT_FOUND => "PROVIDER_NOT_FOUND"
  | API_KEY_MISSING => "API_KEY_MISSING"
  | EVALUATION_TIMEOUT => "EVALUATION_TIMEOUT"
  | EVALUATION_FAILED => "EVALUATION_FAILED"
  | INVALID_PARAMETER => "INVALID_PARAMETER"
  | PARSE_ERROR => "PARSE_ERROR"
  end.

Record provider_config : Type := {
  pc_name : string;
  pc_base_url : option string;
  pc_api_key_env : string;
  pc_model_prefix : string;
  pc_description : string
}.

Definition PROVIDERS : list (string * provider_config) := [
  ("openrouter",
   {| pc_name := "OpenRouter";
      pc_base_url := Some "https://openrouter.ai/api/v1";
      pc_api_key_env := "OPENROUTER_API_KEY";
      pc_model_prefix := "openai/";
      pc_description := "Unified access to 200+ models via OpenRouter" |});
  ("openai",
   {| pc_name := "OpenAI";
      pc_base_url := Some "https://api.openai.com/v1";
      pc_api_key_env := "OPENAI_API_KEY";
      pc_model_prefix := "openai/";
      pc_description := "Direct OpenAI API access" |});
  ("anthropic",
   {| pc_name := "Anthropic";
      pc_base_url := None;
      pc_api_key_env := "ANTHROPIC_API_KEY";
      pc_model_prefix := "anthropic/";
      pc_description := "Direct Anthropic API access" |});
  ("google",
   {| pc_name := "Google AI";
      pc_base_url := None;
      pc_api_key_env := "GOOGLE_API_KEY";
      pc_model_prefix := "google/";
      pc_description := "Direct Google AI (Gemini) API access" |});
  ("together",
   {| pc_name := "Together AI";
      pc_base_url := Some "https://api.together.xyz/v1";
      pc_api_key_env := "TOGETHER_API_KEY";
      pc_model_prefix := "openai/";
      pc_description := "Together AI - fast open-source model inference" |});
  ("fireworks",
   {| pc_name := "Fireworks AI";
      pc_base_url := Some "https://api.fireworks.ai/inference/v1";
      pc_api_key_env := "FIREWORKS_API_KEY";
      pc_model_prefix := "openai/";
      pc_description := "Fireworks AI - fast model inference" |})
].

(** [d.get(k)] on a table or a [dict]: the first entry under the key. *)
Fixpoint assoc {A : Type} (k : string) (d : list (string * A)) : option A :=
  match d with
  | [] => None
  | (k', v) :: rest => if String.eqb k k' then Some v else assoc k rest
  end.

Definition SUPPORTED_BENCHMARKS : list (string * string) := [
  ("apps", "inspect_evals/apps"); ("agent_bench", "inspect_evals/agent_bench");
  ("bigcodebench", "inspect_evals/bigcodebench"); ("core_bench", "inspect_evals/core_bench");
  ("class_eval", "inspect_evals/class_eval"); ("ds1000", "inspect_evals/ds1000");
  ("humaneval", "inspect_evals/humaneval"); ("mbpp", "inspect_evals/mbpp");
  ("mle_bench", "inspect_evals/mle_bench"); ("mle_bench_lite", "inspect_evals/mle_bench_lite");
  ("paperbench", "inspect_evals/paperbench"); ("swe_bench", "inspect_evals/swe_bench");
  ("swe_bench_verified", "inspect_evals/swe_bench_verified"); ("scicode", "inspect_evals/scicode");
  ("usaco", "inspect_evals/usaco"); ("assistant_bench", "inspect_evals/assistant_bench");
  ("assistant_bench_closed", "inspect_evals/assistant_bench_closed_book"); ("assistant_bench_web", "inspect_evals/assistant_bench_web_search");
  ("bfcl", "inspect_evals/bfcl"); ("browse_comp", "inspect_evals/browse_comp");
  ("gaia", "inspect_evals/gaia"); ("gaia_level1", "inspect_evals/gaia_level1");
  ("gaia_level2", "inspect_evals/gaia_level2"); ("gaia_level3", "inspect_evals/gaia_level3");
  ("gdpval", "inspect_evals/gdpval"); ("mind2web", "inspect_evals/mind2web");
  ("osworld", "inspect_evals/osworld"); ("osworld_small", "inspect_evals/osworld_small");
  ("sycophancy", "inspect_evals/sycophancy"); ("cve_bench", "inspect_evals/cve_bench");
  ("cyberseceval_3", "inspect_evals/cyberseceval_3"); ("cyberseceval_2", "inspect_evals/cyberseceval_2");
  ("threecb", "inspect_evals/threecb"); ("cybench", "inspect_evals/cybench");
  ("cybermetric", "inspect_evals/cybermetric"); ("gdm_intercode_ctf", "inspect_evals/gdm_intercode_ctf");
  ("gdm_in_house_ctf", "inspect_evals/gdm_in_house_ctf"); ("sevenllm", "inspect_evals/sevenllm");
  ("sandboxbench", "inspect_evals/sandboxbench"); ("sec_qa", "inspect_evals/sec_qa");
  ("ahb", "inspect_evals/ahb"); ("abstention_bench", "inspect_evals/abstention_bench");
  ("agentdojo", "inspect_evals/agentdojo"); ("agentharm", "inspect_evals/agentharm");
  ("fortress", "inspect_evals/fortress"); ("lab_bench", "inspect_evals/lab_bench");
  ("mask", "inspect_evals/mask"); ("make_me_pay", "inspect_evals/make_me_pay");
  ("makemesay", "inspect_evals/makemesay"); ("mind2web_sc", "inspect_evals/mind2web_sc");
  ("stereoset", "inspect_evals/stereoset"); ("strong_reject", "inspect_evals/strong_reject");
  ("coconot", "inspect_evals/coconot"); ("wmdp", "inspect_evals/wmdp");
  ("b3", "inspect_evals/b3"); ("toxigen", "inspect_evals/toxigen");
  ("xstest", "inspect_evals/xstest"); ("aime2024", "inspect_evals/aime2024");
  ("aime2025", "inspect_evals/aime2025"); ("gsm8k", "inspect_evals/gsm8k");
  ("math", "inspect_evals/math"); ("mgsm", "inspect_evals/mgsm");
  ("mathvista", "inspect_evals/mathvista"); ("arc", "inspect_evals/arc_challenge");
  ("bbh", "inspect_evals/bbh"); ("bbeh", "inspect_evals/bbeh");
  ("boolq", "inspect_evals/boolq"); ("drop", "inspect_evals/drop");
  ("hellaswag", "inspect_evals/hellaswag"); ("ifeval", "inspect_evals/ifeval");
  ("lingoly", "inspect_evals/lingoly"); ("mmmu", "inspect_evals/mmmu");
  ("musr", "inspect_evals/musr"); ("niah", "inspect_evals/niah");
  ("novelty_bench", "inspect_evals/novelty_bench"); ("paws", "inspect_evals/paws");
  ("piqa", "inspect_evals/piqa"); ("race_h", "inspect_evals/race_h");
  ("squad", "inspect_evals/squad"); ("vimgolf", "inspect_evals/vimgolf");
  ("winogrande", "inspect_evals/winogrande"); ("worldsense", "inspect_evals/worldsense");
  ("infinite_bench", "inspect_evals/infinite_bench"); ("agieval", "inspect_evals/agieval");
  ("air_bench", "inspect_evals/air_bench"); ("chembench", "inspect_evals/chembench");
  ("commonsense_qa", "inspect_evals/commonsense_qa"); ("gpqa", "inspect_evals/gpqa");
  ("gpqa_diamond", "inspect_evals/gpqa_diamond"); ("healthbench", "inspect_evals/healthbench");
  ("hle", "inspect_evals/hle"); ("livebench", "inspect_evals/livebench");
  ("mmlu_pro", "inspect_evals/mmlu_pro"); ("mmlu", "inspect_evals/mmlu_0_shot");
  ("mmlu_5_shot", "inspect_evals/mmlu_5_shot"); ("medqa", "inspect_evals/medqa");
  ("onet", "inspect_evals/onet"); ("pre_flight", "inspect_evals/pre_flight");
  ("pubmedqa", "inspect_evals/pubmedqa"); ("sosbench", "inspect_evals/sosbench");
  ("sciknoweval", "inspect_evals/sciknoweval"); ("simpleqa", "inspect_evals/simpleqa");
  ("truthfulqa", "inspect_evals/truthfulqa"); ("uccb", "inspect_evals/uccb");
  ("agentic_misalignment", "inspect_evals/agentic_misalignment"); ("gdm_sp_apps", "inspect_evals/gdm_sp_apps");
  ("gdm_sr_self_reasoning", "inspect_evals/gdm_sr_self_reasoning"); ("gdm_stealth", "inspect_evals/gdm_stealth");
  ("docvqa", "inspect_evals/docvqa"); ("mmiu", "inspect_evals/mmiu");
  ("vstar_bench", "inspect_evals/vstar_bench"); ("zerobench", "inspect_evals/zerobench");
  ("bbq", "inspect_evals/bbq"); ("bold", "inspect_evals/bold");
  ("personality_bfi", "inspect_evals/personality_bfi"); ("personality_trait", "inspect_evals/personality_trait");
  ("personality_prime", "inspect_evals/personality_prime"); ("writingbench", "inspect_evals/writingbench")
].

Record dependency_info : Type := {
  dep_package : option string;
  dep_install_cmd : option string;
  dep_requirements : list string;
  dep_description : string
}.

Definition dep (package install_cmd : option string) (requirements : list string)
    (description : string) : dependency_info :=
  {| dep_package := package; dep_install_cmd := install_cmd;
     dep_requirements := requirements; dep_description := description |}.

Definition BENCHMARK_DEPENDENCIES : list (string * dependency_info) := [
  ("swe_bench",
   dep (Some "swebench") (Some "pip install inspect-evals[swe_bench]")
       ["Python 3.11+"; "Docker"]
       "Software engineering benchmark requiring code execution sandbox");
  ("swe_bench_verified",
   dep (Some "swebench") (Some "pip install inspect-evals[swe_bench]")
       ["Python 3.11+"; "Docker"] "Verified subset of SWE-bench");
  ("mle_bench",
   dep (Some "mlebench") (Some "pip install inspect-evals[mle_bench]")
       ["Python 3.11+"] "Machine learning engineering benchmark");
  ("mle_bench_lite",
   dep (Some "mlebench") (Some "pip install inspect-evals[mle_bench]")
       ["Python 3.11+"] "Lite version of MLE-bench");
  ("gaia",
   dep (Some "playwright") (Some "pip install inspect-evals[gaia] && playwright install")
       ["Playwright browsers"] "General AI assistants benchmark with web browsing");
  ("gaia_level1",
   dep (Some "playwright") (Some "pip install inspect-evals[gaia] && playwright install")
       ["Playwright browsers"] "GAIA Level 1 tasks");
  ("gaia_level2",
   dep (Some "playwright") (Some "pip install inspect-evals[gaia] && playwright install")
       ["Playwright browsers"] "GAIA Level 2 tasks");
  ("gaia_level3",
   dep (Some "playwright") (Some "pip install inspect-evals[gaia] && playwright install")
       ["Playwright browsers"] "GAIA Level 3 tasks");
  ("cybench",
   dep None None ["Docker"; "65GB+ disk space"]
       "Cybersecurity benchmark requiring Docker containers");
  ("gdm_intercode_ctf",
   dep None None ["Docker"; "32GB+ RAM"] "GDM CTF benchmark requiring Docker");
  ("gdm_in_house_ctf",
   dep None None ["Docker"; "32GB+ RAM"] "GDM in-house CTF benchmark requiring Docker");
  ("osworld",
   dep None None ["Docker"] "OS-level task benchmark requiring Docker");
  ("osworld_small",
   dep None None ["Docker"] "Small subset of OSWorld");
  ("sciknoweval",
   dep (Some "gensim") (Some "pip install gensim")
       ["Python 3.10-3.12 (not 3.13+)"]
       "Scientific knowledge evaluation (gensim dependency)")
].

Definition get_benchmark_dependency_info (benchmark : string) : option dependency_info :=
  assoc benchmark BENCHMARK_DEPENDENCIES.

Definition py_opt_str (o : option string) : pyval :=
  match o with
  | Some s => PStr s
  | None => PNone
  end.

Definition py_opt_int (o : option Z) : pyval :=
  match o with
  | Some z => PInt z
  | None => PNone
  end.

(** The dependency record as the [dict] the table holds. *)
Definition dependency_dict (d : dependency_info) : pyval :=
  PDict [("package", py_opt_str (dep_package d));
         ("install_cmd", py_opt_str (dep_install_cmd d));
         ("requirements", PList (map PStr (dep_requirements d)));
         ("description", PStr (dep_description d))].

(** ** Events *)

Definition create_error (code : ErrorCode) (message : string)
    (details : list (string * pyval)) : pyval :=
  let data := [("code", PStr (ErrorCode_value code));
               ("error", PStr message);
               ("message", PStr message)] in
  let data := match details with
              | [] => data
              | _ :: _ => (data ++ [("details", PDict details)])%list
              end in
  PDict [("type", PStr "error"); ("data", PDict data)].

Definition create_progress (message : string) (extra : list (string * pyval)) : pyval :=
  PDict [("type", PStr "progress");
         ("data", PDict (("message", PStr message) :: extra))].

Definition create_result (question total : Z) (correct : bool) (running_score : pyval)
    (latency_ms : pyval) (extra : list (string * pyval)) : pyval :=
  PDict [("type", PStr "result");
         ("data", PDict ([("question", PInt question);
                          ("currentQuestion", PInt question);
                          ("questionIndex", PInt (question - 1));
                          ("total", PInt total);
                          ("correct", PBool correct);
                          ("runningScore", running_score);
                          ("running_score", running_score);
                          ("latencyMs", latency_ms);
                          ("latency_ms", latency_ms)] ++ extra)%list)].

Definition create_complete (score : pyval) (correct total : Z)
    (extra : list (string * pyval)) : pyval :=
  PDict [("type", PStr "complete");
         ("data", PDict ([("score", score);
                          ("correct", PInt correct);
                          ("total", PInt total)] ++ extra)%list)].

(** ** Parameter validation *)

Definition nl : string := String (ascii_of_nat 10) EmptyString.

(** The class [[a-zA-Z0-9._:/-]]. *)
Definition is_model_id_char (c : ascii) : bool :=
  is_lower c || is_upper c || is_digit c ||
  existsb (Ascii.eqb c) ["."; "_"; ":"; "/"; "-"]%char.

Fixpoint all_chars (p : ascii -> bool) (s : string) : bool :=
  match s with
  | EmptyString => true
  | String c t => p c && all_chars p t
  end.

(** [re.match(r'^[a-zA-Z0-9._:/-]+$', s)]: one or more characters of the
    class up to the end, where [$] also stands before a final newline. *)
Definition model_id_pattern_match (s : string) : bool :=
  let body := if endswith s nl then take (String.length s - 1) s else s in
  (negb (String.eqb s EmptyString) && all_chars is_model_id_char s) ||
  (negb (String.eqb body EmptyString) && all_chars is_model_id_char body).

Definition validate_parameters (model_id benchmark : string) (limit : Z)
    (provider : string) (temperature : option float) (seed epochs : option Z)
    : option pyval :=
  if String.eqb model_id EmptyString || (String.length (strip model_id) =? 0)%nat then
    Some (create_error INVALID_PARAMETER "Model ID must be a non-empty string"
            [("parameter", PStr "model_id"); ("value", PStr model_id)])
  else if negb (model_id_pattern_match model_id) || (200 <? String.length model_id)%nat then
    Some (create_error INVALID_PARAMETER
            "Model ID contains invalid characters or is too long (max 200 chars)"
            [("parameter", PStr "model_id"); ("value", PStr (take 50 model_id))])
  else if (limit <? 1)%Z then
    Some (create_error INVALID_PARAMETER "Limit must be a positive integer"
            [("parameter", PStr "limit"); ("value", PInt limit)])
  else if (10000 <? limit)%Z then
    Some (create_error INVALID_PARAMETER "Limit cannot exceed 10,000 samples"
            [("parameter", PStr "limit"); ("value", PInt limit)])
  else if match temperature with
          | Some t => PrimFloat.ltb t 0 || PrimFloat.ltb 2 t
          | None => false
          end then
    Some (create_error INVALID_PARAMETER "Temperature must be between 0 and 2"
            [("parameter", PStr "temperature");
             ("value", match temperature with Some t => PFloat t | None => PNone end)])
  else if match seed with
          | Some s => (s <? 0)%Z
          | None => false
          end then
    Some (create_error INVALID_PARAMETER "Seed must be a non-negative integer"
            [("parameter", PStr "seed"); ("value", py_opt_int seed)])
  else if match epochs with
          | Some e => (e <? 1)%Z || (100 <? e)%Z
          | None => false
          end then
    Some (create_error INVALID_PARAMETER "Epochs must be between 1 and 100"
            [("parameter", PStr "epochs"); ("value", py_opt_int epochs)])
  else
    let provider_lower := lower provider in
    match assoc provider_lower PROVIDERS with
    | None =>
        Some (create_error PROVIDER_NOT_FOUND
                ("Unknown provider '" ++ provider ++ "'. Available providers: "
                 ++ String.concat ", " (map fst PROVIDERS))
                [("parameter", PStr "provider"); ("value", PStr provider);
                 ("available", PList (map (fun p => PStr (fst p)) PROVIDERS))])
    | Some _ =>
        match assoc benchmark SUPPORTED_BENCHMARKS with
        | None =>
            Some (create_error BENCHMARK_NOT_FOUND
                    ("Benchmark '" ++ benchmark ++ "' not supported. Available: "
                     ++ str_of_Z (Z.of_nat (List.length SUPPORTED_BENCHMARKS))
                     ++ " benchmarks")
                    [("parameter", PStr "benchmark"); ("value", PStr benchmark)])
        | Some _ => None
        end
    end.

(** ** The command builder *)

(** [cmd.extend(extra)] *)
Definition extend {A : Type} (cmd extra : list A) : list A := (cmd ++ extra)%list.


Definition reasoning_patterns : list string :=
  ["o1"; "o3"; "gpt-5";
   "claude-3-7"; "claude-3.7"; "claude-4";
   "deepseek-r1"; "deepseek/r1";
   "gemini-2.5"; "gemini-3"; "deep-think"; "deepthink";
   "phi-4-reasoning"; "phi-reasoning";
   "-reasoning"; "-thinking"; "_reasoning"; "_thinking"].

Definition is_reasoning_model (model_id : string) : bool :=
  let model_lower := lower model_id in
  any_in reasoning_patterns model_lower.

(** The local [is_openai_reasoning] of [build_inspect_command]. *)
Definition is_openai_reasoning (model_id : string) : bool :=
  any_in ["o1"; "o3"; "gpt-5"] (lower model_id).

(** Truth value of an optional string: [None] and the empty string are false. *)
Definition truthy_str (o : option string) : bool :=
  match o with
  | Some s => negb (String.eqb s EmptyString)
  | None => false
  end.

(** The local [effective_max_tokens] of [build_inspect_command]. *)
Definition effective_max_tokens (max_tokens : option Z) : Z :=
  match max_tokens with
  | Some n => n
  | None => 1024%Z
  end.

Section CommandBuilder.

Variable B : Builtins.

Definition build_inspect_command (task_name model_id : string) (limit : Z)
    (provider : string) (provider_config : provider_config)
    (temperature : option float) (seed max_tokens : option Z)
    (reasoning_effort : option string) : list string :=
  let is_reasoning := is_reasoning_model model_id in
  let cmd :=
    if String.eqb provider "anthropic" then
      ["inspect"; "eval"; task_name;
       "--model"; "anthropic/" ++ model_id;
       "--limit"; str_of_Z limit;
       "--log-format"; "json"]
    else if String.eqb provider "google" then
      ["inspect"; "eval"; task_name;
       "--model"; "google/" ++ model_id;
       "--limit"; str_of_Z limit;
       "--log-format"; "json"]
    else
      let cmd := ["inspect"; "eval"; task_name;
                  "--model"; pc_model_prefix provider_config ++ model_id;
                  "--limit"; str_of_Z limit;
                  "--log-format"; "json"] in
      match pc_base_url provider_config with
      | Some url =>
          if negb (String.eqb url EmptyString) && negb (String.eqb provider "openai")
          then extend cmd ["--model-base-url"; url]
          else cmd
      | None => cmd
      end in
  let cmd :=
    if is_reasoning then
      if String.eqb provider "openrouter" && is_openai_reasoning model_id then
        let effort := match reasoning_effort with
                      | Some e => e
                      | None => "none"
                      end in
        extend cmd ["--reasoning-effort"; effort]
      else if String.eqb provider "openrouter" then
        match reasoning_effort with
        | Some e => if truthy_str reasoning_effort
                    then extend cmd ["--reasoning-effort"; e] else cmd
        | None => cmd
        end
      else if String.eqb provider "openai" then
        let effort := match reasoning_effort with
                      | Some e => if truthy_str reasoning_effort then e else "medium"
                      | None => "medium"
                      end in
        extend (extend cmd ["--reasoning-effort"; effort]) ["--reasoning-summary"; "auto"]
      else if String.eqb provider "anthropic" then cmd
      else if String.eqb provider "google" then cmd
      else
        match reasoning_effort with
        | Some e => if truthy_str reasoning_effort
                    then extend cmd ["--reasoning-effort"; e] else cmd
        | None => cmd
        end
    else
      match temperature with
      | Some t => extend cmd ["--temperature"; py_repr B (PFloat t)]
      | None => cmd
      end in
  let cmd :=
    match seed with
    | Some s => extend (extend cmd ["--seed"; str_of_Z s]) ["--sample-shuffle"; str_of_Z s]
    | None => extend cmd ["--sample-shuffle"]
    end in
  let cmd := extend cmd ["--max-tokens"; str_of_Z (effective_max_tokens max_tokens)] in
  let cmd := extend cmd ["-T"; "max_non_cot_tokens=" ++ str_of_Z (effective_max_tokens max_tokens)] in
  cmd.

End CommandBuilder.

(** ** Operations on Python values *)

(** [bool(v)] *)
Definition truthy (v : pyval) : bool :=
  match v with
  | PNone => false
  | PBool b => b
  | PInt z => negb (z =? 0)%Z
  | PFloat f => negb (PrimFloat.eqb f 0)
  | PStr s => negb (String.eqb s EmptyString)
  | PList l => match l with [] => false | _ :: _ => true end
  | PDict d => match d with [] => false | _ :: _ => true end
  end.

(** [v.get(k, default)]: only a [dict] has the method. *)
Definition py_get (v : pyval) (k : string) (default : pyval) : result pyval :=
  match v with
  | PDict d => Ok (match assoc k d with Some x => x | None => default end)
  | _ => Raise AttributeError
  end.

Definition is_str (v : pyval) (s : string) : bool :=
  match v with
  | PStr t => String.eqb t s
  | _ => false
  end.

(** [k in v] for a string [k]. *)
Definition py_in (k : string) (v : pyval) : result bool :=
  match v with
  | PDict d => Ok (match assoc k d with Some _ => true | None => false end)
  | PList l => Ok (existsb (fun x => is_str x k) l)
  | PStr s => Ok (contains k s)
  | _ => Raise TypeError
  end.

(** [v[k]] for a string [k]. *)
Definition py_getitem (v : pyval) (k : string) : result pyval :=
  match v with
  | PDict d => match assoc k d with Some x => Ok x | None => Raise KeyError end
  | _ => Raise TypeError
  end.

(** [v[0]] *)
Definition py_getitem0 (v : pyval) : result pyval :=
  match v with
  | PList (x :: _) => Ok x
  | PList [] => Raise IndexError
  | PStr (String c _) => Ok (PStr (String c EmptyString))
  | PStr EmptyString => Raise IndexError
  | PDict _ => Raise KeyError
  | _ => Raise TypeError
  end.

(** [v.upper()] *)
Definition py_upper (v : pyval) : result string :=
  match v with
  | PStr s => Ok (upper s)
  | _ => Raise AttributeError
  end.

(** [v == 1] and [v == 0] *)
Definition py_eq_one (v : pyval) : bool :=
  match v with
  | PInt z => (z =? 1)%Z
  | PFloat f => PrimFloat.eqb f 1
  | PBool b => b
  | _ => false
  end.

Definition py_eq_zero (v : pyval) : bool :=
  match v with
  | PInt z => (z =? 0)%Z
  | PFloat f => PrimFloat.eqb f 0
  | PBool b => negb b
  | _ => false
  end.

(** [float(z)] for an [int] below 2^63 in absolute value. *)
Definition Z2float (z : Z) : float :=
  if (z <? 0)%Z then PrimFloat.opp (PrimFloat.of_uint63 (Uint63.of_Z (- z)))
  else PrimFloat.of_uint63 (Uint63.of_Z z).

(** [a / b] for two non-negative [int]s, [b] positive. *)
Definition int_truediv (a b : Z) : float := PrimFloat.div (Z2float a) (Z2float b).

Fixpoint repeat_string (n : nat) (s : string) : string :=
  match n with
  | O => EmptyString
  | S n' => s ++ repeat_string n' s
  end.

(** [v * 1000] *)
Definition py_mul_1000 (v : pyval) : result pyval :=
  match v with
  | PInt z => Ok (PInt (z * 1000))
  | PFloat f => Ok (PFloat (PrimFloat.mul f 1000))
  | PBool b => Ok (PInt (if b then 1000 else 0))
  | PStr s => Ok (PStr (repeat_string 1000 s))
  | PList l => Ok (PList (List.concat (repeat l 1000)))
  | PNone | PDict _ => Raise TypeError
  end.

(** [a or b], with [b] evaluated only when needed. *)
Definition py_or (a : pyval) (b : result pyval) : result pyval :=
  if truthy a then Ok a else b.

(** ** The answer pattern

    [re.search(r'(?:ANSWER|Answer|answer)[:\s]*([A-Ea-e])\b', text)]:
    the leftmost position where one of the three keywords stands, followed
    by any run of colons and white space, one letter of A..E in either
    case, and a word boundary.  The run is disjoint from the letters, so
    giving characters back never helps and the greedy reading is the only
    one. *)

Definition is_choice_letter (c : ascii) : bool :=
  in_range 65 69 c || in_range 97 101 c.

Fixpoint skip_sep (s : string) : string :=
  match s with
  | EmptyString => EmptyString
  | String c t => if Ascii.eqb c ":" || is_space c then skip_sep t else s
  end.

Definition drop (n : nat) (s : string) : string :=
  substring n (String.length s - n) s.

(** A match that starts at the first character of [s]: its group 1. *)
Definition match_answer_at (s : string) : option ascii :=
  if prefix "ANSWER" s || prefix "Answer" s || prefix "answer" s then
    match skip_sep (drop 6 s) with
    | String c rest =>
        if is_choice_letter c then
          match rest with
          | EmptyString => Some c
          | String c' _ => if is_word c' then None else Some c
          end
        else None
    | EmptyString => None
    end
  else None.

Fixpoint answer_search (s : string) : option ascii :=
  match match_answer_at s with
  | Some c => Some c
  | None =>
      match s with
      | EmptyString => None
      | String _ t => answer_search t
      end
  end.

(** [m = re.search(..., v)] then [m.group(1).upper()] when [m] matched;
    [re.search] raises [TypeError] on a value that is not a string. *)
Definition search_answer (v : pyval) : result (option string) :=
  match v with
  | PStr s =>
      Ok (match answer_search s with
          | Some c => Some (String (to_upper c) EmptyString)
          | None => None
          end)
  | _ => Raise TypeError
  end.

(** ** Correctness of one sample *)

Definition valid_answers : list string := ["A"; "B"; "C"; "D"; "E"].

Definition str_in (s : string) (l : list string) : bool :=
  existsb (String.eqb s) l.

(** The loop over the content blocks of the first choice's message. *)
Fixpoint search_blocks (blocks : list pyval) : result (option string) :=
  match blocks with
  | [] => Ok None
  | block :: rest =>
      match block with
      | PDict d =>
          let type := match assoc "type" d with Some t => t | None => PNone end in
          if is_str type "text" then
            let text := match assoc "text" d with Some t => t | None => PStr EmptyString end in
            m <- search_answer text ;;
            match m with
            | Some a => Ok (Some a)
            | None => search_blocks rest
            end
          else if is_str type "reasoning" then
            let summary :=
              match assoc "summary" d with Some t => t | None => PStr EmptyString end in
            if truthy summary then
              m <- search_answer summary ;;
              match m with
              | Some a => Ok (Some a)
              | None => search_blocks rest
              end
            else search_blocks rest
          else search_blocks rest
      | _ => search_blocks rest
      end
  end.

(** The first stage of [extract_predicted]: the raw message content. *)
Definition predicted_from_content (output : pyval) : result (option string) :=
  choices <- py_get output "choices" (PList []) ;;
  if truthy choices then
    first <- py_getitem0 choices ;;
    message <- py_get first "message" (PDict []) ;;
    content <- py_get message "content" (PList []) ;;
    match content with
    | PList blocks => search_blocks blocks
    | PStr _ => search_answer content
    | _ => Ok None
    end
  else Ok None.

(** The stage after it: the raw completion field. *)
Definition predicted_from_completion (output : pyval) : result (option string) :=
  completion <- py_get output "completion" (PStr EmptyString) ;;
  if truthy completion then search_answer completion else Ok None.

(** The last stage: the scorer's explanation, then its bare value. *)
Definition predicted_from_scores (s : pyval) : result string :=
  scores <- py_get s "scores" (PDict []) ;;
  has_choice <- py_in "choice" scores ;;
  if has_choice then
    choice_data <- py_getitem scores "choice" ;;
    explanation <- py_get choice_data "explanation" (PStr EmptyString) ;;
    value <- py_get choice_data "value" (PStr EmptyString) ;;
    m <- (if truthy explanation then search_answer explanation else Ok None) ;;
    match m with
    | Some a => Ok a
    | None =>
        if truthy value then
          u <- py_upper value ;;
          if str_in u valid_answers then Ok u else Ok EmptyString
        else Ok EmptyString
    end
  else Ok EmptyString.

Definition extract_predicted (s : pyval) : result string :=
  output <- py_get s "output" (PDict []) ;;
  m <- predicted_from_content output ;;
  match m with
  | Some a => Ok a
  | None =>
      m <- predicted_from_completion output ;;
      match m with
      | Some a => Ok a
      | None => predicted_from_scores s
      end
  end.

Section Samples.

Variable B : Builtins.

(** [str(v)] *)
Definition py_str (v : pyval) : string :=
  match v with
  | PStr s => s
  | _ => py_repr B v
  end.

Definition extract_expected (s : pyval) : result pyval :=
  target <- py_get s "target" (PStr EmptyString) ;;
  if truthy target then Ok (PStr (strip (py_str target)))
  else
    scores <- py_get s "scores" (PDict []) ;;
    has_choice <- py_in "choice" scores ;;
    if has_choice then
      choice_data <- py_getitem scores "choice" ;;
      py_get choice_data "answer" (PStr EmptyString)
    else Ok (PStr EmptyString).

Definition is_sample_correct (s : pyval) : result bool :=
  scores <- py_get s "scores" (PDict []) ;;
  has_choice <- py_in "choice" scores ;;
  if has_choice then
    predicted <- extract_predicted s ;;
    expected <- extract_expected s ;;
    if negb (String.eqb predicted EmptyString) && truthy expected then
      expected_upper <- py_upper expected ;;
      Ok (String.eqb (upper predicted) expected_upper)
    else Ok false
  else
    score <- py_get s "score" (PDict []) ;;
    match score with
    | PDict d => Ok (py_eq_one (match assoc "value" d with Some v => v | None => PNone end))
    | _ => Ok false
    end.

(** [sum(1 for s in samples if is_sample_correct(s))] *)
Fixpoint count_correct (samples : list pyval) : result Z :=
  match samples with
  | [] => Ok 0%Z
  | s :: rest =>
      c <- is_sample_correct s ;;
      n <- count_correct rest ;;
      Ok ((if c then 1 else 0) + n)%Z
  end.

(** The latency of one sample, as the result loop computes it. *)
Definition sample_latency (sample : pyval) : result pyval :=
  model_usage <- py_get sample "model_usage" (PDict []) ;;
  latency_ms <-
    (if truthy model_usage then
       a <- py_get model_usage "latency_ms" (PInt 0) ;;
       py_or a (b <- py_get model_usage "latency" (PInt 0) ;; py_mul_1000 b)
     else Ok (PFloat 0)) ;;
  if py_eq_zero latency_ms then
    c1 <- py_get sample "created_at" PNone ;;
    created_at <- py_or c1 (py_get sample "started_at" PNone) ;;
    c2 <- py_get sample "completed_at" PNone ;;
    completed_at <- py_or c2 (py_get sample "finished_at" PNone) ;;
    if truthy created_at && truthy completed_at then
      match created_at with
      | PStr a =>
          match fromisoformat B (replace_char "Z" "+00:00" a) with
          | Some start =>
              match completed_at with
              | PStr b =>
                  match fromisoformat B (replace_char "Z" "+00:00" b) with
                  | Some end_ =>
                      match delta_ms B start end_ with
                      | Some d => Ok (PFloat d)
                      | None => Ok latency_ms
                      end
                  | None => Ok latency_ms
                  end
              | _ => Raise AttributeError
              end
          | None => Ok latency_ms
          end
      | _ => Raise AttributeError
      end
    else Ok latency_ms
  else Ok latency_ms.

End Samples.

(** ** Numbers *)

(** [int(f)]: truncation towards zero. *)
Definition float_to_int (f : float) : result Z :=
  match Prim2SF f with
  | S754_zero _ => Ok 0%Z
  | S754_infinity _ => Raise OverflowError
  | S754_nan => Raise ValueError
  | S754_finite sign m e =>
      let magnitude :=
        if (0 <=? e)%Z then (Zpos m * 2 ^ e)%Z else (Zpos m / 2 ^ (- e))%Z in
      Ok (if sign then (- magnitude)%Z else magnitude)
  end.

(** Digits with single underscores between them, and at least one digit. *)
Fixpoint int_body_ok (s : string) (prev_digit : bool) : bool :=
  match s with
  | EmptyString => prev_digit
  | String c t =>
      if is_digit c then int_body_ok t true
      else if Ascii.eqb c "_" then prev_digit && int_body_ok t false
      else false
  end.

Fixpoint digits_value (s : string) (acc : Z) : Z :=
  match s with
  | EmptyString => acc
  | String c t =>
      if is_digit c then digits_value t (10 * acc + (Z.of_N (code c) - 48))%Z
      else digits_value t acc
  end.

(** [int(s)] for a string: optional white space around an optional sign and
    decimal digits, single underscores allowed between digits; [None] where
    it raises [ValueError]. *)
Definition int_of_string (s : string) : option Z :=
  let body := strip s in
  let '(negative, digits) :=
    match body with
    | String "-" t => (true, t)
    | String "+" t => (false, t)
    | _ => (false, body)
    end in
  if int_body_ok digits false then
    Some (if negative then (- digits_value digits 0)%Z else digits_value digits 0)
  else None.

(** Arithmetic and comparison of two scores, each an [int] or a [float]. *)
Definition num_to_float (v : pyval) : float :=
  match v with
  | PInt z => Z2float z
  | PFloat f => f
  | _ => PrimFloat.nan
  end.

Definition py_add (a b : pyval) : pyval :=
  match a, b with
  | PInt x, PInt y => PInt (x + y)
  | _, _ => PFloat (PrimFloat.add (num_to_float a) (num_to_float b))
  end.

Definition py_sub (a b : pyval) : pyval :=
  match a, b with
  | PInt x, PInt y => PInt (x - y)
  | _, _ => PFloat (PrimFloat.sub (num_to_float a) (num_to_float b))
  end.

Definition py_lt (a b : pyval) : bool :=
  match a, b with
  | PInt x, PInt y => (x <? y)%Z
  | _, _ => PrimFloat.ltb (num_to_float a) (num_to_float b)
  end.

(** [sum(scores)] *)
Definition py_sum (scores : list pyval) : pyval := fold_left py_add scores (PInt 0).

(** [total / n] for a sum of scores and a length. *)
Definition py_truediv (total : pyval) (n : Z) : result pyval :=
  if (n =? 0)%Z then Raise ZeroDivisionError
  else Ok (PFloat (PrimFloat.div (num_to_float total) (Z2float n))).

(** [min(scores)] and [max(scores)]: the first of the smallest, the first of
    the largest. *)
Definition py_min (scores : list pyval) : result pyval :=
  match scores with
  | [] => Raise ValueError
  | x :: rest => Ok (fold_left (fun m y => if py_lt y m then y else m) rest x)
  end.

Definition py_max (scores : list pyval) : result pyval :=
  match scores with
  | [] => Raise ValueError
  | x :: rest => Ok (fold_left (fun m y => if py_lt m y then y else m) rest x)
  end.

(** ** Iterating a value *)

Fixpoint chars (s : string) : list pyval :=
  match s with
  | EmptyString => []
  | String c t => PStr (String c EmptyString) :: chars t
  end.

(** [len(v)] *)
Definition py_len (v : pyval) : result Z :=
  match v with
  | PList l => Ok (Z.of_nat (List.length l))
  | PStr s => Ok (Z.of_nat (String.length s))
  | PDict d => Ok (Z.of_nat (List.length d))
  | _ => Raise TypeError
  end.

(** The items [for s in v] visits. *)
Definition py_iter (v : pyval) : result (list pyval) :=
  match v with
  | PList l => Ok l
  | PStr s => Ok (chars s)
  | PDict d => Ok (map (fun kv => PStr (fst kv)) d)
  | _ => Raise TypeError
  end.

(** The items [for s in v[:n]] visits. *)
Definition py_iter_prefix (n : nat) (v : pyval) : result (list pyval) :=
  match v with
  | PList l => Ok (firstn n l)
  | PStr s => Ok (chars (take n s))
  | _ => Raise TypeError
  end.

(** ** Finding the log artifact in the tool's output *)

Fixpoint skip_while (p : ascii -> bool) (s : string) : string :=
  match s with
  | EmptyString => EmptyString
  | String c t => if p c then skip_while p t else s
  end.

Fixpoint take_while (p : ascii -> bool) (s : string) : string :=
  match s with
  | EmptyString => EmptyString
  | String c t => if p c then String c (take_while p t) else EmptyString
  end.

Definition ESC : ascii := ascii_of_nat 27.

(** What follows an escape character in a match of
    [\x1B(?:[@-Z\\-_]|\[[0-?]*[ -/]*[@-~])]: the text after the match. *)
Definition ansi_tail (t : string) : option string :=
  match t with
  | EmptyString => None
  | String d r =>
      if in_range 64 90 d || in_range 92 95 d then Some r
      else if Ascii.eqb d "[" then
        match skip_while (in_range 32 47) (skip_while (in_range 48 63) r) with
        | String e r3 => if in_range 64 126 e then Some r3 else None
        | EmptyString => None
        end
      else None
  end.

Fixpoint strip_ansi_upto (fuel : nat) (s : string) : string :=
  match fuel with
  | O => s
  | S fuel' =>
      match s with
      | EmptyString => EmptyString
      | String c t =>
          if Ascii.eqb c ESC then
            match ansi_tail t with
            | Some rest => strip_ansi_upto fuel' rest
            | None => String c (strip_ansi_upto fuel' t)
            end
          else String c (strip_ansi_upto fuel' t)
      end
  end.

(** [ansi_escape.sub('', s)] *)
Definition strip_ansi (s : string) : string := strip_ansi_upto (String.length s) s.

(** The class [[\w\-\+\.]]. *)
Definition is_log_name_char (c : ascii) : bool :=
  is_word c || existsb (Ascii.eqb c) ["-"; "+"; "."]%char.

(** The largest [k >= 1] at which [.eval] or [.json] stands in the run,
    counting from [k] at the first character of [s]. *)
Fixpoint last_extension (s : string) (k : nat) : option nat :=
  match s with
  | EmptyString => None
  | String _ t =>
      match last_extension t (S k) with
      | Some j => Some j
      | None =>
          if (1 <=? k)%nat && (prefix ".eval" s || prefix ".json" s) then Some k
          else None
      end
  end.

(** A match of [(logs/[\w\-\+\.]+\.(?:eval|json))] that starts at the first
    character of [s]: the class is greedy and gives back as little as it
    must. *)
Definition match_log_at (s : string) : option string :=
  if prefix "logs/" s then
    let run := take_while is_log_name_char (drop 5 s) in
    match last_extension run 0 with
    | Some k => Some ("logs/" ++ take (k + 5) run)
    | None => None
    end
  else None.

Fixpoint search_log (s : string) : option string :=
  match match_log_at s with
  | Some p => Some p
  | None =>
      match s with
      | EmptyString => None
      | String _ t => search_log t
      end
  end.

Fixpoint find_log_path (output_lines : list string) : option string :=
  match output_lines with
  | [] => None
  | line :: rest =>
      if contains "Log:" line ||
         (contains "logs/" (lower line) && (contains ".eval" line || contains ".json" line))
      then
        match search_log line with
        | Some p => Some p
        | None => find_log_path rest
        end
      else find_log_path rest
  end.

(** A match of [accuracy[:\s]+([0-9.]+)] under [re.IGNORECASE] that starts
    at the first character of [s]: its group 1. *)
Definition match_accuracy_at (s : string) : option string :=
  if String.eqb (lower (take 8 s)) "accuracy" then
    let after := drop 8 s in
    let rest := skip_sep after in
    if (String.length rest <? String.length after)%nat then
      let group := take_while (fun c => is_digit c || Ascii.eqb c ".") rest in
      if String.eqb group EmptyString then None else Some group
    else None
  else None.

Fixpoint search_accuracy (s : string) : option string :=
  match match_accuracy_at s with
  | Some g => Some g
  | None =>
      match s with
      | EmptyString => None
      | String _ t => search_accuracy t
      end
  end.

(** ** The world outside the runner *)

Record completed_process : Type := {
  returncode : Z;
  stdout : string;
  stderr : string
}.

(** What a path holds when the runner looks at it.  [Plain load]: not a zip
    archive; [load] is what [open] followed by [json.load] gives.
    [Archive open_zip load]: [zipfile.is_zipfile] holds; [open_zip] is what
    [ZipFile(path)] gives, the member names in order, each with what
    [json.load] makes of it; [load] is as for [Plain]. *)
Inductive file_state : Type :=
| Plain (load : result pyval)
| Archive (open_zip : result (list (string * result pyval))) (load : result pyval).

Record World : Type := {
  INSPECT_AI_AVAILABLE : bool;
  INSPECT_EVALS_AVAILABLE : bool;
  (* [os.getenv(name)] *)
  getenv : string -> option string;
  (* [os.path.abspath(path)] *)
  abspath : string -> string;
  (* [subprocess.run(cmd, ...)] of the given epoch, with the credential
     variable set in its environment and the deadline in seconds *)
  subprocess_run : nat -> list string -> string * string -> Z -> result completed_process;
  (* [os.path.exists(path)] and the files, after that epoch's process *)
  path_exists : nat -> string -> bool;
  file_at : nat -> string -> file_state;
  (* [(datetime.now() - start_time).total_seconds()] and
     [datetime.now().isoformat()] at the end of the run *)
  duration_seconds : float;
  timestamp : string
}.

(** The file accesses [parse_log_results] makes. *)
Inductive file_access : Type :=
| IsZipfile (path : string)
| OpenZip (path : string)
| ReadMember (path member : string)
| OpenText (path : string).

(** The loop over [zf.namelist()]. *)
Fixpoint read_members (path : string) (members : list (string * result pyval))
    (samples : list pyval) (header_data : pyval)
    : list file_access * result (list pyval * pyval) :=
  match members with
  | [] => ([], Ok (samples, header_data))
  | (name, loaded) :: rest =>
      if startswith name "samples/" && endswith name ".json" then
        match loaded with
        | Ok sample_data =>
            let '(trace, r) :=
              read_members path rest (samples ++ [sample_data])%list header_data in
            (ReadMember path name :: trace, r)
        | Raise e => ([ReadMember path name], Raise e)
        end
      else if String.eqb name "header.json" then
        match loaded with
        | Ok h =>
            let '(trace, r) := read_members path rest samples h in
            (ReadMember path name :: trace, r)
        | Raise e => ([ReadMember path name], Raise e)
        end
      else read_members path rest samples header_data
  end.

(** The exceptions [parse_log_results] turns into [None]. *)
Definition parse_log_caught (e : exn) : bool :=
  match e with
  | JSONDecodeError | FileNotFoundError | PermissionError | BadZipFile => true
  | _ => false
  end.

Definition parse_log_except (r : result pyval) : result pyval :=
  match r with
  | Raise e => if parse_log_caught e then Ok PNone else Raise e
  | Ok v => Ok v
  end.

Section Runner.

Variable B : Builtins.
Variable W : World.

(** The traversal check of [parse_log_results]: [true] when the resolved
    path is under the resolved logs directory, or is that directory. *)
Definition within_logs_dir (log_path : string) : bool :=
  let logs_dir := abspath W "logs" in
  let resolved_path := abspath W log_path in
  startswith resolved_path (logs_dir ++ "/") || String.eqb resolved_path logs_dir.

Definition parse_log_results (epoch : nat) (log_path : string)
    : list file_access * result pyval :=
  if negb (within_logs_dir log_path) then ([], Ok PNone)
  else if endswith log_path ".eval" then
    match file_at W epoch log_path with
    | Archive open_zip _ =>
        match open_zip with
        | Ok members =>
            let '(trace, r) := read_members log_path members [] (PDict []) in
            ((IsZipfile log_path :: OpenZip log_path :: trace)%list,
             parse_log_except
               (sh <- r ;;
                status <- py_get (snd sh) "status" (PStr "success") ;;
                results <- py_get (snd sh) "results" (PDict []) ;;
                Ok (PDict [("status", status); ("results", results);
                           ("samples", PList (fst sh))])))
        | Raise e =>
            ([IsZipfile log_path; OpenZip log_path], parse_log_except (Raise e))
        end
    | Plain load =>
        ([IsZipfile log_path; OpenText log_path], parse_log_except load)
    end
  else
    match file_at W epoch log_path with
    | Archive _ load | Plain load => ([OpenText log_path], parse_log_except load)
    end.

End Runner.

(** ** The generator *)

Inductive flow (A : Type) : Type :=
| Next (a : A)
| Return
| Uncaught (e : exn).
Arguments Next {A} a.
Arguments Return {A}.
Arguments Uncaught {A} e.

(** The events yielded so far, and how control left the code. *)
Definition gen (A : Type) : Type := (list pyval * flow A)%type.

Definition gret {A : Type} (a : A) : gen A := ([], Next a).

Definition gbind {A C : Type} (m : gen A) (f : A -> gen C) : gen C :=
  match m with
  | (events, Next a) =>
      let '(events', fl) := f a in ((events ++ events')%list, fl)
  | (events, Return) => (events, Return)
  | (events, Uncaught e) => (events, Uncaught e)
  end.

Definition yield (event : pyval) : gen unit := ([event], Next tt).

(** [return] inside the generator. *)
Definition stop {A : Type} : gen A := ([], Return).

Definition lift {A : Type} (r : result A) : gen A :=
  match r with
  | Ok a => gret a
  | Raise e => ([], Uncaught e)
  end.

(** [try: body except Exception as e: handler(e)] *)
Definition try_except {A : Type} (body : gen A) (handler : exn -> gen A) : gen A :=
  match body with
  | (events, Uncaught e) =>
      let '(events', fl) := handler e in ((events ++ events')%list, fl)
  | _ => body
  end.

Notation "x <~ m ;; k" := (gbind m (fun x => k))
  (at level 61, m at next level, right associativity).
Notation "m ;;> k" := (gbind m (fun _ => k))
  (at level 61, right associativity).

Record epoch_result : Type := {
  er_epoch : Z;
  er_score : pyval;
  er_correct : Z;
  er_total : Z
}.

Definition epoch_result_dict (r : epoch_result) : pyval :=
  PDict [("epoch", PInt (er_epoch r)); ("score", er_score r);
         ("correct", PInt (er_correct r)); ("total", PInt (er_total r))].

Definition docker_benchmarks : list string :=
  ["swe_bench"; "swe_bench_verified"; "cybench"; "gdm_intercode_ctf";
   "gdm_in_house_ctf"; "osworld"; "osworld_small"].

Definition dependency_error_patterns : list string :=
  ["please install"; "modulenotfounderror"; "no module named"; "importerror";
   "docker"; "package not found"; "swebench"; "mlebench"; "playwright"; "gensim"].

(** The events of a process that exited with a non-zero code (source lines
    879-933). *)
Definition report_failure (benchmark : string) (result : completed_process) : gen unit :=
  let error_msg :=
    if negb (String.eqb (stderr result) EmptyString) then stderr result
    else if negb (String.eqb (stdout result) EmptyString) then stdout result
    else "Unknown error" in
  let dep_info := get_benchmark_dependency_info benchmark in
  let error_lower := lower error_msg in
  let is_dependency_error := any_in dependency_error_patterns error_lower in
  let details := [("stderr", PStr (take 1000 error_msg));
                  ("returncode", PInt (returncode result))] in
  match is_dependency_error, dep_info with
  | true, Some d =>
      let user_message :=
        "Benchmark '" ++ benchmark ++ "' requires additional dependencies." ++ nl ++ nl in
      let user_message :=
        if negb (String.eqb (dep_description d) EmptyString)
        then user_message ++ "Description: " ++ dep_description d ++ nl
        else user_message in
      let user_message :=
        match dep_requirements d with
        | _ :: _ =>
            user_message ++ "Requirements: "
            ++ String.concat ", " (dep_requirements d) ++ nl
        | [] => user_message
        end in
      let user_message :=
        if truthy_str (dep_install_cmd d)
        then user_message ++ nl ++ "To install: "
             ++ match dep_install_cmd d with Some c => c | None => EmptyString end ++ nl
        else user_message ++ nl
             ++ "This benchmark requires system-level dependencies (Docker). Please ensure Docker is installed and running."
             ++ nl in
      yield (create_error EVALUATION_FAILED user_message
               (details ++ [("dependency_info", dependency_dict d)])%list)
  | true, None =>
      yield (create_error EVALUATION_FAILED
               ("Benchmark '" ++ benchmark
                ++ "' failed due to missing dependencies. Check the error details for more information.")
               details)
  | false, _ =>
      yield (create_error EVALUATION_FAILED
               "Benchmark evaluation failed. Please check your API key and try again."
               details)
  end.

Section Run.

Variable B : Builtins.
Variable W : World.

(** The loop that yields one result event per sample of the first epoch
    (source lines 1062-1101); [i] is the index of the first of [items] in
    [samples]. *)
Fixpoint emit_results (samples : pyval) (total : Z) (epoch : nat) (i : nat)
    (items : list pyval) : gen unit :=
  match items with
  | [] => gret tt
  | sample :: rest =>
      sample_correct <~ lift (is_sample_correct B sample) ;;
      predicted <~ lift (extract_predicted sample) ;;
      expected <~ lift (extract_expected B sample) ;;
      firsts <~ lift (py_iter_prefix (i + 1) samples) ;;
      running_correct <~ lift (count_correct B firsts) ;;
      latency_ms <~ lift (sample_latency B sample) ;;
      yield (create_result (Z.of_nat i + 1) total sample_correct
               (PFloat (int_truediv running_correct (Z.of_nat i + 1)))
               latency_ms
               [("predicted", PStr (take 50 predicted));
                ("expected", PStr (take 50 (py_str B expected)));
                ("epoch", PInt (Z.of_nat epoch + 1))]) ;;>
      emit_results samples total epoch (S i) rest
  end.

(** The branch for a log artifact that was found and exists (source lines
    955-1101). *)
Definition process_log (epoch : nat) (log_path : string) : gen epoch_result :=
  log_data <~ lift (snd (parse_log_results W epoch log_path)) ;;
  if negb (truthy log_data) then
    yield (create_error PARSE_ERROR ("Failed to parse results from " ++ log_path) []) ;;>
    stop
  else
    samples <~ lift (py_get log_data "samples" (PList [])) ;;
    total <~ lift (py_len samples) ;;
    items <~ lift (py_iter samples) ;;
    correct <~ lift (count_correct B items) ;;
    let epoch_result :=
      {| er_epoch := Z.of_nat epoch + 1;
         er_score := if (0 <? total)%Z then PFloat (int_truediv correct total) else PInt 0;
         er_correct := correct;
         er_total := total |} in
    (if (epoch =? 0)%nat then emit_results samples total epoch 0 items else gret tt) ;;>
    gret epoch_result.

(** The fallback branch (source lines 1102-1118): the accuracy figure
    scraped from standard output. *)
Definition scrape_stdout (epoch : nat) (limit : Z) (out : string) : gen epoch_result :=
  yield (create_progress "Parsing results from output..." []) ;;>
  match search_accuracy out with
  | Some group =>
      match py_float B group with
      | Some f =>
          let score := if PrimFloat.ltb 1 f then PrimFloat.div f 100 else f in
          correct <~ lift (float_to_int (PrimFloat.mul score (Z2float limit))) ;;
          gret {| er_epoch := Z.of_nat epoch + 1; er_score := PFloat score;
                  er_correct := correct; er_total := limit |}
      | None => lift (Raise ValueError)
      end
  | None =>
      yield (create_error PARSE_ERROR "Could not parse benchmark results"
               [("output_preview", PStr (take 500 out))]) ;;>
      stop
  end.

(** The body of the [try] up to the epoch's result (source lines 870-1118). *)
Definition run_epoch (benchmark : string) (limit : Z) (epoch : nat)
    (cmd : list string) (credential : string * string) (eval_timeout : Z)
    : gen epoch_result :=
  result <~ lift (subprocess_run W epoch cmd credential eval_timeout) ;;
  if negb (returncode result =? 0)%Z then
    report_failure benchmark result ;;> stop
  else
    let clean_output := strip_ansi (stdout result) in
    let output_lines := split_on (ascii_of_nat 10) (strip clean_output) in
    match find_log_path output_lines with
    | Some log_path =>
        if path_exists W epoch log_path then process_log epoch log_path
        else scrape_stdout epoch limit (stdout result)
    | None => scrape_stdout epoch limit (stdout result)
    end.

(** The [except] clauses of the loop body (source lines 1125-1141). *)
Definition epoch_except {A : Type} (eval_timeout : Z) (e : exn) : gen A :=
  match e with
  | TimeoutExpired =>
      yield (create_error EVALUATION_TIMEOUT
               ("Evaluation timed out after " ++ str_of_Z (eval_timeout / 60)
                ++ " minutes. Consider reducing the sample limit or using a faster model.")
               [("timeout_seconds", PInt eval_timeout)]) ;;>
      stop
  | JSONDecodeError =>
      yield (create_error PARSE_ERROR
               ("Failed to parse JSON results: " ++ exn_str B e) []) ;;>
      stop
  | PermissionError =>
      yield (create_error EVALUATION_FAILED
               ("Permission denied accessing log files: " ++ exn_str B e) []) ;;>
      stop
  | _ =>
      yield (create_error EVALUATION_FAILED
               ("Evaluation failed unexpectedly: " ++ exn_str B e) []) ;;>
      stop
  end.

Definition credential_variable (provider : string) : string :=
  if String.eqb provider "anthropic" then "ANTHROPIC_API_KEY"
  else if String.eqb provider "google" then "GOOGLE_API_KEY"
  else "OPENAI_API_KEY".

(** [for epoch in range(epochs)] (source lines 841-1141), from [epoch] on,
    [remaining] rounds. *)
Fixpoint run_epochs (task_name model_id benchmark : string) (limit : Z)
    (api_key provider : string) (provider_config : provider_config)
    (temperature : option float) (max_tokens seed : option Z) (epochs : Z)
    (eval_timeout : Z) (remaining epoch : nat)
    (all_epoch_results : list epoch_result) : gen (list epoch_result) :=
  match remaining with
  | O => gret all_epoch_results
  | S remaining' =>
      (if (1 <? epochs)%Z then
         yield (create_progress
                  ("Starting epoch " ++ str_of_Z (Z.of_nat epoch + 1) ++ "/"
                   ++ str_of_Z epochs ++ "...") [])
       else gret tt) ;;>
      let cmd := build_inspect_command B task_name model_id limit provider
                   provider_config temperature seed max_tokens None in
      yield (create_progress
               ("Executing: " ++ String.concat " " (firstn 5 cmd) ++ "...") []) ;;>
      epoch_result <~
        try_except
          (epoch_result <~ run_epoch benchmark limit epoch cmd
                             (credential_variable provider, api_key) eval_timeout ;;
           (if (1 <? epochs)%Z then
              yield (create_progress
                       ("Epoch " ++ str_of_Z (Z.of_nat epoch + 1) ++ " complete: "
                        ++ py_format_1f B
                             (PFloat (PrimFloat.mul
                                        (num_to_float (er_score epoch_result)) 100))
                        ++ "%") [])
            else gret tt) ;;>
           gret epoch_result)
          (epoch_except eval_timeout) ;;
      run_epochs task_name model_id benchmark limit api_key provider provider_config
        temperature max_tokens seed epochs eval_timeout remaining' (S epoch)
        (all_epoch_results ++ [epoch_result])%list
  end.

(** The complete event after the loop (source lines 1143-1186). *)
Definition aggregate (model_id benchmark : string) (limit : Z) (provider : string)
    (provider_config : provider_config) (seed : option Z) (epochs : Z)
    (all_epoch_results : list epoch_result) : gen unit :=
  let tail := [("duration_seconds", PFloat (duration_seconds W));
               ("timestamp", PStr (timestamp W));
               ("seed", py_opt_int seed)] in
  let head := [("model", PStr model_id); ("benchmark", PStr benchmark);
               ("provider", PStr provider);
               ("provider_name", PStr (pc_name provider_config))] in
  if (1 <? epochs)%Z then
    let scores := map er_score all_epoch_results in
    avg_score <~ lift (py_truediv (py_sum scores) (Z.of_nat (List.length scores))) ;;
    min_score <~ lift (py_min scores) ;;
    max_score <~ lift (py_max scores) ;;
    let total_correct := fold_left Z.add (map er_correct all_epoch_results) 0%Z in
    let total_samples := fold_left Z.add (map er_total all_epoch_results) 0%Z in
    yield (create_complete avg_score total_correct total_samples
             (head ++ [("min_score", min_score); ("max_score", max_score);
                       ("score_variance", py_sub max_score min_score);
                       ("epochs", PInt epochs);
                       ("epoch_results", PList (map epoch_result_dict all_epoch_results))]
              ++ tail)%list)
  else
    let result_data :=
      match all_epoch_results with
      | r :: _ => r
      | [] => {| er_epoch := 0; er_score := PInt 0; er_correct := 0; er_total := limit |}
      end in
    yield (create_complete (er_score result_data) (er_correct result_data)
             (er_total result_data) (head ++ tail)%list).

(** [timeout or int(os.getenv("EVAL_TIMEOUT", "600"))] *)
Definition base_timeout (timeout : option Z) : result Z :=
  let from_env :=
    match int_of_string (match getenv W "EVAL_TIMEOUT" with
                         | Some v => v
                         | None => "600"
                         end) with
    | Some z => Ok z
    | None => Raise ValueError
    end in
  match timeout with
  | Some t => if (t =? 0)%Z then from_env else Ok t
  | None => from_env
  end.

Definition run_with_inspect_ai (model_id benchmark : string) (limit : Z)
    (api_key : option string) (provider : string) (temperature : option float)
    (max_tokens seed : option Z) (epochs : Z) (timeout : option Z) : gen unit :=
  let provider := lower provider in
  if negb (INSPECT_AI_AVAILABLE W) then
    yield (create_error INSPECT_NOT_INSTALLED
             "inspect-ai not installed. Run: pip install inspect-ai" []) ;;>
    stop
  else if negb (INSPECT_EVALS_AVAILABLE W) then
    yield (create_error EVALS_NOT_INSTALLED
             "inspect-evals not installed. Run: pip install inspect-evals" []) ;;>
    stop
  else
    match validate_parameters model_id benchmark limit provider temperature seed
            (Some epochs) with
    | Some validation_error => yield validation_error ;;> stop
    | None =>
        task_name <~ lift (match assoc benchmark SUPPORTED_BENCHMARKS with
                           | Some t => Ok t
                           | None => Raise KeyError
                           end) ;;
        provider_config <~ lift (match assoc provider PROVIDERS with
                                 | Some c => Ok c
                                 | None => Raise KeyError
                                 end) ;;
        let api_key :=
          if truthy_str api_key then api_key
          else getenv W (pc_api_key_env provider_config) in
        if negb (truthy_str api_key) then
          yield (create_error API_KEY_MISSING
                   ("API key not configured for provider '" ++ provider
                    ++ "'. Please set " ++ pc_api_key_env provider_config
                    ++ " environment variable.")
                   [("provider", PStr provider);
                    ("env_var", PStr (pc_api_key_env provider_config))]) ;;>
          stop
        else
          let api_key := match api_key with Some key => key | None => EmptyString end in
          base <~ lift (base_timeout timeout) ;;
          let eval_timeout :=
            if str_in benchmark docker_benchmarks
            then Z.max 1800 (1800 + limit * 300)
            else if is_reasoning_model model_id then Z.max base (limit * 60)
            else base in
          yield (create_progress
                   ("Running " ++ task_name ++ " via " ++ pc_name provider_config
                    ++ " with limit=" ++ str_of_Z limit
                    ++ (match seed with
                        | Some sd => if (sd =? 0)%Z then EmptyString
                                     else ", seed=" ++ str_of_Z sd
                        | None => EmptyString
                        end)
                    ++ (if (1 <? epochs)%Z then ", epochs=" ++ str_of_Z epochs
                        else EmptyString)
                    ++ "...")
                   [("provider", PStr provider); ("seed", py_opt_int seed);
                    ("epochs", PInt epochs)]) ;;>
          all_epoch_results <~
            run_epochs task_name model_id benchmark limit api_key provider
              provider_config temperature max_tokens seed epochs eval_timeout
              (Z.to_nat epochs) 0 [] ;;
          aggregate model_id benchmark limit provider provider_config seed epochs
            all_epoch_results
    end.

End Run.

(** ** Reading events *)

(** [event["type"]] *)
Definition event_type (event : pyval) : option string :=
  match event with
  | PDict d => match assoc "type" d with Some (PStr t) => Some t | _ => None end
  | _ => None
  end.

(** [event["data"][field]] *)
Definition event_field (field : string) (event : pyval) : option pyval :=
  match event with
  | PDict d => match assoc "data" d with Some (PDict data) => assoc field data | _ => None end
  | _ => None
  end.

Definition has_type (t : string) (event : pyval) : bool :=
  match event_type event with
  | Some t' => String.eqb t' t
  | None => false
  end.

(** A terminal event: of type [complete] or [error]. *)
Definition is_terminal (event : pyval) : bool :=
  has_type "complete" event || has_type "error" event.

Definition result_events (events : list pyval) : list pyval :=
  filter (has_type "result") events.

(** The number of events whose [correct] field is [True]. *)
Definition count_correct_flags (events : list pyval) : Z :=
  Z.of_nat (List.length
              (filter (fun e => match event_field "correct" e with
                                | Some (PBool true) => true
                                | _ => false
                                end) events)).

(** [cmd] holds the flag directly followed by the value. *)
Definition has_flag (flag value : string) (cmd : list string) : Prop :=
  exists before after, cmd = (before ++ flag :: value :: after)%list.

(** The path is outside the directory: it is not the directory and does not
    continue it after a separator. *)
Definition outside_directory (dir path : string) : Prop :=
  path <> dir /\ forall rest, path <> dir ++ "/" ++ rest.

(** ** A runtime and worlds for the examples

    [example_builtins] answers as Python does on the values the examples
    reach; the examples reach no other. *)

Definition example_builtins : Builtins := {|
  py_repr := fun v =>
    match v with
    | PNone => "None"
    | PBool true => "True"
    | PBool false => "False"
    | PInt z => str_of_Z z
    | PFloat f => if PrimFloat.eqb f 0.7 then "0.7" else EmptyString
    | _ => EmptyString
    end;
  py_float := fun s =>
    if String.eqb s "0.8" then Some 0.8%float
    else if String.eqb s "0.6" then Some 0.6%float
    else if String.eqb s "0.7" then Some 0.7%float
    else if String.eqb s "85" then Some 85%float
    else None;
  py_format_1f := fun v =>
    match v with
    | PFloat f =>
        if PrimFloat.eqb f 80 then "80.0"
        else if PrimFloat.eqb f 60 then "60.0"
        else if PrimFloat.eqb f 70 then "70.0"
        else EmptyString
    | _ => EmptyString
    end;
  datetime := unit;
  fromisoformat := fun _ => None;
  delta_ms := fun _ _ => None;
  exn_str := fun _ => EmptyString
|}.

Definition provider_named (provider : string) : provider_config :=
  match assoc provider PROVIDERS with
  | Some c => c
  | None => {| pc_name := EmptyString; pc_base_url := None;
               pc_api_key_env := EmptyString; pc_model_prefix := EmptyString;
               pc_description := EmptyString |}
  end.

(** ** The parts of a command

    The command read as four segments: what every command starts with, the
    flags for the model's mode, the shuffle flags and the token flags. *)

Definition base_command (task_name model_id : string) (limit : Z) (provider : string)
    (pc : provider_config) : list string :=
  let prefix_ :=
    if String.eqb provider "anthropic" then "anthropic/"
    else if String.eqb provider "google" then "google/"
    else pc_model_prefix pc in
  let url :=
    if String.eqb provider "anthropic" || String.eqb provider "google" then []
    else match pc_base_url pc with
         | Some url =>
             if negb (String.eqb url EmptyString) && negb (String.eqb provider "openai")
             then ["--model-base-url"; url] else []
         | None => []
         end in
  extend ["inspect"; "eval"; task_name; "--model"; prefix_ ++ model_id;
          "--limit"; str_of_Z limit; "--log-format"; "json"] url.

(** The caller's effort when it is given and not empty. *)
Definition effort_or (effort : option string) (default : string) : string :=
  match effort with
  | Some e => if truthy_str effort then e else default
  | None => default
  end.

(** The reasoning flags by provider, as the specification tabulates them. *)
Definition reasoning_flags (provider model_id : string) (effort : option string)
    : list string :=
  if String.eqb provider "openrouter" && is_openai_reasoning model_id then
    ["--reasoning-effort"; match effort with Some e => e | None => "none" end]
  else if String.eqb provider "openai" then
    ["--reasoning-effort"; effort_or effort "medium"; "--reasoning-summary"; "auto"]
  else if String.eqb provider "anthropic" || String.eqb provider "google" then []
  else if truthy_str effort then ["--reasoning-effort"; effort_or effort EmptyString]
  else [].

Definition temperature_flags (B : Builtins) (temperature : option float) : list string :=
  match temperature with
  | Some t => ["--temperature"; py_repr B (PFloat t)]
  | None => []
  end.

Definition shuffle_flags (seed : option Z) : list string :=
  match seed with
  | Some s => ["--seed"; str_of_Z s; "--sample-shuffle"; str_of_Z s]
  | None => ["--sample-shuffle"]
  end.

Definition token_flags (max_tokens : option Z) : list string :=
  ["--max-tokens"; str_of_Z (effective_max_tokens max_tokens);
   "-T"; "max_non_cot_tokens=" ++ str_of_Z (effective_max_tokens max_tokens)].

(** ** Reading a sample *)





(** [sample.get("scores", {})] holds ["choice"], in the sense of [in]. *)
Definition scored_by_choice (sample : pyval) : bool :=
  match py_get sample "scores" (PDict []) with
  | Ok scores => match py_in "choice" scores with Ok b => b | Raise _ => false end
  | Raise _ => false
  end.

Definition sample_with (text : string) (target : pyval) (choice : list (string * pyval))
    : pyval :=
  PDict [("output",
          PDict [("choices",
                  PList [PDict [("message", PDict [("content", PStr text)])]])]);
         ("target", target);
         ("scores", PDict [("choice", PDict choice)])].

(** ** POSIX paths, for the example worlds *)

(** The loop of [posixpath.normpath] over the components; [stack] holds the
    components kept so far, the last one first. *)
Fixpoint normalize_components (rooted : bool) (comps stack : list string) : list string :=
  match comps with
  | [] => rev stack
  | comp :: rest =>
      if String.eqb comp EmptyString || String.eqb comp "." then
        normalize_components rooted rest stack
      else if negb (String.eqb comp "..") then normalize_components rooted rest (comp :: stack)
      else
        match stack with
        | [] => if rooted then normalize_components rooted rest stack
                else normalize_components rooted rest (comp :: stack)
        | top :: below =>
            if String.eqb top ".." then normalize_components rooted rest (comp :: stack)
            else normalize_components rooted rest below
        end
  end.

(** [posixpath.normpath(path)] *)
Definition posix_normpath (path : string) : string :=
  if String.eqb path EmptyString then "."
  else
    let initial_slashes :=
      if startswith path "/" then
        if startswith path "//" && negb (startswith path "///") then "//" else "/"
      else EmptyString in
    let comps :=
      normalize_components (startswith path "/") (split_on "/" path) [] in
    let joined := initial_slashes ++ String.concat "/" comps in
    if String.eqb joined EmptyString then "." else joined.

(** [posixpath.abspath(path)] in the working directory [cwd]. *)
Definition posix_abspath (cwd path : string) : string :=
  if startswith path "/" then posix_normpath path
  else if String.eqb cwd EmptyString || endswith cwd "/" then posix_normpath (cwd ++ path)
  else posix_normpath (cwd ++ "/" ++ path).

(** A world for the examples: a service started in [/srv/app] with both
    packages installed and every credential set. *)
Definition example_world (eval_timeout : option string)
    (run : nat -> result completed_process) (exists_ : nat -> string -> bool)
    (file : nat -> string -> file_state) : World := {|
  INSPECT_AI_AVAILABLE := true;
  INSPECT_EVALS_AVAILABLE := true;
  getenv := fun name =>
    if String.eqb name "EVAL_TIMEOUT" then eval_timeout else Some "sk-example";
  abspath := posix_abspath "/srv/app";
  subprocess_run := fun epoch _ _ _ => run epoch;
  path_exists := exists_;
  file_at := file;
  duration_seconds := 12.5%float;
  timestamp := "2026-01-15T10:30:00"
|}.

(** A process that exits with code 0 and prints [out]. *)
Definition prints (out : string) : result completed_process :=
  Ok {| returncode := 0; stdout := out; stderr := EmptyString |}.

(** ** Reading a run *)

(** The log path the runner finds in what the tool printed. *)
Definition located_log (out : string) : option string :=
  find_log_path (split_on (ascii_of_nat 10) (strip (strip_ansi out))).

(** No artifact to parse: no path was found, or the path does not exist. *)
Definition no_artifact (W : World) (epoch : nat) (out : string) : Prop :=
  match located_log out with
  | Some log_path => path_exists W epoch log_path = false
  | None => True
  end.

Definition last_event (g : gen unit) : pyval := last (fst g) PNone.

(** ** The shape of an event sequence *)

Definition no_terminal (events : list pyval) : Prop :=
  Forall (fun e => is_terminal e = false) events.

(** Exactly one terminal event, and it is the last event. *)
Definition ends_in_terminal (events : list pyval) : Prop :=
  exists before t,
    events = (before ++ [t])%list /\ no_terminal before /\ is_terminal t = true.


(** The whole run: unless an exception leaves the generator, its events end
    in their only terminal event. *)
Definition well_terminated (g : gen unit) : Prop :=
  match snd g with
  | Uncaught _ => no_terminal (fst g)
  | _ => ends_in_terminal (fst g)
  end.

(** Every event a part of the generator yields satisfies [P]. *)
Definition all_events {A : Type} (P : pyval -> Prop) (g : gen A) : Prop :=
  Forall P (fst g).

Definition not_of_type (t : string) (event : pyval) : Prop := has_type t event = false.

(** ** Example runs *)

(** A run of [gpt-4o] on [mmlu] through OpenRouter with the default
    arguments of the service: ten samples, no seed, no deadline given. *)
Definition example_run (W : World) (epochs : Z) : gen unit :=
  run_with_inspect_ai example_builtins W "gpt-4o" "mmlu" 10 None "openrouter"
    None (Some 1024%Z) None epochs None.

(** The tool names a log that exists and does not parse. *)
Definition world_with_broken_log : World :=
  example_world None (fun _ => prints "Log: logs/run.json") (fun _ _ => true)
    (fun _ _ => Plain (Raise JSONDecodeError)).


(** The service is configured with [EVAL_TIMEOUT=10m]. *)
Definition world_with_malformed_timeout : World :=
  example_world (Some "10m") (fun _ => prints "accuracy: 0.8") (fun _ _ => false)
    (fun _ _ => Plain (Raise FileNotFoundError)).


(** The tool writes an archive of three samples: the first and the third
    answered correctly, the second not. *)
Definition world_of_three_samples : World :=
  example_world None (fun _ => prints "Log: logs/2026-01-15T10-30-00+00-00_mmlu_abc.eval")
    (fun _ _ => true)
    (fun _ _ =>
       Archive
         (Ok [("header.json", Ok (PDict [("status", PStr "success")]));
              ("samples/1_epoch_1.json", Ok (sample_with "Answer: B" (PStr "B") []));
              ("samples/2_epoch_1.json", Ok (sample_with "Answer: A" (PStr "B") []));
              ("samples/3_epoch_1.json", Ok (sample_with "ANSWER: c" (PStr "C") []))])
         (Raise UnicodeDecodeError)).

(** The result events a part of the generator yields. *)
Definition results_of {A : Type} (g : gen A) : list pyval := result_events (fst g).

(** The running score of every result event is the share of correct events
    among the result events up to it, and its question number its rank. *)
Definition prefix_accurate (events : list pyval) : Prop :=
  forall (k : nat) (e : pyval),
    nth_error events k = Some e ->
    event_field "running_score" e
    = Some (PFloat (int_truediv (count_correct_flags (firstn (S k) events))
                      (Z.of_nat (S k)))) /\
    event_field "question" e = Some (PInt (Z.of_nat (S k))).

(** The result events of a run are those of the loop over the samples of
    its first epoch, when it has any. *)
Definition from_first_epoch (B : Builtins) (events : list pyval) : Prop :=
  events = [] \/
  exists (all : list pyval) (total : Z) (c : Z),
    count_correct B all = Ok c /\
    events = fst (emit_results B (PList all) total 0 0 all).

(** None of the helpers the result loop calls raises on the sample. *)
Definition well_behaved (B : Builtins) (sample : pyval) : Prop :=
  (exists b, is_sample_correct B sample = Ok b) /\
  (exists predicted, extract_predicted sample = Ok predicted) /\
  (exists expected, extract_expected B sample = Ok expected) /\
  (exists latency, sample_latency B sample = Ok latency).

(** The epoch's result sums up the result events: as many events as its
    total, as many of them correct as its count, and its score is the
    running score of the last. *)
Definition sums_up (r : epoch_result) (events : list pyval) : Prop :=
  er_total r = Z.of_nat (List.length events) /\
  er_correct r = count_correct_flags events /\
  event_field "running_score" (last events PNone) = Some (er_score r).

(** A file name that the log pattern accepts after [logs/]: characters of
    the class only, ending in [.eval] or [.json] with something before. *)
Definition is_log_name (name : string) : Prop :=
  all_chars is_log_name_char name = true /\
  exists stem : string,
    stem <> EmptyString /\ (name = stem ++ ".eval" \/ name = stem ++ ".json").

(** ** Reading an archive *)

(** A member that holds a sample: [samples/....json]. *)
Definition is_sample_member (name : string) : bool :=
  startswith name "samples/" && endswith name ".json".

(** The samples of an archive, in the order of its members. *)
Definition samples_of (members : list (string * result pyval)) : list pyval :=
  flat_map (fun m => if is_sample_member (fst m)
                     then match snd m with Ok v => [v] | Raise _ => [] end
                     else [])
    members.

(** The header of an archive: what its last [header.json] holds, an empty
    dictionary when it has none. *)
Definition header_of (members : list (string * result pyval)) : pyval :=
  fold_left (fun header m =>
               if negb (is_sample_member (fst m)) && String.eqb (fst m) "header.json"
               then match snd m with Ok v => v | Raise _ => header end
               else header)
    members (PDict []).

(** The members that [parse_log_results] reads all decode. *)
Definition readable (members : list (string * result pyval)) : Prop :=
  Forall (fun m => is_sample_member (fst m) = true \/ fst m = "header.json" ->
                   exists v, snd m = Ok v)
    members.

(** The accesses to the members that [parse_log_results] reads. *)
Definition member_reads (path : string) (members : list (string * result pyval))
    : list file_access :=
  flat_map (fun m => if is_sample_member (fst m) || String.eqb (fst m) "header.json"
                     then [ReadMember path (fst m)] else [])
    members.

(** ** The providers and their credentials *)

Definition get_available_providers (W : World) : list pyval :=
  map (fun entry =>
         let provider_id := fst entry in
         let config := snd entry in
         let has_key := truthy_str (getenv W (pc_api_key_env config)) in
         PDict [("id", PStr provider_id);
                ("name", PStr (pc_name config));
                ("description", PStr (pc_description config));
                ("configured", PBool has_key);
                ("api_key_env", PStr (pc_api_key_env config))])
    PROVIDERS.

Definition is_inspect_available (W : World) : bool :=
  INSPECT_AI_AVAILABLE W && INSPECT_EVALS_AVAILABLE W.

Definition get_supported_benchmarks : list string := map fst SUPPORTED_BENCHMARKS.

(** The [configured] flag of the entry that [get_available_providers] lists
    under the given id. *)
Definition configured_flag (providers : list pyval) (id : string) : option pyval :=
  match find (fun p => match p with
                       | PDict d => match assoc "id" d with
                                    | Some v => is_str v id
                                    | None => false
                                    end
                       | _ => false
                       end) providers with
  | Some (PDict d) => assoc "configured" d
  | _ => None
  end.

(** ** The events of the loop *)

(** What the loop over the epochs and the aggregation after it yield:
    events built by the four constructors; only the errors carry a code,
    one of three. *)
Inductive loop_event : pyval -> Prop :=
| loop_progress (message : string) (extra : list (string * pyval)) :
    assoc "code" extra = None ->
    loop_event (create_progress message extra)
| loop_result (question total : Z) (correct : bool) (running_score latency_ms : pyval)
    (extra : list (string * pyval)) :
    assoc "code" extra = None ->
    loop_event (create_result question total correct running_score latency_ms extra)
| loop_complete (score : pyval) (correct total : Z) (extra : list (string * pyval)) :
    assoc "code" extra = None ->
    loop_event (create_complete score correct total extra)
| loop_error (code : ErrorCode) (message : string) (details : list (string * pyval)) :
    In code [EVALUATION_TIMEOUT; EVALUATION_FAILED; PARSE_ERROR] ->
    loop_event (create_error code message details).

(** * The service

    [main.py] lists the benchmarks, relays the events of a run as
    server-sent events and, for the synchronous endpoint, reads them back.
    Each event is framed as [data: ] followed by its JSON text and an empty
    line, and [run_evaluation_sync] decodes the text again.  The embedding
    keeps the value between [json.dumps] and [json.loads], which give it
    back unchanged for the values of this file, and leaves the framing
    out. *)

(** ** The catalogue *)

Record benchmark_entry : Type := {
  be_name : string;
  be_description : string;
  be_category : string;
  be_inspect_task : string
}.

Definition catalogued (name description category inspect_task : string)
    : benchmark_entry :=
  {| be_name := name; be_description := description; be_category := category;
     be_inspect_task := inspect_task |}.

Definition AVAILABLE_BENCHMARKS : list (string * benchmark_entry) := [
  ("apps",
   catalogued "APPS" "Automated Programming Progress Standard"
     "coding" "inspect_evals/apps");
  ("agent_bench",
   catalogued "AgentBench" "Agent capabilities benchmark"
     "coding" "inspect_evals/agent_bench");
  ("bigcodebench",
   catalogued "BigCodeBench" "Large-scale code generation benchmark"
     "coding" "inspect_evals/bigcodebench");
  ("core_bench",
   catalogued "CORE-Bench" "Code reasoning benchmark"
     "coding" "inspect_evals/core_bench");
  ("class_eval",
   catalogued "ClassEval" "Class-level code generation"
     "coding" "inspect_evals/class_eval");
  ("ds1000",
   catalogued "DS-1000" "Data science code generation"
     "coding" "inspect_evals/ds1000");
  ("humaneval",
   catalogued "HumanEval" "Python programming problems"
     "coding" "inspect_evals/humaneval");
  ("mbpp",
   catalogued "MBPP" "Mostly Basic Python Problems"
     "coding" "inspect_evals/mbpp");
  ("mle_bench",
   catalogued "MLE-bench" "Machine learning engineering benchmark"
     "coding" "inspect_evals/mle_bench");
  ("mle_bench_lite",
   catalogued "MLE-bench Lite" "Lightweight ML engineering benchmark"
     "coding" "inspect_evals/mle_bench_lite");
  ("paperbench",
   catalogued "PaperBench" "Research paper implementation benchmark"
     "coding" "inspect_evals/paperbench");
  ("swe_bench",
   catalogued "SWE-bench" "Real-world software engineering tasks"
     "coding" "inspect_evals/swe_bench");
  ("swe_bench_verified",
   catalogued "SWE-bench Verified" "Verified software engineering tasks"
     "coding" "inspect_evals/swe_bench_verified");
  ("scicode",
   catalogued "SciCode" "Scientific code generation"
     "coding" "inspect_evals/scicode");
  ("usaco",
   catalogued "USACO" "USA Computing Olympiad problems"
     "coding" "inspect_evals/usaco");
  ("assistant_bench",
   catalogued "AssistantBench" "General assistant capabilities"
     "assistant" "inspect_evals/assistant_bench");
  ("assistant_bench_closed",
   catalogued "AssistantBench (Closed)" "Closed-book assistant evaluation"
     "assistant" "inspect_evals/assistant_bench_closed_book");
  ("assistant_bench_web",
   catalogued "AssistantBench (Web)" "Web search assistant evaluation"
     "assistant" "inspect_evals/assistant_bench_web_search");
  ("bfcl",
   catalogued "BFCL" "Berkeley Function-Calling Leaderboard"
     "assistant" "inspect_evals/bfcl");
  ("browse_comp",
   catalogued "BrowseComp" "Web browsing comprehension"
     "assistant" "inspect_evals/browse_comp");
  ("gaia",
   catalogued "GAIA" "General AI Assistants benchmark"
     "assistant" "inspect_evals/gaia");
  ("gaia_level1",
   catalogued "GAIA Level 1" "GAIA easy difficulty"
     "assistant" "inspect_evals/gaia_level1");
  ("gaia_level2",
   catalogued "GAIA Level 2" "GAIA medium difficulty"
     "assistant" "inspect_evals/gaia_level2");
  ("gaia_level3",
   catalogued "GAIA Level 3" "GAIA hard difficulty"
     "assistant" "inspect_evals/gaia_level3");
  ("gdpval",
   catalogued "GDPval" "GDP validation benchmark"
     "assistant" "inspect_evals/gdpval");
  ("mind2web",
   catalogued "Mind2Web" "Web agent benchmark"
     "assistant" "inspect_evals/mind2web");
  ("osworld",
   catalogued "OSWorld" "Operating system interaction benchmark"
     "assistant" "inspect_evals/osworld");
  ("osworld_small",
   catalogued "OSWorld (Small)" "Lightweight OS interaction benchmark"
     "assistant" "inspect_evals/osworld_small");
  ("sycophancy",
   catalogued "Sycophancy" "Sycophancy evaluation"
     "assistant" "inspect_evals/sycophancy");
  ("cve_bench",
   catalogued "CVEBench" "CVE vulnerability detection"
     "cybersecurity" "inspect_evals/cve_bench");
  ("cyberseceval_3",
   catalogued "CyberSecEval 3" "Cybersecurity evaluation v3"
     "cybersecurity" "inspect_evals/cyberseceval_3");
  ("cyberseceval_2",
   catalogued "CyberSecEval 2" "Cybersecurity evaluation v2"
     "cybersecurity" "inspect_evals/cyberseceval_2");
  ("threecb",
   catalogued "3CB" "Catastrophic Cyber Capabilities Benchmark"
     "cybersecurity" "inspect_evals/threecb");
  ("cybench",
   catalogued "CyBench" "Cybersecurity benchmark"
     "cybersecurity" "inspect_evals/cybench");
  ("cybermetric",
   catalogued "CyberMetric" "Cybersecurity metrics evaluation"
     "cybersecurity" "inspect_evals/cybermetric");
  ("gdm_intercode_ctf",
   catalogued "InterCode CTF" "CTF challenge benchmark"
     "cybersecurity" "inspect_evals/gdm_intercode_ctf");
  ("gdm_in_house_ctf",
   catalogued "In-House CTF" "Custom CTF challenges"
     "cybersecurity" "inspect_evals/gdm_in_house_ctf");
  ("sevenllm",
   catalogued "7LLM" "Security evaluation benchmark"
     "cybersecurity" "inspect_evals/sevenllm");
  ("sandboxbench",
   catalogued "SandboxBench" "Sandbox escape evaluation"
     "cybersecurity" "inspect_evals/sandboxbench");
  ("sec_qa",
   catalogued "SecQA" "Security Q&A benchmark"
     "cybersecurity" "inspect_evals/sec_qa");
  ("ahb",
   catalogued "AHB" "Adversarial Helpfulness Benchmark"
     "safety" "inspect_evals/ahb");
  ("abstention_bench",
   catalogued "Abstention Bench" "Appropriate abstention evaluation"
     "safety" "inspect_evals/abstention_bench");
  ("agentdojo",
   catalogued "AgentDojo" "Agent safety evaluation"
     "safety" "inspect_evals/agentdojo");
  ("agentharm",
   catalogued "AgentHarm" "Agent harm evaluation"
     "safety" "inspect_evals/agentharm");
  ("fortress",
   catalogued "Fortress" "Robustness evaluation"
     "safety" "inspect_evals/fortress");
  ("lab_bench",
   catalogued "LabBench" "Laboratory safety benchmark"
     "safety" "inspect_evals/lab_bench");
  ("mask",
   catalogued "MASK" "Safety masking evaluation"
     "safety" "inspect_evals/mask");
  ("make_me_pay",
   catalogued "Make Me Pay" "Persuasion resistance evaluation"
     "safety" "inspect_evals/make_me_pay");
  ("makemesay",
   catalogued "Make Me Say" "Prompt injection resistance"
     "safety" "inspect_evals/makemesay");
  ("mind2web_sc",
   catalogued "Mind2Web Safety" "Web agent safety evaluation"
     "safety" "inspect_evals/mind2web_sc");
  ("stereoset",
   catalogued "StereoSet" "Stereotype bias evaluation"
     "safety" "inspect_evals/stereoset");
  ("strong_reject",
   catalogued "Strong Reject" "Refusal strength evaluation"
     "safety" "inspect_evals/strong_reject");
  ("coconot",
   catalogued "CoCoNot" "Constraint compliance evaluation"
     "safety" "inspect_evals/coconot");
  ("wmdp",
   catalogued "WMDP" "Weapons of Mass Destruction Proxy"
     "safety" "inspect_evals/wmdp");
  ("b3",
   catalogued "B3" "Biosecurity benchmark"
     "safety" "inspect_evals/b3");
  ("toxigen",
   catalogued "ToxiGen" "Toxicity detection and avoidance"
     "safety" "inspect_evals/toxigen");
  ("xstest",
   catalogued "XSTest" "Safety and refusal evaluation"
     "safety" "inspect_evals/xstest");
  ("aime2024",
   catalogued "AIME 2024" "American Invitational Math Exam 2024"
     "math" "inspect_evals/aime2024");
  ("aime2025",
   catalogued "AIME 2025" "American Invitational Math Exam 2025"
     "math" "inspect_evals/aime2025");
  ("gsm8k",
   catalogued "GSM8K" "Grade school math word problems"
     "math" "inspect_evals/gsm8k");
  ("math",
   catalogued "MATH" "Competition mathematics problems"
     "math" "inspect_evals/math");
  ("mgsm",
   catalogued "MGSM" "Multilingual grade school math"
     "math" "inspect_evals/mgsm");
  ("mathvista",
   catalogued "MathVista" "Visual math reasoning"
     "math" "inspect_evals/mathvista");
  ("arc",
   catalogued "ARC Challenge" "AI2 Reasoning Challenge"
     "reasoning" "inspect_evals/arc_challenge");
  ("bbh",
   catalogued "BBH" "Big Bench Hard"
     "reasoning" "inspect_evals/bbh");
  ("bbeh",
   catalogued "BBEH" "Big Bench Extra Hard"
     "reasoning" "inspect_evals/bbeh");
  ("boolq",
   catalogued "BoolQ" "Boolean question answering"
     "reasoning" "inspect_evals/boolq");
  ("drop",
   catalogued "DROP" "Discrete reasoning over paragraphs"
     "reasoning" "inspect_evals/drop");
  ("hellaswag",
   catalogued "HellaSwag" "Commonsense reasoning"
     "reasoning" "inspect_evals/hellaswag");
  ("ifeval",
   catalogued "IFEval" "Instruction following evaluation"
     "reasoning" "inspect_evals/ifeval");
  ("lingoly",
   catalogued "Lingoly" "Linguistic olympiad problems"
     "reasoning" "inspect_evals/lingoly");
  ("mmmu",
   catalogued "MMMU" "Massive Multi-discipline Multimodal Understanding"
     "reasoning" "inspect_evals/mmmu");
  ("musr",
   catalogued "MuSR" "Multi-step soft reasoning"
     "reasoning" "inspect_evals/musr");
  ("niah",
   catalogued "NIAH" "Needle in a Haystack"
     "reasoning" "inspect_evals/niah");
  ("novelty_bench",
   catalogued "NoveltyBench" "Novel reasoning evaluation"
     "reasoning" "inspect_evals/novelty_bench");
  ("paws",
   catalogued "PAWS" "Paraphrase Adversaries from Word Scrambling"
     "reasoning" "inspect_evals/paws");
  ("piqa",
   catalogued "PIQA" "Physical intuition QA"
     "reasoning" "inspect_evals/piqa");
  ("race_h",
   catalogued "RACE-H" "Reading comprehension (high school)"
     "reasoning" "inspect_evals/race_h");
  ("squad",
   catalogued "SQuAD" "Stanford Question Answering Dataset"
     "reasoning" "inspect_evals/squad");
  ("vimgolf",
   catalogued "VimGolf" "Vim editing challenges"
     "reasoning" "inspect_evals/vimgolf");
  ("winogrande",
   catalogued "Winogrande" "Commonsense reasoning - pronoun resolution"
     "reasoning" "inspect_evals/winogrande");
  ("worldsense",
   catalogued "WorldSense" "World knowledge reasoning"
     "reasoning" "inspect_evals/worldsense");
  ("infinite_bench",
   catalogued "InfiniteBench" "Long context reasoning"
     "reasoning" "inspect_evals/infinite_bench");
  ("agieval",
   catalogued "AGIEval" "Human-centric benchmark"
     "knowledge" "inspect_evals/agieval");
  ("air_bench",
   catalogued "AIR-Bench" "AI safety research benchmark"
     "knowledge" "inspect_evals/air_bench");
  ("chembench",
   catalogued "ChemBench" "Chemistry knowledge benchmark"
     "knowledge" "inspect_evals/chembench");
  ("commonsense_qa",
   catalogued "CommonsenseQA" "Commonsense reasoning questions"
     "knowledge" "inspect_evals/commonsense_qa");
  ("gpqa",
   catalogued "GPQA" "Graduate-level science questions"
     "knowledge" "inspect_evals/gpqa");
  ("gpqa_diamond",
   catalogued "GPQA Diamond" "GPQA hardest subset"
     "knowledge" "inspect_evals/gpqa_diamond");
  ("healthbench",
   catalogued "HealthBench" "Medical knowledge benchmark"
     "knowledge" "inspect_evals/healthbench");
  ("hle",
   catalogued "HLE" "Humanity's Last Exam"
     "knowledge" "inspect_evals/hle");
  ("livebench",
   catalogued "LiveBench" "Live updating benchmark"
     "knowledge" "inspect_evals/livebench");
  ("mmlu_pro",
   catalogued "MMLU-Pro" "Extended MMLU with harder questions"
     "knowledge" "inspect_evals/mmlu_pro");
  ("mmlu",
   catalogued "MMLU" "Massive Multitask Language Understanding (0-shot)"
     "knowledge" "inspect_evals/mmlu_0_shot");
  ("mmlu_5_shot",
   catalogued "MMLU 5-Shot" "MMLU with 5-shot examples for improved accuracy"
     "knowledge" "inspect_evals/mmlu_5_shot");
  ("medqa",
   catalogued "MedQA" "Medical question answering"
     "knowledge" "inspect_evals/medqa");
  ("onet",
   catalogued "O*NET" "Occupational knowledge benchmark"
     "knowledge" "inspect_evals/onet");
  ("pre_flight",
   catalogued "PreFlight" "Pre-deployment evaluation"
     "knowledge" "inspect_evals/pre_flight");
  ("pubmedqa",
   catalogued "PubMedQA" "Biomedical question answering"
     "knowledge" "inspect_evals/pubmedqa");
  ("sosbench",
   catalogued "SOSBench" "Science of science benchmark"
     "knowledge" "inspect_evals/sosbench");
  ("sciknoweval",
   catalogued "SciKnowEval" "Scientific knowledge evaluation"
     "knowledge" "inspect_evals/sciknoweval");
  ("simpleqa",
   catalogued "SimpleQA" "Simple factual QA"
     "knowledge" "inspect_evals/simpleqa");
  ("truthfulqa",
   catalogued "TruthfulQA" "Truthfulness and factuality evaluation"
     "knowledge" "inspect_evals/truthfulqa");
  ("uccb",
   catalogued "UCCB" "UC Berkeley benchmark"
     "knowledge" "inspect_evals/uccb");
  ("agentic_misalignment",
   catalogued "Agentic Misalignment" "Agent goal misalignment detection"
     "scheming" "inspect_evals/agentic_misalignment");
  ("gdm_sp_apps",
   catalogued "Self-Proliferation" "Self-replication evaluation"
     "scheming" "inspect_evals/gdm_sp_apps");
  ("gdm_sr_self_reasoning",
   catalogued "Self-Reasoning" "Self-reasoning evaluation"
     "scheming" "inspect_evals/gdm_sr_self_reasoning");
  ("gdm_stealth",
   catalogued "Stealth" "Stealth behavior detection"
     "scheming" "inspect_evals/gdm_stealth");
  ("docvqa",
   catalogued "DocVQA" "Document visual QA"
     "multimodal" "inspect_evals/docvqa");
  ("mmiu",
   catalogued "MMIU" "Multimodal understanding"
     "multimodal" "inspect_evals/mmiu");
  ("vstar_bench",
   catalogued "V*Bench" "Vision benchmark"
     "multimodal" "inspect_evals/vstar_bench");
  ("zerobench",
   catalogued "ZeroBench" "Zero-shot vision benchmark"
     "multimodal" "inspect_evals/zerobench");
  ("bbq",
   catalogued "BBQ" "Bias Benchmark for QA"
     "bias" "inspect_evals/bbq");
  ("bold",
   catalogued "BOLD" "Bias in Open-ended Language Generation"
     "bias" "inspect_evals/bold");
  ("personality_bfi",
   catalogued "Personality BFI" "Big Five Inventory personality"
     "personality" "inspect_evals/personality_bfi");
  ("personality_trait",
   catalogued "Personality Trait" "Personality trait evaluation"
     "personality" "inspect_evals/personality_trait");
  ("personality_prime",
   catalogued "Personality Prime" "Personality priming evaluation"
     "personality" "inspect_evals/personality_prime");
  ("writingbench",
   catalogued "WritingBench" "Writing quality evaluation"
     "writing" "inspect_evals/writingbench")
].

(** ** Requests *)

(** A request as the endpoints receive it, after the model of the request
    has been validated. *)
Record EvalRequest : Type := {
  request_model : string;
  request_benchmark : string;
  request_provider : option string;
  request_limit : option Z;
  request_temperature : option float;
  request_max_tokens : option Z;
  request_seed : option Z;
  request_epochs : option Z
}.

(** The validator of the field [model]. *)
Definition validate_model (v : string) : result string :=
  if String.eqb v EmptyString || String.eqb (strip v) EmptyString
  then Raise ValueError
  else Ok (strip v).

Definition valid_providers : list string :=
  ["openrouter"; "openai"; "anthropic"; "google"; "together"; "fireworks"].

(** The validator of the field [provider]. *)
Definition validate_provider (v : option string) : result (option string) :=
  match v with
  | Some s =>
      if negb (String.eqb s EmptyString) then
        let s := lower s in
        if negb (str_in s valid_providers) then Raise ValueError else Ok (Some s)
      else Ok v
  | None => Ok v
  end.

(** The bounds [ge] and [le] of a field, which bind a value that is given. *)
Definition within (lo : Z) (hi : option Z) (field : option Z) : Prop :=
  forall v, field = Some v ->
            (lo <= v)%Z /\ match hi with Some h => (v <= h)%Z | None => True end.

(** A request that passed the validation of [EvalRequest]: the two
    validators ran on what was sent, and the numbers are within the bounds
    of their fields. *)
Definition accepted (request : EvalRequest) : Prop :=
  (exists sent, validate_model sent = Ok (request_model request)) /\
  (exists sent, validate_provider sent = Ok (request_provider request)) /\
  within 1 (Some 10000%Z) (request_limit request) /\
  (forall t, request_temperature request = Some t ->
             PrimFloat.leb 0 t = true /\ PrimFloat.leb t 2 = true) /\
  within 1 (Some 32000%Z) (request_max_tokens request) /\
  within 0 None (request_seed request) /\
  within 1 (Some 100%Z) (request_epochs request).

(** [x or default] for an optional number and an optional string. *)
Definition or_int (x : option Z) (default : Z) : Z :=
  match x with
  | Some v => if (v =? 0)%Z then default else v
  | None => default
  end.

Definition or_str (x : option string) (default : string) : string :=
  match x with
  | Some s => if String.eqb s EmptyString then default else s
  | None => default
  end.

(** ** The stream of a run *)

(** [repr] of a list of strings that hold no quote and need no escape. *)
Definition repr_str_list (l : list string) : string :=
  "[" ++ String.concat ", " (map (fun s => "'" ++ s ++ "'") l) ++ "]".

(** An error that the service reports by itself: the code and the message
    stand beside the type, not under [data]. *)
Definition service_error (code message : string) : pyval :=
  PDict [("type", PStr "error"); ("code", PStr code); ("error", PStr message)].

(** The loop [async for result in run_with_inspect_ai(...)]: every event is
    passed on, and the first complete or error event ends the stream. *)
Fixpoint relay (events : list pyval) (fl : flow unit) : gen unit :=
  match events with
  | [] => ([], fl)
  | result :: rest =>
      match py_get result "type" PNone with
      | Ok type =>
          if is_str type "complete" || is_str type "error" then ([result], Return)
          else let '(later, fl') := relay rest fl in (result :: later, fl')
      | Raise e => ([result], Uncaught e)
      end
  end.

(** What an endpoint answers: a result, with the keyword arguments given to
    [EvalResult]; an HTTP error; or an exception that nothing handles. *)
Inductive response : Type :=
| EvalResult (fields : list (string * pyval))
| HTTPException (status_code : Z) (detail : pyval)
| Unhandled (e : exn).

(** [v > 1] *)
Definition py_gt_one (v : pyval) : result bool :=
  match v with
  | PInt z => Ok (1 <? z)%Z
  | PFloat f => Ok (PrimFloat.ltb 1 f)
  | PBool _ => Ok false
  | _ => Raise TypeError
  end.

(** The body of the loop of [run_evaluation_sync] for one decoded chunk:
    the answer when it ends the loop, [None] when the loop goes on. *)
Definition handle_chunk (data : pyval) : option response :=
  match py_get data "type" PNone with
  | Raise e => Some (Unhandled e)
  | Ok type =>
      if is_str type "complete" then
        let fields :=
          model <- py_getitem data "model" ;;
          benchmark <- py_getitem data "benchmark" ;;
          score <- py_getitem data "score" ;;
          total <- py_getitem data "total" ;;
          correct <- py_getitem data "correct" ;;
          duration_seconds <- py_getitem data "duration_seconds" ;;
          timestamp <- py_getitem data "timestamp" ;;
          epochs <- py_get data "epochs" (PInt 1) ;;
          many <- py_gt_one epochs ;;
          details <-
            (if many then
               seed <- py_get data "seed" PNone ;;
               epochs <- py_get data "epochs" PNone ;;
               provider <- py_get data "provider" PNone ;;
               epoch_results <- py_get data "epoch_results" PNone ;;
               Ok (PDict [("seed", seed); ("epochs", epochs); ("provider", provider);
                          ("epoch_results", epoch_results)])
             else Ok PNone) ;;
          Ok [("model", model); ("benchmark", benchmark); ("score", score);
              ("total_samples", total); ("correct", correct);
              ("duration_seconds", duration_seconds); ("timestamp", timestamp);
              ("details", details)] in
        Some (match fields with
              | Ok fields => EvalResult fields
              | Raise e => Unhandled e
              end)
      else if is_str type "error" then
        Some (match py_getitem data "error" with
              | Ok detail => HTTPException 500 detail
              | Raise e => Unhandled e
              end)
      else None
  end.

(** The loop of [run_evaluation_sync] over the chunks of the stream, and
    what follows it. *)
Fixpoint collect (chunks : list pyval) (fl : flow unit) : response :=
  match chunks with
  | [] =>
      match fl with
      | Uncaught e => Unhandled e
      | _ => HTTPException 500 (PStr "Evaluation did not complete")
      end
  | data :: rest =>
      match handle_chunk data with
      | Some answer => answer
      | None => collect rest fl
      end
  end.

Section Service.

Variable B : Builtins.
Variable W : World.

Definition run_inspect_evaluation (model benchmark : string) (limit : Z)
    (provider : string) (temperature : option float) (max_tokens seed : option Z)
    (epochs : Z) : gen unit :=
  match assoc benchmark AVAILABLE_BENCHMARKS with
  | None =>
      yield (service_error "BENCHMARK_NOT_FOUND" ("Unknown benchmark: " ++ benchmark)) ;;>
      stop
  | Some benchmark_config =>
      let provider :=
        if negb (String.eqb provider EmptyString) then lower provider else "openrouter" in
      match assoc provider PROVIDERS with
      | None =>
          yield (service_error "PROVIDER_NOT_FOUND"
                   ("Unknown provider: " ++ provider ++ ". Available: "
                    ++ repr_str_list (map fst PROVIDERS))) ;;>
          stop
      | Some provider_config =>
          yield (PDict [("type", PStr "start"); ("model", PStr model);
                        ("benchmark", PStr benchmark); ("limit", PInt limit);
                        ("provider", PStr provider);
                        ("provider_name", PStr (pc_name provider_config));
                        ("seed", py_opt_int seed); ("epochs", PInt epochs)]) ;;>
          if negb (is_inspect_available W) then
            yield (service_error "INSPECT_NOT_INSTALLED"
                     "Inspect AI or inspect-evals not installed. Run: pip install inspect-ai inspect-evals") ;;>
            stop
          else if negb (str_in benchmark get_supported_benchmarks) then
            yield (service_error "BENCHMARK_NOT_FOUND"
                     ("Benchmark " ++ benchmark ++ " not in supported list")) ;;>
            stop
          else
            let provider_name := pc_name provider_config in
            yield (PDict [("type", PStr "progress");
                          ("message",
                           PStr ("Using Inspect AI via " ++ provider_name ++ " for "
                                 ++ benchmark ++ "..."))]) ;;>
            let run := run_with_inspect_ai B W model benchmark limit None provider
                         temperature max_tokens seed epochs None in
            relay (fst run) (snd run)
      end
  end.

(** The generator that both endpoints start for a request. *)
Definition request_stream (request : EvalRequest) : gen unit :=
  run_inspect_evaluation (request_model request) (request_benchmark request)
    (or_int (request_limit request) 10)
    (or_str (request_provider request) "openrouter")
    (request_temperature request) (request_max_tokens request) (request_seed request)
    (or_int (request_epochs request) 1).

Definition run_evaluation_sync (request : EvalRequest) : response :=
  match assoc (request_benchmark request) AVAILABLE_BENCHMARKS with
  | None =>
      HTTPException 400 (PStr ("Unknown benchmark: " ++ request_benchmark request))
  | Some _ =>
      let stream := request_stream request in
      collect (fst stream) (snd stream)
  end.

(** [stream_evaluation]: an HTTP error, or the stream of the run. *)
Definition stream_evaluation (request : EvalRequest) : response + gen unit :=
  match assoc (request_benchmark request) AVAILABLE_BENCHMARKS with
  | None =>
      inl (HTTPException 400
             (PStr ("Unknown benchmark: " ++ request_benchmark request
                    ++ ". Available: "
                    ++ str_of_Z (Z.of_nat (List.length AVAILABLE_BENCHMARKS))
                    ++ " benchmarks")))
  | Some _ => inr (request_stream request)
  end.

End Service.

(** * Properties *)

(** ** Text *)

Lemma str_of_Z_not_flag (z : Z) (s : string) :
  str_of_Z z <> String "-" (String "-" s).
Proof.
  unfold str_of_Z, NilZero.string_of_int.
  destruct (Z.to_int z) as [u | u]; destruct u; simpl; discriminate.
Qed.

Lemma prefix_split (p s : string) :
  prefix p s = true -> exists rest, s = p ++ rest.
Proof.
  revert s; induction p as [| c p IH]; intros s H.
  - now exists s.
  - destruct s as [| d s]; simpl in H; [discriminate |].
    destruct (Ascii.ascii_dec c d) as [-> | _]; [| discriminate].
    destruct (IH s H) as [rest ->]. now exists rest.
Qed.

(** ** The command builder *)

Lemma supported_tasks_are_not_flags (benchmark task_name : string) :
  assoc benchmark SUPPORTED_BENCHMARKS = Some task_name ->
  prefix "inspect_evals/" task_name = true.
Proof.
  assert (H : forallb (fun kv => prefix "inspect_evals/" (snd kv)) SUPPORTED_BENCHMARKS = true)
    by (vm_compute; reflexivity).
  revert H. generalize SUPPORTED_BENCHMARKS as table.
  induction table as [| [k v] table IH]; simpl; intros Hall Hfind; [discriminate |].
  apply andb_true_iff in Hall as [Hv Hrest].
  destruct (String.eqb benchmark k).
  - now injection Hfind as <-.
  - now apply IH.
Qed.

Lemma known_provider (provider : string) (pc : provider_config) :
  assoc provider PROVIDERS = Some pc ->
  (provider = "openrouter" \/ provider = "openai" \/ provider = "anthropic" \/
   provider = "google" \/ provider = "together" \/ provider = "fireworks") /\
  pc = provider_named provider.
Proof.
  intros H. split.
  - unfold PROVIDERS in H. simpl in H.
    repeat match type of H with
           | context [String.eqb provider ?k] =>
               destruct (String.eqb_spec provider k) as [-> | _]; [tauto |]
           end.
    discriminate.
  - unfold provider_named. now rewrite H.
Qed.

Lemma build_inspect_command_parts :
  forall (B : Builtins) (task_name model_id : string) (limit : Z) (provider : string)
         (pc : provider_config) (temperature : option float)
         (seed max_tokens : option Z) (effort : option string),
    build_inspect_command B task_name model_id limit provider pc temperature seed
      max_tokens effort
    = (base_command task_name model_id limit provider pc
       ++ (if is_reasoning_model model_id then reasoning_flags provider model_id effort
           else temperature_flags B temperature)
       ++ shuffle_flags seed ++ token_flags max_tokens)%list.
Proof.
  intros. unfold build_inspect_command, base_command, reasoning_flags,
    temperature_flags, shuffle_flags, token_flags, extend.
  destruct (String.eqb_spec provider "anthropic") as [-> | _];
    [| destruct (String.eqb_spec provider "google") as [-> | _];
       [| destruct (String.eqb_spec provider "openrouter") as [-> | _];
          [| destruct (String.eqb_spec provider "openai") as [-> | _]]]];
    cbn [String.eqb Ascii.eqb Bool.eqb andb orb negb];
    destruct (is_reasoning_model model_id);
    destruct (is_openai_reasoning model_id);
    destruct (pc_base_url pc) as [url |];
    try destruct (String.eqb url EmptyString);
    destruct effort as [e |]; unfold effort_or; try destruct (truthy_str (Some e));
    destruct temperature; destruct seed;
    cbn [andb orb negb app]; repeat rewrite <- app_assoc; reflexivity.
Qed.

Lemma base_command_has_no_flag (flag rest task model_id : string) (limit : Z)
    (provider : string) :
  flag = String "-" (String "-" rest) ->
  flag <> "--model" -> flag <> "--limit" -> flag <> "--log-format" ->
  flag <> "--model-base-url" ->
  (provider = "openrouter" \/ provider = "openai" \/ provider = "anthropic" \/
   provider = "google" \/ provider = "together" \/ provider = "fireworks") ->
  ~ In flag (base_command ("inspect_evals/" ++ task) model_id limit provider
               (provider_named provider)).
Proof.
  intros -> H1 H2 H3 H4 Hname Hin.
  destruct Hname as [-> | [-> | [-> | [-> | [-> | ->]]]]];
    cbn in Hin;
    repeat (destruct Hin as [Hin | Hin];
            [ first [ now apply str_of_Z_not_flag in Hin
                    | discriminate Hin
                    | congruence ] | ]);
    exact Hin.
Qed.

Lemma shuffle_flags_have_no_flag (flag rest : string) (seed : option Z) :
  flag = String "-" (String "-" rest) ->
  flag <> "--seed" -> flag <> "--sample-shuffle" ->
  ~ In flag (shuffle_flags seed).
Proof.
  intros -> H1 H2 Hin. destruct seed; cbn in Hin;
    repeat (destruct Hin as [Hin | Hin];
            [ first [ now apply str_of_Z_not_flag in Hin | congruence ] | ]);
    exact Hin.
Qed.

Lemma token_flags_have_no_flag (flag rest : string) (max_tokens : option Z) :
  flag = String "-" (String "-" rest) ->
  flag <> "--max-tokens" ->
  ~ In flag (token_flags max_tokens).
Proof.
  intros -> H1 Hin. cbn in Hin.
  repeat (destruct Hin as [Hin | Hin];
          [ first [ now apply str_of_Z_not_flag in Hin | discriminate Hin | congruence ] | ]);
  exact Hin.
Qed.

(** C1, as amended: for a model that matches a reasoning pattern, on each of
    the six providers, the command carries no [--temperature] flag.  An
    OpenAI reasoning model on OpenRouter gets [--reasoning-effort] with the
    caller's effort, [none] when the caller gives none; on direct OpenAI the
    command gets [--reasoning-effort] with the caller's effort, [medium]
    when there is none, followed by [--reasoning-summary auto]; on Anthropic
    and Google no [--reasoning-effort] flag is added; elsewhere the flag is
    added exactly when the caller gives an effort. *)
Theorem reasoning_command_policy :
  forall (B : Builtins) (benchmark task_name provider : string) (pc : provider_config)
         (model_id : string) (limit : Z) (temperature : option float)
         (seed max_tokens : option Z) (effort : option string),
    assoc benchmark SUPPORTED_BENCHMARKS = Some task_name ->
    assoc provider PROVIDERS = Some pc ->
    is_reasoning_model model_id = true ->
    effort <> Some "--temperature" ->
    let cmd := build_inspect_command B task_name model_id limit provider pc
                 temperature seed max_tokens effort in
    ~ In "--temperature" cmd /\
    (provider = "openrouter" -> is_openai_reasoning model_id = true ->
     has_flag "--reasoning-effort"
       (match effort with Some e => e | None => "none" end) cmd) /\
    (provider = "openai" ->
     exists before after,
       cmd = (before
              ++ ["--reasoning-effort"; effort_or effort "medium";
                  "--reasoning-summary"; "auto"]
              ++ after)%list) /\
    (provider = "anthropic" \/ provider = "google" -> ~ In "--reasoning-effort" cmd) /\
    ((provider = "openrouter" /\ is_openai_reasoning model_id = false) \/
     provider = "together" \/ provider = "fireworks" ->
     if truthy_str effort
     then has_flag "--reasoning-effort" (effort_or effort EmptyString) cmd
     else ~ In "--reasoning-effort" cmd).
Proof.
  intros B benchmark task_name provider pc model_id limit temperature seed max_tokens
    effort Htask Hprov Hreason Heffort cmd.
  apply supported_tasks_are_not_flags, prefix_split in Htask as [task ->].
  apply known_provider in Hprov as [Hname ->].
  subst cmd. rewrite build_inspect_command_parts, Hreason.
  pose proof (@base_command_has_no_flag "--temperature" "temperature" task model_id limit
                provider eq_refl) as Hbase_t.
  pose proof (@base_command_has_no_flag "--reasoning-effort" "reasoning-effort" task
                model_id limit provider eq_refl) as Hbase_r.
  pose proof (@shuffle_flags_have_no_flag "--temperature" "temperature" seed eq_refl)
    as Hshuffle_t.
  pose proof (@shuffle_flags_have_no_flag "--reasoning-effort" "reasoning-effort" seed
                eq_refl) as Hshuffle_r.
  pose proof (@token_flags_have_no_flag "--temperature" "temperature" max_tokens eq_refl)
    as Htoken_t.
  pose proof (@token_flags_have_no_flag "--reasoning-effort" "reasoning-effort"
                max_tokens eq_refl) as Htoken_r.
  assert (Hflags_t : ~ In "--temperature" (reasoning_flags provider model_id effort)).
  { unfold reasoning_flags, effort_or.
    destruct (String.eqb provider "openrouter"), (is_openai_reasoning model_id),
      (String.eqb provider "openai"), (String.eqb provider "anthropic"),
      (String.eqb provider "google"), effort as [e |];
      cbn [andb orb]; try destruct (truthy_str (Some e)); cbn [In];
      intros H;
      repeat (destruct H as [H | H];
              [ first [ discriminate H | now elim Heffort; rewrite H ] | ]);
      exact H. }
  repeat split.
  - rewrite !in_app_iff. intros [H | [H | [H | H]]].
    + revert H. apply Hbase_t; try discriminate. exact Hname.
    + now apply Hflags_t.
    + revert H. apply Hshuffle_t; discriminate.
    + revert H. apply Htoken_t; discriminate.
  - intros -> Hopenai. unfold reasoning_flags. rewrite Hopenai. cbn [String.eqb Ascii.eqb Bool.eqb andb].
    eexists _, _. reflexivity.
  - intros ->. unfold reasoning_flags. cbn [String.eqb Ascii.eqb Bool.eqb andb].
    eexists _, _. reflexivity.
  - intros Hp. rewrite !in_app_iff. intros [H | [H | [H | H]]].
    + revert H. apply Hbase_r; try discriminate. exact Hname.
    + unfold reasoning_flags in H.
      destruct Hp as [-> | ->]; cbn [String.eqb Ascii.eqb Bool.eqb andb] in H;
        exact H.
    + revert H. apply Hshuffle_r; discriminate.
    + revert H. apply Htoken_r; discriminate.
  - intros Hp.
    assert (Hflags : reasoning_flags provider model_id effort
                     = if truthy_str effort
                       then ["--reasoning-effort"; effort_or effort EmptyString]
                       else []).
    { unfold reasoning_flags, effort_or.
      destruct Hp as [[-> ->] | [-> | ->]];
        cbn [String.eqb Ascii.eqb Bool.eqb andb];
        destruct effort as [e |]; cbn [truthy_str];
        try destruct (negb (String.eqb e EmptyString)); reflexivity. }
    rewrite Hflags. destruct (truthy_str effort).
    + eexists _, _. reflexivity.
    + rewrite !in_app_iff. intros [H | [H | [H | H]]].
      * revert H. apply Hbase_r; try discriminate. exact Hname.
      * exact H.
      * revert H. apply Hshuffle_r; discriminate.
      * revert H. apply Htoken_r; discriminate.
Qed.

Lemma reasoning_command_policy_witness :
  ~ In "--temperature"
      (build_inspect_command example_builtins "inspect_evals/mmlu_0_shot" "o3-mini" 10
         "openrouter" (provider_named "openrouter") (Some 0.7%float) None None None)
  /\ has_flag "--reasoning-effort" "none"
       (build_inspect_command example_builtins "inspect_evals/mmlu_0_shot" "o3-mini" 10
          "openrouter" (provider_named "openrouter") (Some 0.7%float) None None None).
Proof.
  assert (Heffort : @None string <> Some "--temperature") by discriminate.
  destruct (@reasoning_command_policy example_builtins "mmlu"
              "inspect_evals/mmlu_0_shot" "openrouter" (provider_named "openrouter")
              "o3-mini" 10%Z (Some 0.7%float) None None None
              eq_refl eq_refl eq_refl Heffort) as [Htemp [Hrouter _]].
  split; [exact Htemp | exact (Hrouter eq_refl eq_refl)].
Defined.

(** C1, as stated, fails: a Claude reasoning model on Anthropic, and a
    DeepSeek reasoning model on OpenRouter, get no [--reasoning-effort]
    flag. *)
Lemma reasoning_effort_flag_absent :
  is_reasoning_model "claude-3-7-sonnet" = true /\
  is_reasoning_model "deepseek-r1" = true /\
  build_inspect_command example_builtins "inspect_evals/mmlu_0_shot"
    "claude-3-7-sonnet" 10 "anthropic" (provider_named "anthropic")
    (Some 0.7%float) None None None
  = ["inspect"; "eval"; "inspect_evals/mmlu_0_shot";
     "--model"; "anthropic/claude-3-7-sonnet"; "--limit"; "10";
     "--log-format"; "json"; "--sample-shuffle";
     "--max-tokens"; "1024"; "-T"; "max_non_cot_tokens=1024"] /\
  build_inspect_command example_builtins "inspect_evals/mmlu_0_shot"
    "deepseek-r1" 10 "openrouter" (provider_named "openrouter")
    (Some 0.7%float) None None None
  = ["inspect"; "eval"; "inspect_evals/mmlu_0_shot";
     "--model"; "openai/deepseek-r1"; "--limit"; "10";
     "--log-format"; "json";
     "--model-base-url"; "https://openrouter.ai/api/v1"; "--sample-shuffle";
     "--max-tokens"; "1024"; "-T"; "max_non_cot_tokens=1024"] /\
  ~ In "--reasoning-effort"
      (build_inspect_command example_builtins "inspect_evals/mmlu_0_shot"
         "claude-3-7-sonnet" 10 "anthropic" (provider_named "anthropic")
         (Some 0.7%float) None None None).
Proof.
  repeat split; try (vm_compute; reflexivity).
  vm_compute. intros H.
  repeat (destruct H as [H | H]; [discriminate H |]). exact H.
Qed.

(** C9, as amended: the token budget is a default, not a floor.  Every
    command ends with [--max-tokens n -T max_non_cot_tokens=n], where [n] is
    the requested value when one is given, whatever its size, and 1024 when
    none is given. *)
Theorem max_tokens_is_a_default :
  forall (B : Builtins) (task_name model_id : string) (limit : Z) (provider : string)
         (pc : provider_config) (temperature : option float)
         (seed max_tokens : option Z) (effort : option string),
  exists before,
    build_inspect_command B task_name model_id limit provider pc temperature seed
      max_tokens effort
    = extend before
        match max_tokens with
        | Some n => ["--max-tokens"; str_of_Z n; "-T"; "max_non_cot_tokens=" ++ str_of_Z n]
        | None => ["--max-tokens"; "1024"; "-T"; "max_non_cot_tokens=1024"]
        end.
Proof.
  intros. rewrite build_inspect_command_parts.
  unfold extend. eexists. rewrite !app_assoc. f_equal.
  unfold token_flags. now destruct max_tokens.
Qed.

(** C9, as stated, fails: a request for 5 tokens is passed on as 5, below
    the default of 1024. *)
Lemma max_tokens_below_default :
  build_inspect_command example_builtins "inspect_evals/mmlu_0_shot" "gpt-4o" 10
    "openrouter" (provider_named "openrouter") None None (Some 5%Z) None
  = ["inspect"; "eval"; "inspect_evals/mmlu_0_shot"; "--model"; "openai/gpt-4o";
     "--limit"; "10"; "--log-format"; "json";
     "--model-base-url"; "https://openrouter.ai/api/v1"; "--sample-shuffle";
     "--max-tokens"; "5"; "-T"; "max_non_cot_tokens=5"]
  /\ (effective_max_tokens (Some 5) < 1024)%Z.
Proof.
  split; vm_compute; reflexivity.
Qed.

(** ** Correctness of one sample *)

Lemma search_answer_not_empty (v : pyval) (a : string) :
  search_answer v = Ok (Some a) -> a <> EmptyString.
Proof.
  destruct v; simpl; try discriminate.
  destruct (answer_search s); intros [= <-]; discriminate.
Qed.

Lemma search_blocks_not_empty (blocks : list pyval) (a : string) :
  search_blocks blocks = Ok (Some a) -> a <> EmptyString.
Proof.
  induction blocks as [| block rest IH]; simpl; [discriminate |].
  destruct block as [| | | | | | d]; try exact IH.
  repeat match goal with
         | |- context [if ?c then _ else _] => destruct c
         | |- context [rbind ?m _] =>
             let E := fresh "E" in
             destruct m as [[?a |] | ?e] eqn:E; cbn [rbind];
             [intros [= <-]; now apply search_answer_not_empty in E
             | exact IH | discriminate]
         end; exact IH.
Qed.

Lemma predicted_from_content_not_empty (output : pyval) (a : string) :
  predicted_from_content output = Ok (Some a) -> a <> EmptyString.
Proof.
  unfold predicted_from_content.
  destruct (py_get output "choices" (PList [])) as [choices |]; [| discriminate].
  cbn [rbind]. destruct (truthy choices); [| discriminate].
  destruct (py_getitem0 choices) as [first |]; [| discriminate]. cbn [rbind].
  destruct (py_get first "message" (PDict [])) as [message |]; [| discriminate].
  cbn [rbind].
  destruct (py_get message "content" (PList [])) as [content |]; [| discriminate].
  cbn [rbind]. destruct content; try discriminate.
  - apply search_answer_not_empty.
  - apply search_blocks_not_empty.
Qed.

Lemma predicted_from_completion_not_empty (output : pyval) (a : string) :
  predicted_from_completion output = Ok (Some a) -> a <> EmptyString.
Proof.
  unfold predicted_from_completion.
  destruct (py_get output "completion" (PStr EmptyString)) as [completion |];
    [| discriminate].
  cbn [rbind]. destruct (truthy completion); [| discriminate].
  apply search_answer_not_empty.
Qed.

(** An empty prediction comes from the last stage of the chain. *)
Lemma extract_predicted_empty (s : pyval) :
  extract_predicted s = Ok EmptyString -> predicted_from_scores s = Ok EmptyString.
Proof.
  unfold extract_predicted.
  destruct (py_get s "output" (PDict [])) as [output |]; [| discriminate].
  cbn [rbind].
  destruct (predicted_from_content output) as [[a |] |] eqn:E1; cbn [rbind];
    [| | discriminate].
  - intros [= ->]. now apply predicted_from_content_not_empty in E1.
  - destruct (predicted_from_completion output) as [[a |] |] eqn:E2; cbn [rbind];
      [| | discriminate].
    + intros [= ->]. now apply predicted_from_completion_not_empty in E2.
    + trivial.
Qed.

(** C3, as amended: for a sample scored by the choice scorer from which
    [extract_predicted] returns no answer, the correctness decision is
    [False], and it is returned, not raised. *)
Theorem no_prediction_is_incorrect :
  forall (B : Builtins) (sample : pyval),
    scored_by_choice sample = true ->
    extract_predicted sample = Ok EmptyString ->
    is_sample_correct B sample = Ok false.
Proof.
  intros B sample Hchoice Hpred.
  pose proof (@extract_predicted_empty _ Hpred) as Hscores.
  unfold scored_by_choice in Hchoice.
  unfold is_sample_correct, extract_expected. rewrite Hpred.
  unfold predicted_from_scores in Hscores.
  destruct (py_get sample "scores" (PDict [])) as [scores |]; [| discriminate].
  cbn [rbind] in *.
  destruct (py_in "choice" scores) as [[|] |]; try discriminate.
  cbn [rbind] in *.
  destruct (py_get sample "target" (PStr EmptyString)) as [target |] eqn:Etarget.
  - cbn [rbind]. destruct (truthy target); [reflexivity |].
    destruct (py_getitem scores "choice") as [choice_data |]; [| discriminate].
    cbn [rbind] in *.
    destruct choice_data; try discriminate. reflexivity.
  - destruct sample; discriminate.
Qed.

Lemma no_prediction_is_incorrect_witness :
  is_sample_correct example_builtins
    (sample_with "I am not sure." (PStr "B") [("value", PStr "I")]) = Ok false.
Proof.
  apply (@no_prediction_is_incorrect example_builtins
           (sample_with "I am not sure." (PStr "B") [("value", PStr "I")]));
    vm_compute; reflexivity.
Defined.

(** C3, as stated, fails twice.  A sample without a choice score is decided
    by its legacy [score.value]: nothing can be extracted from it, and it is
    correct.  A sample whose [output] is not a dictionary makes both
    functions raise. *)
Lemma unextractable_sample_correct_or_raising :
  extract_predicted (PDict [("score", PDict [("value", PInt 1)])]) = Ok EmptyString /\
  is_sample_correct example_builtins (PDict [("score", PDict [("value", PInt 1)])])
  = Ok true /\
  extract_predicted
    (PDict [("output", PStr "B"); ("scores", PDict [("choice", PDict [])])])
  = Raise AttributeError /\
  is_sample_correct example_builtins
    (PDict [("output", PStr "B"); ("scores", PDict [("choice", PDict [])])])
  = Raise AttributeError.
Proof.
  repeat split; vm_compute; reflexivity.
Qed.


(** The pattern at the very start of the text, followed by the end of the
    text or by a character that is not a word character. *)
Lemma answer_search_leading (rest : string) :
  match rest with
  | EmptyString => True
  | String c _ => is_word c = false
  end ->
  answer_search ("Answer: B" ++ rest) = Some "B"%char.
Proof.
  intros H. destruct rest as [| c rest]; [reflexivity |].
  cbn. unfold match_answer_at. cbn. now rewrite H.
Qed.




(** ** The traversal check *)

Lemma append_assoc_string (a b c : string) : (a ++ b) ++ c = a ++ b ++ c.
Proof.
  induction a as [| x a IH]; simpl; [reflexivity | now rewrite IH].
Qed.

(** C6: a log path that resolves outside the logs directory is rejected
    with [None] before any file is looked at. *)
Theorem traversal_rejected_before_file_access :
  forall (W : World) (epoch : nat) (log_path : string),
    outside_directory (abspath W "logs") (abspath W log_path) ->
    parse_log_results W epoch log_path = ([], Ok PNone).
Proof.
  intros W epoch log_path [Hne Hunder].
  unfold parse_log_results, within_logs_dir, startswith.
  destruct (prefix (abspath W "logs" ++ "/") (abspath W log_path)) eqn:Hprefix.
  - apply prefix_split in Hprefix as [rest Hrest].
    rewrite append_assoc_string in Hrest. now elim (Hunder rest).
  - destruct (String.eqb_spec (abspath W log_path) (abspath W "logs")) as [Heq | _].
    + now elim Hne.
    + reflexivity.
Qed.

Lemma traversal_rejected_before_file_access_witness :
  parse_log_results
    (example_world None (fun _ => prints EmptyString) (fun _ _ => true)
       (fun _ _ => Plain (Ok (PDict [("samples", PList [])]))))
    0 "../../etc/passwd"
  = ([], Ok PNone).
Proof.
  apply traversal_rejected_before_file_access.
  split.
  - vm_compute. discriminate.
  - intros rest. vm_compute. discriminate.
Defined.

(** A path under the logs directory is opened. *)
Example log_inside_directory_is_read :
  parse_log_results
    (example_world None (fun _ => prints EmptyString) (fun _ _ => true)
       (fun _ _ => Plain (Ok (PDict [("samples", PList [])]))))
    0 "logs/run.json"
  = ([OpenText "logs/run.json"], Ok (PDict [("samples", PList [])])).
Proof. vm_compute. reflexivity. Qed.

(** ** One epoch *)

Lemma run_epoch_completed (B : Builtins) (W : World) (benchmark : string) (limit : Z)
    (epoch : nat) (cmd : list string) (credential : string * string) (eval_timeout : Z)
    (result : completed_process) :
  subprocess_run W epoch cmd credential eval_timeout = Ok result ->
  returncode result = 0%Z ->
  run_epoch B W benchmark limit epoch cmd credential eval_timeout
  = match located_log (stdout result) with
    | Some log_path =>
        if path_exists W epoch log_path then process_log B W epoch log_path
        else scrape_stdout B epoch limit (stdout result)
    | None => scrape_stdout B epoch limit (stdout result)
    end.
Proof.
  intros Hrun Hcode. unfold run_epoch, located_log.
  rewrite Hrun. cbn [lift gret gbind]. rewrite Hcode. cbn [Z.eqb negb].
  destruct (find_log_path _) as [log_path |].
  - destruct (path_exists W epoch log_path).
    + now destruct (process_log B W epoch log_path) as [events []].
    + now destruct (scrape_stdout B epoch limit (stdout result)) as [events []].
  - now destruct (scrape_stdout B epoch limit (stdout result)) as [events []].
Qed.

Lemma run_epoch_without_artifact (B : Builtins) (W : World) (benchmark : string)
    (limit : Z) (epoch : nat) (cmd : list string) (credential : string * string)
    (eval_timeout : Z) (result : completed_process) :
  subprocess_run W epoch cmd credential eval_timeout = Ok result ->
  returncode result = 0%Z ->
  no_artifact W epoch (stdout result) ->
  run_epoch B W benchmark limit epoch cmd credential eval_timeout
  = scrape_stdout B epoch limit (stdout result).
Proof.
  intros Hrun Hcode Hnone.
  rewrite (run_epoch_completed B W benchmark limit epoch cmd credential eval_timeout
             Hrun Hcode).
  unfold no_artifact in Hnone.
  destruct (located_log (stdout result)); [now rewrite Hnone | reflexivity].
Qed.

(** C10: when no log artifact is found and an accuracy figure is scraped
    from standard output, the epoch reports the figure as its score (divided
    by 100 first when it is above 1), the requested limit as its total, and
    [int(score * limit)] as its count of correct samples. *)
Theorem scraped_epoch_result :
  forall (B : Builtins) (W : World) (benchmark : string) (limit : Z) (epoch : nat)
         (cmd : list string) (credential : string * string) (eval_timeout : Z)
         (result : completed_process) (group : string) (f : float) (correct : Z),
    subprocess_run W epoch cmd credential eval_timeout = Ok result ->
    returncode result = 0%Z ->
    no_artifact W epoch (stdout result) ->
    search_accuracy (stdout result) = Some group ->
    py_float B group = Some f ->
    float_to_int
      (PrimFloat.mul (if PrimFloat.ltb 1 f then PrimFloat.div f 100 else f)
         (Z2float limit)) = Ok correct ->
    run_epoch B W benchmark limit epoch cmd credential eval_timeout
    = ([create_progress "Parsing results from output..." []],
       Next {| er_epoch := Z.of_nat epoch + 1;
               er_score := PFloat (if PrimFloat.ltb 1 f then PrimFloat.div f 100 else f);
               er_correct := correct;
               er_total := limit |}).
Proof.
  intros B W benchmark limit epoch cmd credential eval_timeout result group f correct
    Hrun Hcode Hnone Hsearch Hfloat Hint.
  rewrite (run_epoch_without_artifact B W benchmark limit epoch cmd credential
             eval_timeout Hrun Hcode Hnone).
  unfold scrape_stdout. rewrite Hsearch, Hfloat.
  cbn [yield gbind]. rewrite Hint. reflexivity.
Qed.

Lemma scraped_epoch_result_witness :
  run_epoch example_builtins
    (example_world None (fun _ => prints "accuracy: 85") (fun _ _ => false)
       (fun _ _ => Plain (Raise FileNotFoundError)))
    "mmlu" 10 0 [] ("OPENAI_API_KEY", "sk-example") 600
  = ([create_progress "Parsing results from output..." []],
     Next {| er_epoch := 1; er_score := PFloat 0.85; er_correct := 8; er_total := 10 |}).
Proof.
  apply (@scraped_epoch_result example_builtins
           (example_world None (fun _ => prints "accuracy: 85") (fun _ _ => false)
              (fun _ _ => Plain (Raise FileNotFoundError)))
           "mmlu" 10%Z 0%nat [] ("OPENAI_API_KEY", "sk-example") 600%Z
           {| returncode := 0; stdout := "accuracy: 85"; stderr := EmptyString |}
           "85" 85%float 8%Z);
    try reflexivity; vm_compute; try reflexivity; exact I.
Defined.




(** ** The discipline of terminal events *)










Section Discipline.

Variable B : Builtins.
Variable W : World.







End Discipline.

(** ** The whole run *)

Lemma validated_tables (model_id benchmark : string) (limit : Z) (provider : string)
    (temperature : option float) (seed epochs : option Z) :
  validate_parameters model_id benchmark limit provider temperature seed epochs = None ->
  (exists task_name, assoc benchmark SUPPORTED_BENCHMARKS = Some task_name) /\
  (exists pc, assoc (lower provider) PROVIDERS = Some pc) /\
  match epochs with
  | Some e => (1 <= e <= 100)%Z
  | None => True
  end.
Proof.
  unfold validate_parameters.
  repeat match goal with
         | |- context [if ?c then _ else _] =>
             let E := fresh "E" in destruct c eqn:E; [discriminate |]
         end.
  destruct (assoc (lower provider) PROVIDERS) as [pc |]; [| discriminate].
  destruct (assoc benchmark SUPPORTED_BENCHMARKS) as [task_name |]; [| discriminate].
  intros _. repeat split; eauto.
  destruct epochs as [e |]; [| trivial].
  match goal with
  | H : (_ <? _)%Z || (_ <? _)%Z = false |- _ =>
      apply orb_false_iff in H as [H1 H2];
      apply Z.ltb_ge in H1; apply Z.ltb_ge in H2; lia
  end.
Qed.

Section WholeRun.

Variable B : Builtins.
Variable W : World.





End WholeRun.

(** ** Which part yields which events *)

Section AllEvents.

Variable P : pyval -> Prop.

Lemma all_events_gret (A : Type) (a : A) : all_events P (gret a).
Proof. constructor. Qed.

Lemma all_events_stop (A : Type) : all_events P (@stop A).
Proof. constructor. Qed.

Lemma all_events_lift (A : Type) (r : result A) : all_events P (lift r).
Proof. destruct r; constructor. Qed.

Lemma all_events_yield (event : pyval) : P event -> all_events P (yield event).
Proof. intros H. repeat constructor. exact H. Qed.

Lemma all_events_bind (A C : Type) (m : gen A) (f : A -> gen C) :
  all_events P m -> (forall a, all_events P (f a)) -> all_events P (gbind m f).
Proof.
  destruct m as [events [a | | e]]; unfold all_events; cbn; intros Hm Hf; trivial.
  specialize (Hf a). destruct (f a) as [events' fl]. cbn in *.
  apply Forall_app. now split.
Qed.

Lemma all_events_try_except (A : Type) (body : gen A) (handler : exn -> gen A) :
  all_events P body -> (forall e, all_events P (handler e)) ->
  all_events P (try_except body handler).
Proof.
  destruct body as [events [a | | e]]; unfold all_events; cbn; intros Hb Hh; trivial.
  specialize (Hh e). destruct (handler e) as [events' fl]. cbn in *.
  apply Forall_app. now split.
Qed.

Lemma all_events_if (A : Type) (b : bool) (g h : gen A) :
  all_events P g -> all_events P h -> all_events P (if b then g else h).
Proof. now destruct b. Qed.

End AllEvents.

(** Splits a goal [all_events P g] along the structure of [g]; what is left
    are the parts it does not know. *)
Ltac walk_events :=
  repeat first
    [ apply all_events_gret
    | apply all_events_stop
    | apply all_events_lift
    | apply all_events_yield; reflexivity
    | apply all_events_bind; [| intros ?]
    | apply all_events_if
    | match goal with
      | |- all_events _ (match ?x with _ => _ end) => destruct x
      end ].

Section Parts.

Variable B : Builtins.
Variable W : World.

Lemma report_failure_events (P : pyval -> Prop) (benchmark : string)
    (result : completed_process) :
  (forall message details, P (create_error EVALUATION_FAILED message details)) ->
  all_events P (report_failure benchmark result).
Proof.
  intros HP. unfold report_failure.
  destruct (any_in dependency_error_patterns _);
    [destruct (get_benchmark_dependency_info benchmark) |];
    apply all_events_yield, HP.
Qed.

Lemma emit_results_no_complete (samples : pyval) (total : Z) (epoch : nat)
    (items : list pyval) (i : nat) :
  all_events (not_of_type "complete") (emit_results B samples total epoch i items).
Proof.
  revert i. induction items as [| sample rest IH]; intros i; cbn [emit_results];
    walk_events. apply IH.
Qed.

Lemma process_log_no_complete (epoch : nat) (log_path : string) :
  all_events (not_of_type "complete") (process_log B W epoch log_path).
Proof.
  unfold process_log. walk_events. apply emit_results_no_complete.
Qed.

Lemma process_log_later_no_result (epoch : nat) (log_path : string) :
  epoch <> 0%nat ->
  all_events (not_of_type "result") (process_log B W epoch log_path).
Proof.
  intros Hepoch. unfold process_log.
  destruct (Nat.eqb_spec epoch 0) as [-> | _]; [now elim Hepoch |].
  walk_events.
Qed.

Lemma scrape_stdout_events (P : pyval -> Prop) (epoch : nat) (limit : Z) (out : string) :
  (forall message extra, P (create_progress message extra)) ->
  (forall code message details, P (create_error code message details)) ->
  all_events P (scrape_stdout B epoch limit out).
Proof.
  intros Hprogress Herror. unfold scrape_stdout.
  apply all_events_bind; [apply all_events_yield, Hprogress | intros _].
  destruct (search_accuracy out) as [group |].
  - destruct (py_float B group); walk_events.
  - apply all_events_bind; [apply all_events_yield, Herror | intros _].
    apply all_events_stop.
Qed.

Lemma epoch_except_events (P : pyval -> Prop) (A : Type) (eval_timeout : Z) (e : exn) :
  (forall code message details, P (create_error code message details)) ->
  all_events P (@epoch_except B A eval_timeout e).
Proof.
  intros Herror.
  destruct e; (apply all_events_bind;
               [apply all_events_yield, Herror | intros _; apply all_events_stop]).
Qed.

Lemma run_epoch_no_complete (benchmark : string) (limit : Z) (epoch : nat)
    (cmd : list string) (credential : string * string) (eval_timeout : Z) :
  all_events (not_of_type "complete")
    (run_epoch B W benchmark limit epoch cmd credential eval_timeout).
Proof.
  unfold run_epoch.
  apply all_events_bind; [apply all_events_lift | intros result].
  apply all_events_if.
  - apply all_events_bind; [| intros _; apply all_events_stop].
    apply report_failure_events. reflexivity.
  - destruct (find_log_path _) as [log_path |]; [apply all_events_if |];
      first [apply process_log_no_complete | apply scrape_stdout_events; reflexivity].
Qed.

Lemma run_epoch_later_no_result (benchmark : string) (limit : Z) (epoch : nat)
    (cmd : list string) (credential : string * string) (eval_timeout : Z) :
  epoch <> 0%nat ->
  all_events (not_of_type "result")
    (run_epoch B W benchmark limit epoch cmd credential eval_timeout).
Proof.
  intros Hepoch. unfold run_epoch.
  apply all_events_bind; [apply all_events_lift | intros result].
  apply all_events_if.
  - apply all_events_bind; [| intros _; apply all_events_stop].
    apply report_failure_events. reflexivity.
  - destruct (find_log_path _) as [log_path |]; [apply all_events_if |];
      first [now apply process_log_later_no_result
            | apply scrape_stdout_events; reflexivity].
Qed.


Lemma run_epochs_later_no_result (task_name model_id benchmark : string) (limit : Z)
    (api_key provider : string) (pc : provider_config) (temperature : option float)
    (max_tokens seed : option Z) (epochs eval_timeout : Z) (remaining epoch : nat)
    (acc : list epoch_result) :
  epoch <> 0%nat ->
  all_events (not_of_type "result")
    (run_epochs B W task_name model_id benchmark limit api_key provider pc
       temperature max_tokens seed epochs eval_timeout remaining epoch acc).
Proof.
  revert epoch acc. induction remaining as [| remaining IH]; intros epoch acc Hepoch;
    cbn [run_epochs]; [apply all_events_gret |].
  apply all_events_bind; [walk_events | intros _].
  apply all_events_bind; [walk_events | intros _].
  apply all_events_bind; [| intros er; now apply IH].
  apply all_events_try_except;
    [| intros e; apply epoch_except_events; reflexivity].
  apply all_events_bind; [now apply run_epoch_later_no_result | intros er]. walk_events.
Qed.

End Parts.

(** ** Runs that end in an error, or in none *)


(** C8 fails on the code: with [EVAL_TIMEOUT=10m] in the environment and no
    deadline passed, the conversion of the variable raises before the first
    event, and the run yields no terminal event at all. *)
Theorem malformed_timeout_yields_no_terminal_event :
  example_run world_with_malformed_timeout 1 = ([], Uncaught ValueError).
Proof.
  vm_compute. reflexivity.
Qed.



(** ** The shape of a run *)

Lemma validation_error_type (model_id benchmark : string) (limit : Z)
    (provider : string) (temperature : option float) (seed epochs : option Z)
    (event : pyval) :
  validate_parameters model_id benchmark limit provider temperature seed epochs
  = Some event ->
  event_type event = Some "error".
Proof.
  unfold validate_parameters.
  repeat match goal with
         | |- context [if ?c then _ else _] => destruct c
         | |- context [match assoc ?k ?t with _ => _ end] => destruct (assoc k t)
         end;
    intros [= <-]; reflexivity.
Qed.

Lemma lower_idempotent (s : string) : lower (lower s) = lower s.
Proof.
  induction s as [| c s IH]; cbn; [reflexivity |].
  rewrite IH. f_equal. destruct c as [[] [] [] [] [] [] [] []]; reflexivity.
Qed.

Lemma gbind_gret (A C : Type) (a : A) (f : A -> gen C) : gbind (gret a) f = f a.
Proof. unfold gret, gbind. now destruct (f a). Qed.

(** A run either stops at once with one error event, or is left by the
    exception of the deadline, or announces itself, goes through its epochs
    and aggregates them. *)
Lemma run_shape (B : Builtins) (W : World) (model_id benchmark : string) (limit : Z)
    (api_key : option string) (provider : string) (temperature : option float)
    (max_tokens seed : option Z) (epochs : Z) (timeout : option Z) :
  (exists err,
      run_with_inspect_ai B W model_id benchmark limit api_key provider temperature
        max_tokens seed epochs timeout = ([err], Return) /\
      event_type err = Some "error") \/
  (exists e,
      run_with_inspect_ai B W model_id benchmark limit api_key provider temperature
        max_tokens seed epochs timeout = ([], Uncaught e)) \/
  (exists task_name pc key eval_timeout message extra,
      (1 <= epochs <= 100)%Z /\
      run_with_inspect_ai B W model_id benchmark limit api_key provider temperature
        max_tokens seed epochs timeout
      = (yield (create_progress message extra) ;;>
         all_epoch_results <~
           run_epochs B W task_name model_id benchmark limit key (lower provider) pc
             temperature max_tokens seed epochs eval_timeout (Z.to_nat epochs) 0 [] ;;
         aggregate W model_id benchmark limit (lower provider) pc seed epochs
           all_epoch_results)).
Proof.
  unfold run_with_inspect_ai.
  destruct (INSPECT_AI_AVAILABLE W); cbn [negb]; [| left; eexists; split; reflexivity].
  destruct (INSPECT_EVALS_AVAILABLE W); cbn [negb];
    [| left; eexists; split; reflexivity].
  destruct (validate_parameters model_id benchmark limit (lower provider) temperature
              seed (Some epochs)) as [err |] eqn:Hvalid.
  { left. exists err. split; [reflexivity |].
    eapply validation_error_type, Hvalid. }
  apply validated_tables in Hvalid as ([task_name Htask] & [pc Hpc] & Hepochs).
  rewrite lower_idempotent in Hpc. rewrite Htask, Hpc. cbn [lift].
  rewrite !gbind_gret.
  match goal with
  | |- context [if negb (truthy_str ?k) then _ else _] => destruct (truthy_str k)
  end; cbn [negb]; [| left; eexists; split; reflexivity].
  destruct (base_timeout W timeout) as [base | e]; cbn [lift].
  - rewrite gbind_gret. right. right. do 6 eexists. split; [exact Hepochs |]. reflexivity.
  - right. left. now exists e.
Qed.


Lemma not_of_type_in (A : Type) (kind : string) (g : gen A) (t : pyval) :
  all_events (not_of_type kind) g -> In t (fst g) -> has_type kind t = true -> False.
Proof.
  unfold all_events, not_of_type. rewrite Forall_forall. intros Hall Hin Ht.
  specialize (Hall t Hin). congruence.
Qed.

(** ** Aggregation over epochs *)




(** ** The running score *)

Lemma count_correct_app (B : Builtins) (l1 l2 : list pyval) :
  count_correct B (l1 ++ l2)
  = (c1 <- count_correct B l1 ;; c2 <- count_correct B l2 ;; Ok (c1 + c2)%Z).
Proof.
  induction l1 as [| s l1 IH]; cbn [app count_correct rbind].
  - now destruct (count_correct B l2).
  - destruct (is_sample_correct B s) as [b |]; cbn [rbind]; [| reflexivity].
    rewrite IH. destruct (count_correct B l1) as [c1 |]; cbn [rbind]; [| reflexivity].
    destruct (count_correct B l2) as [c2 |]; cbn [rbind]; [| reflexivity].
    f_equal. lia.
Qed.

Lemma firstn_succ_skipn (A : Type) (i : nat) (all rest : list A) (s : A) :
  skipn i all = s :: rest ->
  firstn (i + 1) all = (firstn i all ++ [s])%list /\ skipn (S i) all = rest.
Proof.
  revert all. induction i as [| i IH]; intros all H.
  - cbn in H. subst all. now split.
  - destruct all as [| a all]; [discriminate |].
    cbn [skipn] in H. destruct (IH all H) as [H1 H2].
    split; [cbn [Nat.add firstn app]; now rewrite H1 | exact H2].
Qed.

Lemma count_correct_flags_cons (e : pyval) (events : list pyval) :
  count_correct_flags (e :: events)
  = ((match event_field "correct" e with
      | Some (PBool true) => 1
      | _ => 0
      end) + count_correct_flags events)%Z.
Proof.
  unfold count_correct_flags. cbn [filter].
  destruct (event_field "correct" e) as [[| [] | | | | |] |]; cbn [List.length]; lia.
Qed.

Section RunningScore.

Variable B : Builtins.

Lemma emit_results_running_score (all : list pyval) (total : Z) (epoch : nat)
    (items : list pyval) :
  forall (i : nat) (c0 : Z),
    skipn i all = items ->
    count_correct B (firstn i all) = Ok c0 ->
    forall (j : nat) (e : pyval),
      nth_error (fst (emit_results B (PList all) total epoch i items)) j = Some e ->
      event_field "running_score" e
      = Some (PFloat
                (int_truediv
                   (c0 + count_correct_flags
                           (firstn (S j)
                              (fst (emit_results B (PList all) total epoch i items))))
                   (Z.of_nat (i + j) + 1))) /\
      event_field "question" e = Some (PInt (Z.of_nat (i + j) + 1)) /\
      has_type "result" e = true.
Proof.
  induction items as [| s rest IH]; intros i c0 Hskip Hc0 j e;
    cbn [emit_results].
  - destruct j; discriminate.
  - destruct (firstn_succ_skipn i all Hskip) as [Hfirst Hrest].
    destruct (is_sample_correct B s) as [b |] eqn:Hb; cbn [lift];
      [rewrite gbind_gret | destruct j; discriminate].
    destruct (extract_predicted s) as [predicted |]; cbn [lift];
      [rewrite gbind_gret | destruct j; discriminate].
    destruct (extract_expected B s) as [expected |]; cbn [lift];
      [rewrite gbind_gret | destruct j; discriminate].
    cbn [py_iter_prefix lift]. rewrite gbind_gret.
    rewrite Hfirst, count_correct_app, Hc0. cbn [count_correct rbind].
    rewrite Hb. cbn [rbind lift]. rewrite gbind_gret.
    destruct (sample_latency B s) as [latency |]; cbn [lift];
      [rewrite gbind_gret | destruct j; discriminate].
    assert (Hc1 : count_correct B (firstn (S i) all)
                  = Ok (c0 + ((if b then 1 else 0) + 0))%Z).
    { replace (S i) with (i + 1)%nat by lia.
      rewrite Hfirst, count_correct_app, Hc0. cbn [count_correct rbind].
      now rewrite Hb. }
    specialize (IH (S i) _ Hrest Hc1).
    destruct (emit_results B (PList all) total epoch (S i) rest) as [events fl].
    cbn [yield gbind fst app] in *.
    destruct j as [| j]; cbn [nth_error]; rewrite firstn_cons, count_correct_flags_cons.
    + intros [= <-].
      replace (Z.of_nat (i + 0)) with (Z.of_nat i) by (f_equal; lia).
      split; [| split; reflexivity].
      cbn [event_field create_result assoc String.eqb Ascii.eqb Bool.eqb app firstn].
      unfold count_correct_flags. cbn [filter List.length Z.of_nat].
      reflexivity.
    + intros He. destruct (IH j e He) as (Hscore & Hquestion & Htype).
      repeat split; trivial.
      * rewrite Hscore.
        replace (Z.of_nat (i + S j)) with (Z.of_nat (S i + j)) by (f_equal; lia).
        cbn [event_field create_result assoc String.eqb Ascii.eqb Bool.eqb app].
        do 3 f_equal. destruct b; lia.
      * rewrite Hquestion.
        replace (Z.of_nat (i + S j)) with (Z.of_nat (S i + j)) by (f_equal; lia).
        reflexivity.
Qed.

End RunningScore.

Lemma results_of_bind (A C : Type) (m : gen A) (f : A -> gen C) :
  results_of (gbind m f)
  = (results_of m ++ match snd m with
                     | Next a => results_of (f a)
                     | _ => []
                     end)%list.
Proof.
  unfold results_of, result_events.
  destruct m as [events [a | | e]]; cbn; try now rewrite app_nil_r.
  destruct (f a) as [events' fl]. cbn. apply filter_app.
Qed.

Lemma results_of_try_except (A : Type) (body : gen A) (handler : exn -> gen A) :
  results_of (try_except body handler)
  = (results_of body ++ match snd body with
                        | Uncaught e => results_of (handler e)
                        | _ => []
                        end)%list.
Proof.
  unfold results_of, result_events.
  destruct body as [events [a | | e]]; cbn; try now rewrite app_nil_r.
  destruct (handler e) as [events' fl]. cbn. apply filter_app.
Qed.

Lemma results_of_none (A : Type) (g : gen A) :
  all_events (not_of_type "result") g -> results_of g = [].
Proof.
  unfold all_events, not_of_type, results_of, result_events.
  induction (fst g) as [| e events IH]; intros H; [reflexivity |].
  inversion H as [| ? ? He Hrest]; subst. cbn. rewrite He. now apply IH.
Qed.

Lemma results_of_lift (A C : Type) (r : result A) (f : A -> gen C) :
  results_of (gbind (lift r) f)
  = match r with
    | Ok a => results_of (f a)
    | Raise _ => []
    end.
Proof.
  destruct r; cbn [lift]; [now rewrite gbind_gret | reflexivity].
Qed.

Section FirstEpoch.

Variable B : Builtins.
Variable W : World.

Lemma from_first_epoch_accurate (events : list pyval) :
  from_first_epoch B events -> prefix_accurate events.
Proof.
  intros [-> | (all & total & c & Hc & ->)] k e Hnth.
  - destruct k; discriminate.
  - destruct (@emit_results_running_score B all total 0 all 0 0%Z eq_refl eq_refl k e
                Hnth) as (Hscore & Hquestion & _).
    rewrite Hscore, Hquestion. rewrite Nat2Z.inj_succ. cbn [Nat.add].
    rewrite Z.add_0_l. unfold Z.succ. now split.
Qed.

Lemma emit_results_are_results (all : list pyval) (total : Z) (c : Z) :
  count_correct B all = Ok c ->
  results_of (emit_results B (PList all) total 0 0 all)
  = fst (emit_results B (PList all) total 0 0 all).
Proof.
  intros Hc. unfold results_of, result_events.
  pose proof (@emit_results_running_score B all total 0 all 0 0%Z eq_refl eq_refl)
    as Hall.
  induction (fst (emit_results B (PList all) total 0 0 all)) as [| e events IH]
    using rev_ind; [reflexivity |].
  rewrite filter_app. rewrite IH.
  - cbn. destruct (Hall (List.length events) e) as (_ & _ & ->); [| reflexivity].
    rewrite nth_error_app2, Nat.sub_diag; [reflexivity | lia].
  - intros j e' Hj.
    assert (Hlt : (j < List.length events)%nat)
      by (apply nth_error_Some; congruence).
    destruct (Hall j e') as (Hscore & Hquestion & Htype).
    { rewrite nth_error_app1; assumption. }
    repeat split; trivial.
    rewrite Hscore. do 4 f_equal.
    rewrite firstn_app. replace (S j - List.length events)%nat with 0%nat by lia.
    cbn [firstn]. now rewrite app_nil_r.
Qed.

Lemma process_log_first_epoch (log_path : string) :
  from_first_epoch B (results_of (process_log B W 0 log_path)).
Proof.
  unfold process_log. rewrite results_of_lift.
  destruct (snd (parse_log_results W 0 log_path)) as [log_data |]; [| now left].
  destruct (truthy log_data); cbn [negb];
    [| left; apply results_of_none; walk_events].
  rewrite results_of_lift.
  destruct (py_get log_data "samples" (PList [])) as [samples |]; [| now left].
  rewrite results_of_lift.
  destruct (py_len samples) as [total |]; [| now left].
  rewrite results_of_lift.
  destruct (py_iter samples) as [items |] eqn:Hiter; [| now left].
  rewrite results_of_lift.
  destruct (count_correct B items) as [c |] eqn:Hc; [| now left].
  cbn [Nat.eqb]. rewrite results_of_bind.
  assert (Hrest : forall (fl : flow unit) (r : epoch_result),
             match fl with
             | Next _ => results_of (gret r)
             | _ => []
             end = []) by (intros [] r; reflexivity).
  rewrite Hrest, app_nil_r.
  destruct samples as [| | | | s | all | d]; try discriminate.
  - injection Hiter as <-. destruct s as [| a s]; [now left | discriminate].
  - injection Hiter as <-. right. exists all, total, c. split; [exact Hc |].
    eapply emit_results_are_results, Hc.
  - injection Hiter as <-. destruct d as [| [k v] d]; [now left | discriminate].
Qed.

Lemma run_epoch_first_epoch (benchmark : string) (limit : Z) (cmd : list string)
    (credential : string * string) (eval_timeout : Z) :
  from_first_epoch B
    (results_of (run_epoch B W benchmark limit 0 cmd credential eval_timeout)).
Proof.
  unfold run_epoch. rewrite results_of_lift.
  destruct (subprocess_run W 0 cmd credential eval_timeout) as [result |]; [| now left].
  destruct (negb (returncode result =? 0)%Z).
  - left. apply results_of_none.
    apply all_events_bind; [| intros _; apply all_events_stop].
    apply report_failure_events. reflexivity.
  - destruct (find_log_path _) as [log_path |];
      [destruct (path_exists W 0 log_path) |];
      first [ apply process_log_first_epoch
            | left; apply results_of_none, scrape_stdout_events; reflexivity ].
Qed.

Lemma result_events_none (events : list pyval) :
  Forall (not_of_type "result") events -> result_events events = [].
Proof.
  intros H. change events with (fst (events, @Return unit)).
  now apply (@results_of_none unit).
Qed.

(** One round of the loop yields the result events of its epoch, when what
    is around the epoch yields none. *)
Lemma results_of_round (A : Type) (epoch_body : gen epoch_result)
    (report : epoch_result -> gen unit) (handler : exn -> gen epoch_result)
    (next : epoch_result -> gen A) :
  (forall er, all_events (not_of_type "result") (report er)) ->
  (forall e, all_events (not_of_type "result") (handler e)) ->
  (forall er, all_events (not_of_type "result") (next er)) ->
  results_of
    (er <~ try_except (er <~ epoch_body ;; report er ;;> gret er) handler ;; next er)
  = results_of epoch_body.
Proof.
  intros Hreport Hhandler Hnext. unfold results_of, all_events in *.
  destruct epoch_body as [events [er | | e]]; cbn [gbind try_except fst snd].
  - specialize (Hreport er). destruct (report er) as [events1 fl1].
    cbn [fst] in Hreport. apply result_events_none in Hreport.
    destruct fl1 as [[] | | e1]; cbn [gbind gret try_except fst snd].
    + specialize (Hnext er). destruct (next er) as [events2 fl2].
      cbn [fst] in *. apply result_events_none in Hnext.
      unfold result_events in *.
      now rewrite !filter_app, Hreport, Hnext, !app_nil_r.
    + unfold result_events in *. now rewrite !filter_app, Hreport, !app_nil_r.
    + specialize (Hhandler e1). destruct (handler e1) as [events2 fl2].
      cbn [fst] in Hhandler. apply result_events_none in Hhandler.
      destruct fl2 as [er2 | | e2]; cbn [gbind fst snd].
      * specialize (Hnext er2). destruct (next er2) as [events3 fl3].
        cbn [fst] in *. apply result_events_none in Hnext.
        unfold result_events in *.
        now rewrite !filter_app, Hreport, Hhandler, Hnext, !app_nil_r.
      * unfold result_events in *.
        now rewrite !filter_app, Hreport, Hhandler, !app_nil_r.
      * unfold result_events in *.
        now rewrite !filter_app, Hreport, Hhandler, !app_nil_r.
  - reflexivity.
  - specialize (Hhandler e). destruct (handler e) as [events2 fl2].
    cbn [fst] in Hhandler. apply result_events_none in Hhandler.
    destruct fl2 as [er2 | | e2]; cbn [gbind fst snd].
    + specialize (Hnext er2). destruct (next er2) as [events3 fl3].
      cbn [fst] in *. apply result_events_none in Hnext.
      unfold result_events in *.
      now rewrite !filter_app, Hhandler, Hnext, !app_nil_r.
    + unfold result_events in *. now rewrite !filter_app, Hhandler, !app_nil_r.
    + unfold result_events in *. now rewrite !filter_app, Hhandler, !app_nil_r.
Qed.

Lemma results_of_yield_progress (A : Type) (message : string)
    (extra : list (string * pyval)) (g : gen A) :
  results_of (yield (create_progress message extra) ;;> g) = results_of g.
Proof.
  unfold results_of. cbn. now destruct g.
Qed.

Lemma results_of_gret (A C : Type) (a : A) (f : A -> gen C) :
  results_of (gbind (gret a) f) = results_of (f a).
Proof. now rewrite gbind_gret. Qed.

Lemma run_epochs_first_epoch (task_name model_id benchmark : string) (limit : Z)
    (api_key provider : string) (pc : provider_config) (temperature : option float)
    (max_tokens seed : option Z) (epochs eval_timeout : Z) (remaining : nat) :
  from_first_epoch B
    (results_of (run_epochs B W task_name model_id benchmark limit api_key provider pc
                   temperature max_tokens seed epochs eval_timeout remaining 0 [])).
Proof.
  destruct remaining as [| remaining]; cbn [run_epochs]; [now left |].
  assert (Hstart : forall (A : Type) (g : gen A) (message : string),
             results_of ((if (1 <? epochs)%Z
                          then yield (create_progress message [])
                          else gret tt) ;;> g)
             = results_of g).
  { intros A g message. destruct (1 <? epochs)%Z;
      [apply results_of_yield_progress | apply results_of_gret]. }
  rewrite Hstart, results_of_yield_progress, results_of_round.
  - apply run_epoch_first_epoch.
  - intros er. walk_events.
  - intros e. apply epoch_except_events. reflexivity.
  - intros er. apply run_epochs_later_no_result. discriminate.
Qed.

End FirstEpoch.

Lemma aggregate_no_result (W : World) (model_id benchmark : string) (limit : Z)
    (provider : string) (pc : provider_config) (seed : option Z) (epochs : Z)
    (results : list epoch_result) :
  all_events (not_of_type "result")
    (aggregate W model_id benchmark limit provider pc seed epochs results).
Proof.
  unfold aggregate. walk_events.
Qed.

Lemma run_first_epoch (B : Builtins) (W : World) (model_id benchmark : string)
    (limit : Z) (api_key : option string) (provider : string)
    (temperature : option float) (max_tokens seed : option Z) (epochs : Z)
    (timeout : option Z) :
  from_first_epoch B
    (results_of (run_with_inspect_ai B W model_id benchmark limit api_key provider
                   temperature max_tokens seed epochs timeout)).
Proof.
  destruct (run_shape B W model_id benchmark limit api_key provider temperature
              max_tokens seed epochs timeout)
    as [(err & -> & Herr) | [(e & ->) | Hrun]].
  - left. unfold results_of, result_events, has_type. cbn. now rewrite Herr.
  - now left.
  - destruct Hrun as (task_name & pc & key & eval_timeout & message & extra & _ & ->).
    rewrite results_of_yield_progress, results_of_bind.
    pose proof (run_epochs_first_epoch B W task_name model_id benchmark limit key
                  (lower provider) pc temperature max_tokens seed epochs eval_timeout
                  (Z.to_nat epochs)) as Hfirst.
    destruct (run_epochs B W task_name model_id benchmark limit key (lower provider) pc
                temperature max_tokens seed epochs eval_timeout (Z.to_nat epochs) 0 [])
      as [events [results | | e]]; cbn [snd]; rewrite ?app_nil_r; trivial.
    rewrite (@results_of_none unit) by apply aggregate_no_result.
    now rewrite app_nil_r.
Qed.

(** C4: the [k]-th result event of a run carries as running score the
    number of correct samples among the first [k], as the result events
    report them, divided by [k]; the events are numbered from 0 here, and
    the [k]-th carries the question number [k + 1]. *)
Theorem running_score_is_prefix_accuracy :
  forall (B : Builtins) (W : World) (model_id benchmark : string) (limit : Z)
         (api_key : option string) (provider : string) (temperature : option float)
         (max_tokens seed : option Z) (epochs : Z) (timeout : option Z)
         (k : nat) (e : pyval),
    nth_error
      (result_events
         (fst (run_with_inspect_ai B W model_id benchmark limit api_key provider
                 temperature max_tokens seed epochs timeout))) k = Some e ->
    event_field "running_score" e
    = Some (PFloat
              (int_truediv
                 (count_correct_flags
                    (firstn (S k)
                       (result_events
                          (fst (run_with_inspect_ai B W model_id benchmark limit api_key
                                  provider temperature max_tokens seed epochs timeout)))))
                 (Z.of_nat (S k)))) /\
    event_field "question" e = Some (PInt (Z.of_nat (S k))).
Proof.
  intros B W model_id benchmark limit api_key provider temperature max_tokens seed
    epochs timeout k e Hnth.
  exact (from_first_epoch_accurate
           (run_first_epoch B W model_id benchmark limit api_key provider temperature
              max_tokens seed epochs timeout) k Hnth).
Qed.

Lemma running_score_is_prefix_accuracy_witness :
  event_field "running_score"
    (nth 2 (result_events (fst (example_run world_of_three_samples 1))) PNone)
  = Some (PFloat (int_truediv 2 3)) /\
  event_field "question"
    (nth 2 (result_events (fst (example_run world_of_three_samples 1))) PNone)
  = Some (PInt 3).
Proof.
  exact (@running_score_is_prefix_accuracy example_builtins world_of_three_samples
           "gpt-4o" "mmlu" 10%Z None "openrouter" None (Some 1024%Z) None 1%Z None
           2%nat
           (nth 2 (result_events (fst (example_run world_of_three_samples 1))) PNone)
           ltac:(vm_compute; reflexivity)).
Defined.

(** The three result events of that run: 1/1, 1/2 and 2/3. *)
Example three_samples_running_scores :
  map (event_field "running_score")
    (result_events (fst (example_run world_of_three_samples 1)))
  = [Some (PFloat 1); Some (PFloat 0.5); Some (PFloat (int_truediv 2 3))] /\
  map (event_field "correct")
    (result_events (fst (example_run world_of_three_samples 1)))
  = [Some (PBool true); Some (PBool false); Some (PBool true)].
Proof. split; vm_compute; reflexivity. Qed.

(** ** How many result events *)

Section ResultCount.

Variable B : Builtins.

Lemma count_correct_well_behaved (samples : list pyval) :
  Forall (well_behaved B) samples -> exists c, count_correct B samples = Ok c.
Proof.
  induction 1 as [| s rest [[b Hb] _] _ [c Hc]]; cbn [count_correct].
  - now exists 0%Z.
  - rewrite Hb, Hc. cbn [rbind]. eauto.
Qed.

Lemma emit_results_count (all : list pyval) (total : Z) (epoch : nat)
    (items : list pyval) :
  Forall (well_behaved B) all ->
  forall i : nat,
    skipn i all = items ->
    List.length (fst (emit_results B (PList all) total epoch i items))
    = List.length items.
Proof.
  intros Hall. induction items as [| s rest IH]; intros i Hskip; cbn [emit_results].
  - reflexivity.
  - destruct (firstn_succ_skipn i all Hskip) as [Hfirst Hrest].
    assert (Hs : well_behaved B s).
    { rewrite Forall_forall in Hall. apply Hall.
      rewrite <- (firstn_skipn i all), Hskip. apply in_or_app. right. now left. }
    destruct Hs as ([b Hb] & [predicted Hp] & [expected He] & [latency Hl]).
    destruct (@count_correct_well_behaved (firstn (i + 1) all)) as [c Hc].
    { rewrite <- (firstn_skipn (i + 1) all) in Hall.
      now apply Forall_app in Hall as [Hall _]. }
    rewrite Hb, Hp, He. cbn [lift py_iter_prefix]. rewrite !gbind_gret.
    rewrite Hc, Hl. cbn [lift]. rewrite !gbind_gret.
    specialize (IH (S i) Hrest).
    destruct (emit_results B (PList all) total epoch (S i) rest) as [events fl].
    cbn [yield gbind fst app List.length] in *. now rewrite IH.
Qed.

End ResultCount.

(** When the log of the first epoch parses into a list of samples on which
    the helpers do not raise, one result event is yielded per sample. *)
Theorem one_result_event_per_sample :
  forall (B : Builtins) (W : World) (log_path : string) (log_data : pyval)
         (all : list pyval),
    snd (parse_log_results W 0 log_path) = Ok log_data ->
    truthy log_data = true ->
    py_get log_data "samples" (PList []) = Ok (PList all) ->
    Forall (well_behaved B) all ->
    List.length (result_events (fst (process_log B W 0 log_path))) = List.length all.
Proof.
  intros B W log_path log_data all Hparse Htruthy Hsamples Hall.
  destruct (@count_correct_well_behaved B all Hall) as [c Hc].
  change (result_events (fst (process_log B W 0 log_path)))
    with (results_of (process_log B W 0 log_path)).
  unfold process_log. rewrite Hparse. cbn [lift]. rewrite gbind_gret, Htruthy.
  cbn [negb]. rewrite Hsamples.
  do 3 (cbn [lift py_len py_iter]; rewrite gbind_gret).
  rewrite Hc. cbn [lift Nat.eqb]. rewrite gbind_gret, results_of_bind.
  rewrite (@emit_results_are_results B all _ c Hc).
  rewrite length_app, (@emit_results_count B all _ 0 all Hall 0 eq_refl).
  destruct (snd (emit_results B (PList all) (Z.of_nat (List.length all)) 0 0 all));
    cbn; lia.
Qed.

Lemma one_result_event_per_sample_witness :
  List.length
    (result_events
       (fst (process_log example_builtins world_of_three_samples 0
               "logs/2026-01-15T10-30-00+00-00_mmlu_abc.eval")))
  = 3%nat.
Proof.
  apply (@one_result_event_per_sample example_builtins world_of_three_samples
           "logs/2026-01-15T10-30-00+00-00_mmlu_abc.eval"
           (PDict [("status", PStr "success"); ("results", PDict []);
                   ("samples", PList [sample_with "Answer: B" (PStr "B") [];
                                      sample_with "Answer: A" (PStr "B") [];
                                      sample_with "ANSWER: c" (PStr "C") []])])
           [sample_with "Answer: B" (PStr "B") [];
            sample_with "Answer: A" (PStr "B") [];
            sample_with "ANSWER: c" (PStr "C") []]);
    try (vm_compute; reflexivity).
  repeat constructor; eexists; vm_compute; reflexivity.
Defined.

(** ** Temperature *)

(** For a model that matches no reasoning pattern, a given temperature is
    passed on as [--temperature] with its text. *)
Theorem temperature_passed_through :
  forall (B : Builtins) (task_name model_id : string) (limit : Z) (provider : string)
         (pc : provider_config) (t : float) (seed max_tokens : option Z)
         (effort : option string),
    is_reasoning_model model_id = false ->
    has_flag "--temperature" (py_repr B (PFloat t))
      (build_inspect_command B task_name model_id limit provider pc (Some t) seed
         max_tokens effort).
Proof.
  intros B task_name model_id limit provider pc t seed max_tokens effort Hplain.
  rewrite build_inspect_command_parts, Hplain.
  eexists _, _. reflexivity.
Qed.

Lemma temperature_passed_through_witness :
  has_flag "--temperature" (py_repr example_builtins (PFloat 0.7))
    (build_inspect_command example_builtins "inspect_evals/mmlu_0_shot" "gpt-4o" 10
       "openrouter" (provider_named "openrouter") (Some 0.7%float) None None None).
Proof.
  apply (@temperature_passed_through example_builtins "inspect_evals/mmlu_0_shot"
           "gpt-4o" 10%Z "openrouter" (provider_named "openrouter") 0.7%float None None
           None).
  vm_compute. reflexivity.
Defined.
(** ** The range of predictions *)

Lemma choice_letter_upper (c : ascii) :
  is_choice_letter c = true -> In (String (to_upper c) EmptyString) valid_answers.
Proof.
  destruct c as [[|] [|] [|] [|] [|] [|] [|] [|]]; vm_compute; intros H;
    first [discriminate H | tauto].
Qed.

Lemma match_answer_at_letter (s : string) (c : ascii) :
  match_answer_at s = Some c -> is_choice_letter c = true.
Proof.
  unfold match_answer_at.
  destruct (prefix "ANSWER" s || prefix "Answer" s || prefix "answer" s); [| discriminate].
  destruct (skip_sep (drop 6 s)) as [| d rest]; [discriminate |].
  destruct (is_choice_letter d) eqn:E; [| discriminate].
  destruct rest as [| d' rest]; [now intros [= <-] |].
  destruct (is_word d'); [discriminate | now intros [= <-]].
Qed.

Lemma answer_search_letter (s : string) (c : ascii) :
  answer_search s = Some c -> is_choice_letter c = true.
Proof.
  induction s as [| x s IH]; simpl.
  - discriminate.
  - destruct (match_answer_at (String x s)) eqn:E.
    + intros [= <-]. now apply match_answer_at_letter in E.
    + exact IH.
Qed.

Lemma search_answer_letter (v : pyval) (a : string) :
  search_answer v = Ok (Some a) -> In a valid_answers.
Proof.
  destruct v; simpl; try discriminate.
  destruct (answer_search s) eqn:E; intros [= <-].
  apply choice_letter_upper. now apply answer_search_letter in E.
Qed.

Lemma search_blocks_letter (blocks : list pyval) (a : string) :
  search_blocks blocks = Ok (Some a) -> In a valid_answers.
Proof.
  induction blocks as [| block rest IH]; simpl; [discriminate |].
  destruct block as [| | | | | | d]; try exact IH.
  repeat match goal with
         | |- context [if ?c then _ else _] => destruct c
         | |- context [rbind ?m _] =>
             let E := fresh "E" in
             destruct m as [[?a |] | ?e] eqn:E; cbn [rbind];
             [intros [= <-]; now apply search_answer_letter in E
             | exact IH | discriminate]
         end; exact IH.
Qed.

Lemma predicted_from_content_letter (output : pyval) (a : string) :
  predicted_from_content output = Ok (Some a) -> In a valid_answers.
Proof.
  unfold predicted_from_content.
  destruct (py_get output "choices" (PList [])) as [choices |]; [| discriminate].
  cbn [rbind]. destruct (truthy choices); [| discriminate].
  destruct (py_getitem0 choices) as [first |]; [| discriminate]. cbn [rbind].
  destruct (py_get first "message" (PDict [])) as [message |]; [| discriminate].
  cbn [rbind].
  destruct (py_get message "content" (PList [])) as [content |]; [| discriminate].
  cbn [rbind]. destruct content; try discriminate.
  - apply search_answer_letter.
  - apply search_blocks_letter.
Qed.

Lemma predicted_from_completion_letter (output : pyval) (a : string) :
  predicted_from_completion output = Ok (Some a) -> In a valid_answers.
Proof.
  unfold predicted_from_completion.
  destruct (py_get output "completion" (PStr EmptyString)) as [completion |];
    [| discriminate].
  cbn [rbind]. destruct (truthy completion); [| discriminate].
  apply search_answer_letter.
Qed.

Lemma str_in_In (s : string) (l : list string) : str_in s l = true -> In s l.
Proof.
  unfold str_in. intros H. apply existsb_exists in H as [x [Hin Heq]].
  apply String.eqb_eq in Heq. now subst.
Qed.

Lemma predicted_from_scores_letter (s : pyval) (a : string) :
  predicted_from_scores s = Ok a -> a = EmptyString \/ In a valid_answers.
Proof.
  unfold predicted_from_scores.
  destruct (py_get s "scores" (PDict [])) as [scores |]; [| discriminate].
  cbn [rbind].
  destruct (py_in "choice" scores) as [[|] |]; cbn [rbind];
    [| intros [= <-]; now left | discriminate].
  destruct (py_getitem scores "choice") as [choice_data |]; [| discriminate].
  cbn [rbind].
  destruct (py_get choice_data "explanation" (PStr EmptyString)) as [explanation |];
    [| discriminate].
  cbn [rbind].
  destruct (py_get choice_data "value" (PStr EmptyString)) as [value |]; [| discriminate].
  cbn [rbind].
  destruct (truthy explanation).
  - destruct (search_answer explanation) as [[m |] |] eqn:E; cbn [rbind];
      [intros [= <-]; right; now apply search_answer_letter in E | | discriminate].
    destruct (truthy value); [| intros [= <-]; now left].
    destruct (py_upper value) as [u |]; [| discriminate]. cbn [rbind].
    destruct (str_in u valid_answers) eqn:Eu; intros [= <-];
      [right; now apply str_in_In | now left].
  - cbn [rbind].
    destruct (truthy value); [| intros [= <-]; now left].
    destruct (py_upper value) as [u |]; [| discriminate]. cbn [rbind].
    destruct (str_in u valid_answers) eqn:Eu; intros [= <-];
      [right; now apply str_in_In | now left].
Qed.

Lemma prediction_range (sample : pyval) (predicted : string) :
  extract_predicted sample = Ok predicted ->
  predicted = EmptyString \/ In predicted valid_answers.
Proof.
  unfold extract_predicted.
  destruct (py_get sample "output" (PDict [])) as [output |]; [| discriminate].
  cbn [rbind].
  destruct (predicted_from_content output) as [[a |] |] eqn:E1; cbn [rbind];
    [| | discriminate].
  - intros [= <-]. right. now apply predicted_from_content_letter in E1.
  - destruct (predicted_from_completion output) as [[a |] |] eqn:E2; cbn [rbind];
      [| | discriminate].
    + intros [= <-]. right. now apply predicted_from_completion_letter in E2.
    + apply predicted_from_scores_letter.
Qed.

(** Whatever the sample holds, a prediction that [extract_predicted] returns
    is the empty string or one of the letters [A] to [E], in upper case. *)
Theorem prediction_is_empty_or_a_letter :
  forall (sample : pyval) (predicted : string),
    extract_predicted sample = Ok predicted ->
    predicted = EmptyString \/ In predicted valid_answers.
Proof. exact prediction_range. Qed.

Lemma prediction_is_empty_or_a_letter_witness :
  "D" = EmptyString \/ In "D" valid_answers.
Proof.
  apply (@prediction_is_empty_or_a_letter
           (sample_with "The capital is Paris, so the answer: d." (PStr "D") [])).
  vm_compute. reflexivity.
Defined.

Lemma upper_letter (a : string) : In a valid_answers -> upper a = a.
Proof.
  intros H. repeat (destruct H as [<- | H]; [reflexivity |]). destruct H.
Qed.

(** A sample scored by the choice scorer is counted correct only when its
    expected answer, put in upper case, is one of the letters [A] to [E]
    and the prediction is that letter. *)
Theorem correct_choice_needs_a_letter :
  forall (B : Builtins) (sample : pyval),
    scored_by_choice sample = true ->
    is_sample_correct B sample = Ok true ->
    exists (expected : pyval) (letter : string),
      extract_expected B sample = Ok expected /\
      py_upper expected = Ok letter /\
      In letter valid_answers /\
      extract_predicted sample = Ok letter.
Proof.
  intros B sample Hchoice. unfold scored_by_choice in Hchoice.
  unfold is_sample_correct.
  destruct (py_get sample "scores" (PDict [])) as [scores |]; [| discriminate].
  cbn [rbind].
  destruct (py_in "choice" scores) as [[|] |]; try discriminate. cbn [rbind].
  destruct (extract_predicted sample) as [predicted |] eqn:Epred; [| discriminate].
  cbn [rbind].
  destruct (extract_expected B sample) as [expected |]; [| discriminate].
  cbn [rbind].
  destruct (String.eqb_spec predicted EmptyString) as [-> | Hne]; cbn [negb andb];
    [discriminate |].
  destruct (truthy expected); [| discriminate].
  destruct (py_upper expected) as [letter |] eqn:Eup; [| discriminate]. cbn [rbind].
  intros [= Heq]. apply String.eqb_eq in Heq.
  destruct (prediction_range _ Epred) as [-> | Hin]; [now elim Hne |].
  rewrite (upper_letter Hin) in Heq. subst letter.
  exists expected, predicted. repeat split; auto.
Qed.

Lemma correct_choice_needs_a_letter_witness :
  exists (expected : pyval) (letter : string),
    extract_expected example_builtins (sample_with "Answer: B" (PStr " b ") []) = Ok expected /\
    py_upper expected = Ok letter /\
    In letter valid_answers /\
    extract_predicted (sample_with "Answer: B" (PStr " b ") []) = Ok letter.
Proof.
  apply (@correct_choice_needs_a_letter example_builtins
           (sample_with "Answer: B" (PStr " b ") []));
    vm_compute; reflexivity.
Defined.
(** ** The result events and the figures of their epoch *)

Section Tally.

Variable B : Builtins.
Variable W : World.

(** When the loop over the samples runs to its end, it has yielded one
    result event per sample, and the events flagged correct are as many as
    the samples counted correct. *)
Lemma emit_results_tally (samples : pyval) (total : Z) (epoch : nat)
    (items : list pyval) :
  forall (i : nat) (events : list pyval),
    emit_results B samples total epoch i items = (events, Next tt) ->
    List.length events = List.length items /\
    count_correct B items = Ok (count_correct_flags events) /\
    result_events events = events.
Proof.
  induction items as [| s rest IH]; intros i events; cbn [emit_results].
  - intros [= <-]. now split.
  - destruct (is_sample_correct B s) as [b |] eqn:Hb; cbn [lift];
      [rewrite gbind_gret | discriminate].
    destruct (extract_predicted s) as [predicted |]; cbn [lift];
      [rewrite gbind_gret | discriminate].
    destruct (extract_expected B s) as [expected |]; cbn [lift];
      [rewrite gbind_gret | discriminate].
    destruct (py_iter_prefix (i + 1) samples) as [firsts |]; cbn [lift];
      [rewrite gbind_gret | discriminate].
    destruct (count_correct B firsts) as [running |]; cbn [lift];
      [rewrite gbind_gret | discriminate].
    destruct (sample_latency B s) as [latency |]; cbn [lift];
      [rewrite gbind_gret | discriminate].
    specialize (IH (S i)).
    destruct (emit_results B samples total epoch (S i) rest) as [later fl].
    cbn [yield gbind app]. intros [= <- ->].
    destruct (IH later eq_refl) as (Hlen & Hcount & Hresults).
    cbn [List.length count_correct]. rewrite Hb. cbn [rbind]. rewrite Hcount. cbn [rbind].
    rewrite count_correct_flags_cons.
    split; [now rewrite Hlen | split].
    + cbn [event_field create_result assoc String.eqb Ascii.eqb Bool.eqb app].
      destruct b; reflexivity.
    + unfold result_events in *. cbn [filter]. 
      change (has_type "result" (create_result _ _ _ _ _ _)) with true.
      cbn iota. now rewrite Hresults.
Qed.

Lemma count_correct_of_strings (s : string) :
  s <> EmptyString -> forall c, count_correct B (chars s) <> Ok c.
Proof.
  destruct s as [| a s]; [congruence |]. intros _ c. discriminate.
Qed.

Lemma last_nth_error (A : Type) (l : list A) (d : A) :
  l <> [] -> nth_error l (List.length l - 1) = Some (last l d).
Proof.
  induction l as [| a l IH]; [congruence |]. intros _.
  destruct l as [| b l]; [reflexivity |].
  cbn [List.length Nat.sub last] in *. rewrite Nat.sub_0_r in *.
  cbn [nth_error]. apply IH. discriminate.
Qed.

(** The figures of the first epoch sum up its result events, when there are
    any. *)
Lemma process_log_sums_up (log_path : string) (events : list pyval) (r : epoch_result) :
  process_log B W 0 log_path = (events, Next r) ->
  result_events events <> [] ->
  sums_up r (result_events events).
Proof.
  unfold process_log.
  destruct (snd (parse_log_results W 0 log_path)) as [log_data |]; cbn [lift];
    [rewrite gbind_gret | discriminate].
  destruct (truthy log_data); cbn [negb]; [| discriminate].
  destruct (py_get log_data "samples" (PList [])) as [samples |]; cbn [lift];
    [rewrite gbind_gret | discriminate].
  destruct (py_len samples) as [total |] eqn:Hlen; cbn [lift];
    [rewrite gbind_gret | discriminate].
  destruct (py_iter samples) as [items |] eqn:Hiter; cbn [lift];
    [rewrite gbind_gret | discriminate].
  destruct (count_correct B items) as [c |] eqn:Hc; cbn [lift];
    [rewrite gbind_gret | discriminate].
  cbn [Nat.eqb].
  destruct (emit_results B samples total 0 0 items) as [evs fl] eqn:Hemit.
  destruct fl as [[] | | e]; cbn [gbind gret app]; try discriminate.
  intros [= <- <-]. rewrite app_nil_r.
  destruct (emit_results_tally _ _ _ _ _ Hemit) as (Hcount & Hflags & Hresults).
  rewrite Hresults. intros Hsome.
  assert (Hitems : items <> []).
  { intros ->. destruct evs; [now elim Hsome | discriminate]. }
  destruct samples as [| | | | s | all | d]; try discriminate.
  - injection Hiter as <-. destruct s as [| a s]; [now elim Hitems | discriminate].
  - injection Hiter as <-. injection Hlen as <-.
    rewrite Hc in Hflags. injection Hflags as ->.
    assert (Hpos : (0 < Z.of_nat (List.length all))%Z).
    { destruct all; [now elim Hitems | cbn [List.length]; lia]. }
    apply Z.ltb_lt in Hpos. unfold sums_up. cbn [er_total er_correct er_score].
    rewrite Hpos, Hcount. repeat split.
    pose proof (@emit_results_running_score B all (Z.of_nat (List.length all)) 0 all
                  0 0%Z eq_refl eq_refl (List.length evs - 1) (last evs PNone)) as Hlast.
    rewrite Hemit in Hlast. cbn [fst] in Hlast.
    destruct Hlast as (Hscore & _); [now apply last_nth_error |].
    rewrite Hscore. do 3 f_equal.
    + rewrite firstn_all2; [reflexivity |].
      destruct evs; [now elim Hsome | cbn [List.length]; lia].
    + cbn [Nat.add]. destruct evs; [now elim Hsome | cbn [List.length] in *; lia].
  - injection Hiter as <-. destruct d as [| [k v] d]; [now elim Hitems | discriminate].
Qed.

End Tally.
Section TallyRun.

Variable B : Builtins.
Variable W : World.

Lemma run_epoch_sums_up (benchmark : string) (limit : Z) (cmd : list string)
    (credential : string * string) (eval_timeout : Z) (events : list pyval)
    (r : epoch_result) :
  run_epoch B W benchmark limit 0 cmd credential eval_timeout = (events, Next r) ->
  result_events events <> [] ->
  sums_up r (result_events events).
Proof.
  unfold run_epoch.
  destruct (subprocess_run W 0 cmd credential eval_timeout) as [result |]; cbn [lift];
    [rewrite gbind_gret | discriminate].
  destruct (negb (returncode result =? 0)%Z).
  { destruct (report_failure benchmark result) as [ev [[] | | e]]; discriminate. }
  assert (Hscrape : scrape_stdout B 0 limit (stdout result) = (events, Next r) ->
                    result_events events <> [] -> sums_up r (result_events events)).
  { intros Hs Hsome. elim Hsome.
    pose proof (@scrape_stdout_events B (not_of_type "result") 0 limit (stdout result))
      as Hnone.
    unfold all_events in Hnone. rewrite Hs in Hnone.
    apply result_events_none, Hnone; reflexivity. }
  destruct (find_log_path _) as [log_path |]; [| exact Hscrape].
  destruct (path_exists W 0 log_path); [| exact Hscrape].
  apply process_log_sums_up.
Qed.

End TallyRun.

(** In a run of one epoch that yields result events and ends with a complete
    event, the complete event sums the result events up: its total is their
    number, its count of correct samples the number of those flagged
    correct, and its score the running score of the last of them. *)
Theorem complete_event_sums_up_results :
  forall (B : Builtins) (W : World) (model_id benchmark : string) (limit : Z)
         (api_key : option string) (provider : string) (temperature : option float)
         (max_tokens seed : option Z) (timeout : option Z) (t : pyval),
    let run := run_with_inspect_ai B W model_id benchmark limit api_key provider
                 temperature max_tokens seed 1 timeout in
    In t (fst run) ->
    has_type "complete" t = true ->
    results_of run <> [] ->
    event_field "total" t = Some (PInt (Z.of_nat (List.length (results_of run)))) /\
    event_field "correct" t = Some (PInt (count_correct_flags (results_of run))) /\
    event_field "score" t = event_field "running_score" (last (results_of run) PNone).
Proof.
  intros B W model_id benchmark limit api_key provider temperature max_tokens seed
    timeout t run.
  destruct (run_shape B W model_id benchmark limit api_key provider temperature
              max_tokens seed 1 timeout)
    as [(err & Hrun & Herr) | [(e & Hrun) | (task & pc & key & deadline & message & extra & _ & Hrun)]];
    subst run; rewrite Hrun; clear Hrun.
  - intros [<- | []] Ht. unfold has_type in Ht. rewrite Herr in Ht. discriminate.
  - intros [].
  - change (Z.to_nat 1) with 1%nat. cbn [run_epochs].
    change (1 <? 1)%Z with false. cbv iota. rewrite !gbind_gret.
    match goal with
    | |- context [run_epoch ?b ?w ?bm ?l ?ep ?c ?cr ?d] =>
        pose proof (@run_epoch_sums_up b w bm l c cr d) as Hsum;
        pose proof (@run_epoch_no_complete b w bm l ep c cr d) as Hnc;
        destruct (run_epoch b w bm l ep c cr d) as [events [r | | e]]
    end.
    + unfold aggregate, results_of, yield, gret.
      change (1 <? 1)%Z with false. cbn [gbind try_except fst snd app].
      rewrite !app_nil_r.
      assert (Hres : forall (p1 p2 : pyval) (rest : list pyval),
                 has_type "result" p1 = false -> has_type "result" p2 = false ->
                 result_events (p1 :: p2 :: events ++ rest)
                 = (result_events events ++ result_events rest)%list).
      { intros p1 p2 rest H1 H2. unfold result_events. cbn [filter].
        rewrite H1, H2. apply filter_app. }
      rewrite Hres by reflexivity. clear Hres.
      change (result_events [create_complete _ _ _ _]) with (@nil pyval).
      rewrite app_nil_r.
      intros Hin Ht Hsome. specialize (Hsum events r eq_refl Hsome).
      destruct Hsum as (Htotal & Hcorrect & Hscore).
      destruct Hin as [<- | [<- | Hin]]; try discriminate Ht.
      apply in_app_or in Hin as [Hin | [<- | []]].
      * elim (@not_of_type_in _ "complete" (events, Next r) t Hnc Hin Ht).
      * cbn [event_field create_complete assoc String.eqb Ascii.eqb Bool.eqb app].
        now rewrite Htotal, Hcorrect, Hscore.
    + unfold results_of, yield, gret. cbn [gbind try_except fst snd app].
      intros [<- | [<- | Hin]] Ht; try discriminate Ht.
      elim (@not_of_type_in _ "complete" (events, @Return epoch_result) t Hnc Hin Ht).
    + destruct e; unfold results_of, epoch_except, yield, gret, stop;
        cbn [gbind try_except fst snd app];
        (intros [<- | [<- | Hin]] Ht; try discriminate Ht;
         apply in_app_or in Hin as [Hin | [<- | []]];
         [ elim (@not_of_type_in _ "complete" (events, @Return epoch_result) t Hnc Hin Ht)
         | discriminate Ht ]).
Qed.

Lemma complete_event_sums_up_results_witness :
  let run := example_run world_of_three_samples 1 in
  let t := last (fst run) PNone in
  event_field "total" t = Some (PInt (Z.of_nat (List.length (results_of run)))) /\
  event_field "correct" t = Some (PInt (count_correct_flags (results_of run))) /\
  event_field "score" t = event_field "running_score" (last (results_of run) PNone).
Proof.
  apply (@complete_event_sums_up_results example_builtins world_of_three_samples
           "gpt-4o" "mmlu" 10%Z None "openrouter" None (Some 1024%Z) None None).
  - vm_compute. tauto.
  - vm_compute. reflexivity.
  - vm_compute. discriminate.
Defined.
(** ** The log path found in the tool's output *)

Lemma all_chars_app (p : ascii -> bool) (a b : string) :
  all_chars p (a ++ b) = all_chars p a && all_chars p b.
Proof.
  induction a as [| c a IH]; cbn; [reflexivity |].
  rewrite IH. now rewrite andb_assoc.
Qed.

Lemma take_while_all (p : ascii -> bool) (s : string) :
  all_chars p (take_while p s) = true.
Proof.
  induction s as [| c s IH]; cbn; [reflexivity |].
  destruct (p c) eqn:E; cbn; [now rewrite E | reflexivity].
Qed.

Lemma take_while_id (p : ascii -> bool) (s : string) :
  all_chars p s = true -> take_while p s = s.
Proof.
  induction s as [| c s IH]; cbn; [reflexivity |].
  destruct (p c); cbn; [| discriminate]. intros H. now rewrite IH.
Qed.

Lemma take_app (a b : string) (n : nat) :
  take (String.length a + n) (a ++ b) = a ++ take n b.
Proof.
  unfold take. induction a as [| c a IH]; cbn; [reflexivity | now rewrite IH].
Qed.

Lemma take_all (s : string) : take (String.length s) s = s.
Proof.
  unfold take. induction s as [| c s IH]; cbn; [reflexivity | now rewrite IH].
Qed.

Lemma length_append (a b : string) :
  String.length (a ++ b) = (String.length a + String.length b)%nat.
Proof.
  induction a as [| c a IH]; cbn; [reflexivity | now rewrite IH].
Qed.

(** Where [last_extension] finds an extension, the run splits there. *)
Lemma last_extension_splits (s : string) :
  forall (k j : nat),
    last_extension s k = Some j ->
    exists a b : string,
      s = a ++ b /\ (k + String.length a = j)%nat /\ (1 <= j)%nat /\
      (prefix ".eval" b = true \/ prefix ".json" b = true).
Proof.
  induction s as [| c s IH]; intros k j; cbn [last_extension]; [discriminate |].
  destruct (last_extension s (S k)) as [j' |] eqn:E.
  - intros [= <-]. destruct (IH (S k) j' E) as (a & b & -> & Hlen & Hpos & Hext).
    exists (String c a), b. cbn [append String.length]. repeat split; trivial. lia.
  - destruct (1 <=? k)%nat eqn:Hk; cbn [andb]; [| discriminate].
    destruct (prefix ".eval" (String c s) || prefix ".json" (String c s)) eqn:Hext;
      [| discriminate].
    intros [= <-]. exists EmptyString, (String c s). cbn [append String.length].
    apply Nat.leb_le in Hk. apply orb_true_iff in Hext. repeat split; trivial. lia.
Qed.

Lemma take_extension (ext rest : string) :
  ext = ".eval" \/ ext = ".json" -> take 5 (ext ++ rest) = ext.
Proof. intros [-> | ->]; destruct rest; reflexivity. Qed.

Lemma match_log_at_shape (s p : string) :
  match_log_at s = Some p -> exists name, p = "logs/" ++ name /\ is_log_name name.
Proof.
  unfold match_log_at. destruct (prefix "logs/" s); [| discriminate].
  pose proof (take_while_all is_log_name_char (drop 5 s)) as Hall.
  destruct (last_extension (take_while is_log_name_char (drop 5 s)) 0) as [k |] eqn:E;
    [| discriminate].
  intros [= <-].
  destruct (last_extension_splits _ _ E) as (a & b & Hrun & Hlen & Hpos & Hext).
  rewrite Hrun in *. cbn [Nat.add] in Hlen. subst k.
  assert (Hb : exists ext rest, b = ext ++ rest /\ (ext = ".eval" \/ ext = ".json")).
  { destruct Hext as [H | H]; apply prefix_split in H as [rest ->];
      [exists ".eval", rest | exists ".json", rest]; auto. }
  destruct Hb as (ext & rest & -> & Hwhich).
  rewrite take_app, (take_extension rest Hwhich).
  exists (a ++ ext). split; [reflexivity |]. split.
  - rewrite !all_chars_app in Hall. rewrite all_chars_app.
    apply andb_true_iff in Hall as [Ha Hb]. apply andb_true_iff in Hb as [Hext' _].
    now rewrite Ha, Hext'.
  - exists a. split; [| destruct Hwhich as [-> | ->]; auto].
    intros ->. cbn in Hpos. lia.
Qed.

Lemma search_log_shape (s p : string) :
  search_log s = Some p -> exists name, p = "logs/" ++ name /\ is_log_name name.
Proof.
  induction s as [| c s IH]; cbn [search_log].
  - destruct (match_log_at EmptyString) eqn:E; [| discriminate].
    intros [= <-]. now apply match_log_at_shape in E.
  - destruct (match_log_at (String c s)) eqn:E; [| exact IH].
    intros [= <-]. now apply match_log_at_shape in E.
Qed.

Lemma find_log_path_shape (output_lines : list string) (p : string) :
  find_log_path output_lines = Some p ->
  exists name, p = "logs/" ++ name /\ is_log_name name.
Proof.
  induction output_lines as [| line rest IH]; cbn [find_log_path]; [discriminate |].
  destruct (contains "Log:" line || _); [| exact IH].
  destruct (search_log line) eqn:E; [| exact IH].
  intros [= <-]. now apply search_log_shape in E.
Qed.


(** ** Found paths and the traversal check *)

Lemma prefix_append (a b : string) : prefix a (a ++ b) = true.
Proof.
  induction a as [| c a IH]; cbn; [now destruct b |].
  destruct (Ascii.ascii_dec c c); [exact IH | congruence].
Qed.

Lemma split_on_not_nil (sep : ascii) (s : string) : split_on sep s <> [].
Proof.
  destruct s as [| c s]; cbn; [discriminate |].
  destruct (Ascii.eqb c sep); [discriminate |].
  destruct (split_on sep s); discriminate.
Qed.

(** Splitting at a separator splits the list of components. *)
Lemma split_on_app (sep : ascii) (a b : string) :
  split_on sep (a ++ String sep b) = (split_on sep a ++ split_on sep b)%list.
Proof.
  induction a as [| c a IH]; cbn [append split_on].
  - now rewrite Ascii.eqb_refl.
  - rewrite IH. destruct (Ascii.eqb c sep); [reflexivity |].
    pose proof (split_on_not_nil sep a) as Hne.
    destruct (split_on sep a) as [| w ws]; [now elim Hne | reflexivity].
Qed.

Lemma split_on_single (sep : ascii) (p : ascii -> bool) (s : string) :
  p sep = false -> all_chars p s = true -> split_on sep s = [s].
Proof.
  intros Hsep. induction s as [| c s IH]; cbn; [reflexivity |].
  destruct (p c) eqn:Hc; cbn; [| discriminate]. intros Hall.
  destruct (Ascii.eqb_spec c sep) as [-> | _]; [congruence |].
  now rewrite (IH Hall).
Qed.

(** A component that is kept goes to the end of the normal form. *)
Lemma normalize_components_last (rooted : bool) (name : string) (comps : list string) :
  name <> EmptyString -> name <> "." -> name <> ".." ->
  forall stack,
    normalize_components rooted (comps ++ [name]) stack
    = (normalize_components rooted comps stack ++ [name])%list.
Proof.
  intros H1 H2 H3.
  assert (E1 : String.eqb name EmptyString = false) by now apply String.eqb_neq.
  assert (E2 : String.eqb name "." = false) by now apply String.eqb_neq.
  assert (E3 : String.eqb name ".." = false) by now apply String.eqb_neq.
  induction comps as [| comp comps IH]; intros stack; cbn [app normalize_components].
  - rewrite E1, E2, E3. reflexivity.
  - destruct (String.eqb comp EmptyString || String.eqb comp "."); [apply IH |].
    destruct (negb (String.eqb comp "..")); [apply IH |].
    destruct stack as [| top below]; [destruct rooted; apply IH |].
    destruct (String.eqb top ".."); apply IH.
Qed.

Lemma concat_last (sep x : string) (l : list string) :
  l <> [] -> String.concat sep (l ++ [x]) = String.concat sep l ++ sep ++ x.
Proof.
  induction l as [| a l IH]; [congruence |]. intros _.
  destruct l as [| b l]; [reflexivity |].
  change (String.concat sep ((a :: b :: l) ++ [x]))
    with (a ++ sep ++ String.concat sep ((b :: l) ++ [x])).
  rewrite IH by discriminate.
  change (String.concat sep (a :: b :: l)) with (a ++ sep ++ String.concat sep (b :: l)).
  now rewrite !append_assoc_string.
Qed.

Lemma append_not_empty (a b : string) : b <> EmptyString -> a ++ b <> EmptyString.
Proof. destruct a; cbn; [trivial | discriminate]. Qed.

Lemma prefix_nil (s : string) : prefix EmptyString s = true.
Proof. now destruct s. Qed.

Lemma initial_slashes_of_prefix (pre a b : string) (c : ascii) :
  c <> "/"%char ->
  forall q : string,
    q = "/" \/ q = "//" \/ q = "///" ->
    startswith (pre ++ String c a) q = startswith (pre ++ String c b) q.
Proof.
  intros Hc q Hq. unfold startswith.
  destruct pre as [| c1 [| c2 [| c3 pre]]];
    destruct Hq as [-> | [-> | ->]]; cbn [append prefix];
    repeat match goal with
           | |- context [Ascii.ascii_dec ?x ?y] =>
               destruct (Ascii.ascii_dec x y); try congruence
           end;
    rewrite ?prefix_nil; reflexivity.
Qed.

(** The normal form of a path [pre ++ dir ++ "/" ++ name], where [pre] is
    empty or ends in a separator and [dir] and [name] are plain components,
    continues the normal form of [pre ++ dir]. *)
Lemma posix_normpath_child (pre dir name : string) (c : ascii) (d : string) :
  dir = String c d ->
  is_log_name_char c = true -> all_chars is_log_name_char d = true ->
  dir <> "." -> dir <> ".." ->
  all_chars is_log_name_char name = true ->
  name <> EmptyString -> name <> "." -> name <> ".." ->
  pre = EmptyString \/ (exists pre', pre = pre' ++ "/") ->
  posix_normpath (pre ++ dir ++ "/" ++ name) = posix_normpath (pre ++ dir) ++ "/" ++ name.
Proof.
  intros -> Hc Hd Hd1 Hd2 Hname Hn0 Hn1 Hn2 Hpre.
  assert (Hslash : c <> "/"%char) by (intros ->; discriminate).
  assert (Hsep : is_log_name_char "/" = false) by reflexivity.
  unfold posix_normpath.
  assert (E1 : String.eqb (pre ++ String c d ++ "/" ++ name) EmptyString = false).
  { apply String.eqb_neq, append_not_empty. discriminate. }
  assert (E2 : String.eqb (pre ++ String c d) EmptyString = false).
  { apply String.eqb_neq, append_not_empty. discriminate. }
  rewrite E1, E2.
  change (String c d ++ "/" ++ name) with (String c (d ++ "/" ++ name)).
  rewrite !(@initial_slashes_of_prefix pre (d ++ "/" ++ name) d c Hslash) by auto.
  change (String c (d ++ "/" ++ name)) with (String c d ++ String "/" name).
  rewrite <- append_assoc_string, split_on_app.
  rewrite (@split_on_single "/" is_log_name_char name Hsep Hname).
  rewrite normalize_components_last by assumption.
  assert (Hcomps : exists comps, split_on "/" (pre ++ String c d) = (comps ++ [String c d])%list).
  { assert (Hdir : split_on "/" (String c d) = [String c d]).
    { apply (@split_on_single "/" is_log_name_char); [reflexivity |].
      cbn. now rewrite Hc, Hd. }
    destruct Hpre as [-> | [pre' ->]].
    - exists []. exact Hdir.
    - exists (split_on "/" pre').
      rewrite append_assoc_string. change ("/" ++ String c d) with (String "/" (String c d)).
      now rewrite split_on_app, Hdir. }
  destruct Hcomps as [comps ->].
  rewrite normalize_components_last by (trivial; discriminate).
  set (kept := normalize_components _ comps []).
  set (initial := if startswith (pre ++ String c d) "/" then _ else _).
  rewrite concat_last by (destruct kept; discriminate).
  assert (Hne : forall tail, String.eqb (initial ++ String.concat "/" (kept ++ [String c d]) ++ tail)
                       EmptyString = false).
  { intros tail. apply String.eqb_neq, append_not_empty.
    destruct kept as [| k kept]; [discriminate |].
    rewrite concat_last by discriminate. rewrite !append_assoc_string.
    apply append_not_empty, append_not_empty. discriminate. }
  rewrite (Hne ("/" ++ name)).
  pose proof (Hne EmptyString) as Hne0.
  assert (Hnil : forall s : string, s ++ EmptyString = s)
    by (induction s as [| x s IH]; cbn; [reflexivity | now rewrite IH]).
  rewrite Hnil in Hne0. rewrite Hne0.
  now rewrite !append_assoc_string.
Qed.

Lemma string_of_list_ascii_append (l1 l2 : list ascii) :
  string_of_list_ascii (l1 ++ l2) = string_of_list_ascii l1 ++ string_of_list_ascii l2.
Proof.
  induction l1 as [| c l1 IH]; cbn; [reflexivity | now rewrite IH].
Qed.

Lemma string_rev_involutive (s : string) : string_rev (string_rev s) = s.
Proof.
  unfold string_rev.
  now rewrite list_ascii_of_string_of_list_ascii, rev_involutive,
    string_of_list_ascii_of_string.
Qed.

Lemma endswith_char (s : string) (c : ascii) :
  endswith s (String c EmptyString) = true ->
  exists s', s = s' ++ String c EmptyString.
Proof.
  unfold endswith. change (string_rev (String c EmptyString)) with (String c EmptyString).
  intros H. apply prefix_split in H as [r Hr].
  exists (string_rev r). rewrite <- (string_rev_involutive s), Hr.
  unfold string_rev at 1. cbn [append list_ascii_of_string rev].
  now rewrite string_of_list_ascii_append.
Qed.

Lemma log_name_is_a_component (name : string) :
  is_log_name name -> name <> EmptyString /\ name <> "." /\ name <> "..".
Proof.
  intros [_ (stem & Hstem & Hname)].
  destruct stem as [| c1 [| c2 [| c3 stem]]]; [now elim Hstem | | |];
    destruct Hname as [-> | ->]; repeat split; discriminate.
Qed.

(** Under POSIX path rules, in whatever directory the service runs, a log
    path that the runner finds in the tool's output passes the traversal
    check of [parse_log_results]: the check never rejects a path that the
    runner's own scan produced. *)
Theorem found_log_path_passes_traversal_check :
  forall (W : World) (cwd out p : string),
    (forall path, abspath W path = posix_abspath cwd path) ->
    located_log out = Some p ->
    within_logs_dir W p = true.
Proof.
  intros W cwd out p Habs Hfound.
  apply find_log_path_shape in Hfound as (name & -> & Hname).
  destruct (log_name_is_a_component Hname) as (Hn0 & Hn1 & Hn2).
  destruct Hname as [Hchars _].
  assert (Hchild : forall pre,
             pre = EmptyString \/ (exists pre', pre = pre' ++ "/") ->
             posix_normpath (pre ++ "logs" ++ "/" ++ name)
             = posix_normpath (pre ++ "logs") ++ "/" ++ name).
  { intros pre Hpre.
    apply (@posix_normpath_child pre "logs" name "l"%char "ogs");
      trivial; discriminate. }
  unfold within_logs_dir. rewrite !Habs. unfold posix_abspath.
  change (startswith ("logs/" ++ name) "/") with false.
  change (startswith "logs" "/") with false. cbv iota.
  change ("logs/" ++ name) with ("logs" ++ "/" ++ name).
  apply orb_true_iff. left. unfold startswith.
  destruct (String.eqb_spec cwd EmptyString) as [-> | Hcwd]; cbn [orb].
  - rewrite (Hchild EmptyString) by now left.
    rewrite <- append_assoc_string. apply prefix_append.
  - destruct (endswith cwd "/") eqn:Hend.
    + apply endswith_char in Hend. rewrite (Hchild cwd) by now right.
      rewrite <- append_assoc_string. apply prefix_append.
    + rewrite <- !(append_assoc_string cwd "/").
      rewrite (Hchild (cwd ++ "/")) by (right; now exists cwd).
      rewrite <- append_assoc_string. apply prefix_append.
Qed.

Lemma found_log_path_passes_traversal_check_witness :
  within_logs_dir world_of_three_samples "logs/2026-01-15T10-30-00+00-00_mmlu_abc.eval"
  = true.
Proof.
  apply (@found_log_path_passes_traversal_check world_of_three_samples "/srv/app"
           "Log: logs/2026-01-15T10-30-00+00-00_mmlu_abc.eval").
  - intros path. reflexivity.
  - vm_compute. reflexivity.
Defined.

(** ** What the tool prints is what the runner finds *)

Lemma all_chars_impl (p q : ascii -> bool) (s : string) :
  (forall c, p c = true -> q c = true) -> all_chars p s = true -> all_chars q s = true.
Proof.
  intros Hpq. induction s as [| c s IH]; cbn; [reflexivity |].
  intros H. apply andb_true_iff in H as [Hc Hs]. now rewrite (Hpq c Hc), IH.
Qed.

Lemma strip_ansi_upto_plain (fuel : nat) (s : string) :
  all_chars (fun c => negb (Ascii.eqb c ESC)) s = true -> strip_ansi_upto fuel s = s.
Proof.
  revert s. induction fuel as [| fuel IH]; intros s; [reflexivity |].
  destruct s as [| c s]; cbn [strip_ansi_upto all_chars]; [reflexivity |].
  intros H. apply andb_true_iff in H as [Hc Hs].
  destruct (Ascii.eqb c ESC); [discriminate | now rewrite IH].
Qed.

Lemma string_rev_append (a b : string) :
  string_rev (a ++ b) = string_rev b ++ string_rev a.
Proof.
  unfold string_rev.
  assert (H : list_ascii_of_string (a ++ b)
              = (list_ascii_of_string a ++ list_ascii_of_string b)%list).
  { induction a as [| c a IH]; cbn; [reflexivity | now rewrite IH]. }
  now rewrite H, rev_app_distr, string_of_list_ascii_append.
Qed.

Lemma drop_append (a b : string) : drop (String.length a) (a ++ b) = b.
Proof.
  unfold drop. induction a as [| c a IH]; cbn [append String.length substring Nat.sub].
  - rewrite Nat.sub_0_r. apply take_all.
  - exact IH.
Qed.

Lemma last_extension_at_end (stem ext : string) :
  ext = ".eval" \/ ext = ".json" ->
  forall k : nat,
    (1 <= k + String.length stem)%nat ->
    last_extension (stem ++ ext) k = Some (k + String.length stem)%nat.
Proof.
  intros Hext. induction stem as [| c stem IH]; intros k Hk.
  - cbn [String.length] in *. rewrite Nat.add_0_r in *.
    destruct k as [| k]; [lia |].
    destruct Hext as [-> | ->]; reflexivity.
  - cbn [append last_extension String.length].
    rewrite IH by lia. f_equal. lia.
Qed.

Lemma log_name_chars_are_plain (c : ascii) :
  is_log_name_char c = true ->
  negb (Ascii.eqb c ESC) = true /\ negb (Ascii.eqb c (ascii_of_nat 10)) = true /\
  is_space c = false.
Proof.
  destruct c as [[|] [|] [|] [|] [|] [|] [|] [|]]; vm_compute; intros H;
    first [discriminate H | repeat split].
Qed.

Lemma match_log_at_elsewhere (c : ascii) (s : string) :
  c <> "l"%char -> match_log_at (String c s) = None.
Proof.
  intros Hc. unfold match_log_at. cbn [prefix].
  destruct (Ascii.ascii_dec "l" c); [congruence | reflexivity].
Qed.

Lemma search_log_here (s p : string) :
  match_log_at s = Some p -> search_log s = Some p.
Proof. intros H. destruct s; cbn [search_log]; now rewrite H. Qed.

(** The log line the tool prints is read back: from [Log: logs/] followed by
    a file name that the pattern accepts, the runner finds that very path. *)
Theorem printed_log_path_is_found :
  forall name : string,
    is_log_name name ->
    located_log ("Log: logs/" ++ name) = Some ("logs/" ++ name).
Proof.
  intros name [Hchars (stem & Hstem & Hname)].
  assert (Hext : exists ext, (ext = ".eval" \/ ext = ".json") /\ name = stem ++ ext).
  { destruct Hname as [-> | ->]; eauto. }
  destruct Hext as (ext & Hext & ->). clear Hname.
  unfold located_log.
  assert (Hplain : all_chars (fun c => negb (Ascii.eqb c ESC)) ("Log: logs/" ++ stem ++ ext)
                   = true).
  { change (all_chars (fun c => negb (Ascii.eqb c ESC)) (stem ++ ext) = true).
    eapply all_chars_impl; [| exact Hchars]. intros c Hc.
    now apply log_name_chars_are_plain in Hc. }
  unfold strip_ansi. rewrite (strip_ansi_upto_plain _ _ Hplain).
  assert (Hstrip : strip ("Log: logs/" ++ stem ++ ext) = "Log: logs/" ++ stem ++ ext).
  { unfold strip. change (lstrip ("Log: logs/" ++ stem ++ ext)) with ("Log: logs/" ++ stem ++ ext).
    unfold rstrip. rewrite <- (string_rev_involutive ("Log: logs/" ++ stem ++ ext)) at 2.
    f_equal. rewrite <- append_assoc_string, string_rev_append.
    destruct Hext as [-> | ->]; reflexivity. }
  rewrite Hstrip.
  rewrite (@split_on_single (ascii_of_nat 10)
             (fun c => negb (Ascii.eqb c (ascii_of_nat 10)))).
  2: reflexivity.
  2: { change (all_chars (fun c => negb (Ascii.eqb c (ascii_of_nat 10))) (stem ++ ext)
               = true).
       eapply all_chars_impl; [| exact Hchars]. intros c Hc.
       now apply log_name_chars_are_plain in Hc. }
  cbn [find_log_path].
  change (contains "Log:" ("Log: logs/" ++ stem ++ ext)) with true. cbn [orb].
  assert (Hmatch : match_log_at ("logs/" ++ stem ++ ext) = Some ("logs/" ++ stem ++ ext)).
  { unfold match_log_at. change (prefix "logs/" ("logs/" ++ stem ++ ext)) with (prefix "" (stem ++ ext)).
    rewrite prefix_nil.
    assert (Hdrop : drop 5 ("logs/" ++ stem ++ ext) = stem ++ ext)
      by apply (drop_append "logs/").
    rewrite !Hdrop, !(take_while_id _ _ Hchars).
    rewrite (@last_extension_at_end stem ext Hext 0).
    - cbn [Nat.add]. rewrite take_app. destruct Hext as [-> | ->]; reflexivity.
    - destruct stem; [now elim Hstem | cbn; lia]. }
  change ("Log: logs/" ++ stem ++ ext)
    with (String "L" (String "o" (String "g" (String ":" (String " " ("logs/" ++ stem ++ ext)))))).
  cbn [search_log].
  rewrite !match_log_at_elsewhere by discriminate.
  now rewrite (search_log_here _ Hmatch).
Qed.

Lemma printed_log_path_is_found_witness :
  located_log "Log: logs/2026-01-15T10-30-00+00-00_mmlu_abc.eval"
  = Some "logs/2026-01-15T10-30-00+00-00_mmlu_abc.eval".
Proof.
  apply (@printed_log_path_is_found "2026-01-15T10-30-00+00-00_mmlu_abc.eval").
  split; [reflexivity |].
  exists "2026-01-15T10-30-00+00-00_mmlu_abc". split; [discriminate | now left].
Defined.
(** ** A process that fails *)


(** ** What validation lets through *)

Lemma model_id_pattern_shape (s : string) :
  model_id_pattern_match s = true ->
  exists body : string,
    body <> EmptyString /\ all_chars is_model_id_char body = true /\
    (s = body \/ s = body ++ nl).
Proof.
  unfold model_id_pattern_match. intros H. apply orb_true_iff in H as [H | H].
  - apply andb_true_iff in H as [Hne Hall]. exists s. repeat split; auto.
    intros ->. discriminate.
  - revert H. destruct (endswith s nl) eqn:Hend; intros H;
      apply andb_true_iff in H as [Hne Hall].
    + apply endswith_char in Hend as [body ->].
      assert (Hbody : take (String.length (body ++ nl) - 1) (body ++ nl) = body).
      { rewrite length_append. cbn [String.length nl].
        replace (String.length body + 1 - 1)%nat with (String.length body + 0)%nat by lia.
        rewrite take_app. destruct body; cbn; [reflexivity |].
        f_equal. clear. induction body as [| c b IH]; cbn; [reflexivity | now rewrite IH]. }
      change (String (ascii_of_nat 10) EmptyString) with nl in *.
      rewrite Hbody in *. exists body. repeat split; auto.
      intros ->. discriminate.
    + exists s. repeat split; auto. intros ->. discriminate.
Qed.

(** Parameters that pass validation are in range: the model identifier is
    made of at most 200 characters of [[a-zA-Z0-9._:/-]], at least one, with
    at most a newline after them; the limit is between 1 and 10000; a
    temperature is neither below 0 nor above 2; a seed is not negative; a
    number of epochs is between 1 and 100; the provider, in lower case, and
    the benchmark are entries of their tables. *)
Theorem validated_parameters_are_in_range :
  forall (model_id benchmark : string) (limit : Z) (provider : string)
         (temperature : option float) (seed epochs : option Z),
    validate_parameters model_id benchmark limit provider temperature seed epochs = None ->
    (exists body : string,
        body <> EmptyString /\ all_chars is_model_id_char body = true /\
        (model_id = body \/ model_id = body ++ nl)) /\
    (String.length model_id <= 200)%nat /\
    (1 <= limit <= 10000)%Z /\
    (forall t, temperature = Some t -> PrimFloat.ltb t 0 = false /\ PrimFloat.ltb 2 t = false) /\
    (forall s, seed = Some s -> (0 <= s)%Z) /\
    (forall e, epochs = Some e -> (1 <= e <= 100)%Z) /\
    (exists pc, assoc (lower provider) PROVIDERS = Some pc) /\
    (exists task_name, assoc benchmark SUPPORTED_BENCHMARKS = Some task_name).
Proof.
  intros model_id benchmark limit provider temperature seed epochs.
  unfold validate_parameters.
  destruct (String.eqb model_id EmptyString || _); [discriminate |].
  destruct (model_id_pattern_match model_id) eqn:Hpattern; cbn [negb orb];
    [| discriminate].
  destruct (200 <? String.length model_id)%nat eqn:Hlen; [discriminate |].
  destruct (limit <? 1)%Z eqn:Hlow; [discriminate |].
  destruct (10000 <? limit)%Z eqn:Hhigh; [discriminate |].
  destruct (match temperature with Some t => _ | None => false end) eqn:Htemp;
    [discriminate |].
  destruct (match seed with Some s => _ | None => false end) eqn:Hseed; [discriminate |].
  destruct (match epochs with Some e => _ | None => false end) eqn:Hepochs;
    [discriminate |].
  destruct (assoc (lower provider) PROVIDERS) as [pc |]; [| discriminate].
  destruct (assoc benchmark SUPPORTED_BENCHMARKS) as [task_name |]; [| discriminate].
  intros _.
  apply Nat.ltb_ge in Hlen. apply Z.ltb_ge in Hlow. apply Z.ltb_ge in Hhigh.
  split; [now apply model_id_pattern_shape |].
  split; [exact Hlen |]. split; [lia |].
  split; [| split; [| split; [| split; eauto]]].
  - intros t ->. now apply orb_false_iff in Htemp.
  - intros s ->. now apply Z.ltb_ge in Hseed.
  - intros e ->. apply orb_false_iff in Hepochs as [H1 H2].
    apply Z.ltb_ge in H1. apply Z.ltb_ge in H2. lia.
Qed.

Lemma validated_parameters_are_in_range_witness :
  (exists body : string,
      body <> EmptyString /\ all_chars is_model_id_char body = true /\
      ("meta-llama/llama-3.1-8b:free" ++ nl = body
       \/ "meta-llama/llama-3.1-8b:free" ++ nl = body ++ nl)) /\
  (String.length ("meta-llama/llama-3.1-8b:free" ++ nl) <= 200)%nat /\
  (1 <= 10000 <= 10000)%Z /\
  (forall t, Some 2%float = Some t -> PrimFloat.ltb t 0 = false /\ PrimFloat.ltb 2 t = false) /\
  (forall s, Some 0%Z = Some s -> (0 <= s)%Z) /\
  (forall e, Some 100%Z = Some e -> (1 <= e <= 100)%Z) /\
  (exists pc, assoc (lower "OpenRouter") PROVIDERS = Some pc) /\
  (exists task_name, assoc "mmlu" SUPPORTED_BENCHMARKS = Some task_name).
Proof.
  apply (@validated_parameters_are_in_range ("meta-llama/llama-3.1-8b:free" ++ nl) "mmlu"
           10000%Z "OpenRouter" (Some 2%float) (Some 0%Z) (Some 100%Z)).
  vm_compute. reflexivity.
Defined.
(** ** How a reasoning model is recognised *)

Lemma lower_append (a b : string) : lower (a ++ b) = lower a ++ lower b.
Proof.
  induction a as [| c a IH]; cbn; [reflexivity | now rewrite IH].
Qed.

Lemma prefix_append_right (p s b : string) :
  prefix p s = true -> prefix p (s ++ b) = true.
Proof.
  intros H. apply prefix_split in H as [rest ->].
  rewrite append_assoc_string. apply prefix_append.
Qed.

Lemma contains_append (p a s b : string) :
  contains p s = true -> contains p (a ++ s ++ b) = true.
Proof.
  intros H.
  assert (Hright : contains p (s ++ b) = true).
  { clear a. induction s as [| c s IH].
    - cbn in H. rewrite orb_false_r in H.
      destruct p; [| discriminate]. cbn. destruct b; reflexivity.
    - change (contains p (String c s)) with (prefix p (String c s) || contains p s) in H.
      change (contains p (String c s ++ b))
        with (prefix p (String c s ++ b) || contains p (s ++ b)).
      apply orb_true_iff in H as [H | H]; apply orb_true_iff.
      + left. now apply prefix_append_right.
      + right. now apply IH. }
  clear H. induction a as [| c a IH]; [exact Hright |].
  change (contains p (String c a ++ s ++ b))
    with (prefix p (String c a ++ s ++ b) || contains p (a ++ s ++ b)).
  rewrite IH. apply orb_true_r.
Qed.

(** A model is recognised as a reasoning model by a pattern anywhere in its
    identifier, in any letter case: an identifier that contains, in any
    case, an identifier already recognised is recognised too. *)
Theorem reasoning_pattern_matches_anywhere :
  forall (before model_id same after : string),
    is_reasoning_model model_id = true ->
    lower same = lower model_id ->
    is_reasoning_model (before ++ same ++ after) = true.
Proof.
  intros before model_id same after H Hsame.
  unfold is_reasoning_model, any_in in *.
  apply existsb_exists in H as (pattern & Hin & Hcontains).
  apply existsb_exists. exists pattern. split; [exact Hin |].
  rewrite !lower_append, Hsame. now apply contains_append.
Qed.

Lemma reasoning_pattern_matches_anywhere_witness :
  is_reasoning_model ("mistralai/mixtral-turb" ++ "O1" ++ "-instruct") = true.
Proof.
  apply (@reasoning_pattern_matches_anywhere "mistralai/mixtral-turb" "o1" "O1" "-instruct");
    reflexivity.
Defined.
(** ** How the command addresses the model *)

(** For each of the six providers the command starts the same way: the model
    is addressed as [anthropic/<id>] on Anthropic, [google/<id>] on Google
    and [openai/<id>] on the four others, and [--model-base-url] follows,
    with the endpoint of the provider table, for OpenRouter, Together and
    Fireworks only.  The flags of the model's mode, the shuffle flags and
    the token flags come after. *)
Theorem command_addresses_model_by_provider :
  forall (B : Builtins) (task_name model_id : string) (limit : Z) (provider : string)
         (pc : provider_config) (temperature : option float)
         (seed max_tokens : option Z) (effort : option string),
    assoc provider PROVIDERS = Some pc ->
    let route :=
      if String.eqb provider "anthropic" then "anthropic/"
      else if String.eqb provider "google" then "google/"
      else "openai/" in
    let endpoint :=
      if String.eqb provider "openrouter"
      then ["--model-base-url"; "https://openrouter.ai/api/v1"]
      else if String.eqb provider "together"
      then ["--model-base-url"; "https://api.together.xyz/v1"]
      else if String.eqb provider "fireworks"
      then ["--model-base-url"; "https://api.fireworks.ai/inference/v1"]
      else [] in
    build_inspect_command B task_name model_id limit provider pc temperature seed
      max_tokens effort
    = (["inspect"; "eval"; task_name; "--model"; append route model_id;
        "--limit"; str_of_Z limit; "--log-format"; "json"]
       ++ endpoint
       ++ (if is_reasoning_model model_id then reasoning_flags provider model_id effort
           else temperature_flags B temperature)
       ++ shuffle_flags seed ++ token_flags max_tokens)%list.
Proof.
  intros B task_name model_id limit provider pc temperature seed max_tokens effort Hpc.
  rewrite build_inspect_command_parts.
  apply known_provider in Hpc as [Hname ->].
  destruct Hname as [-> | [-> | [-> | [-> | [-> | ->]]]]]; reflexivity.
Qed.

Lemma command_addresses_model_by_provider_witness :
  build_inspect_command example_builtins "inspect_evals/mmlu_0_shot" "claude-3-5-sonnet"
    10 "anthropic" (provider_named "anthropic") None None None None
  = ["inspect"; "eval"; "inspect_evals/mmlu_0_shot"; "--model";
     "anthropic/claude-3-5-sonnet"; "--limit"; "10"; "--log-format"; "json";
     "--sample-shuffle"; "--max-tokens"; "1024"; "-T"; "max_non_cot_tokens=1024"].
Proof.
  apply (@command_addresses_model_by_provider example_builtins "inspect_evals/mmlu_0_shot"
           "claude-3-5-sonnet" 10%Z "anthropic" (provider_named "anthropic")
           None None None None).
  reflexivity.
Defined.

(** ** The seed *)

(** As the runner builds it, without a reasoning effort, the command carries
    [--seed] only when a seed is given, and then the same seed goes to
    [--seed] and to [--sample-shuffle]; without a seed [--sample-shuffle]
    stands alone, directly before [--max-tokens]. *)
Theorem seed_goes_to_model_and_shuffle :
  forall (B : Builtins) (benchmark task_name provider : string) (pc : provider_config)
         (model_id : string) (limit : Z) (temperature : option float)
         (seed max_tokens : option Z),
    assoc benchmark SUPPORTED_BENCHMARKS = Some task_name ->
    assoc provider PROVIDERS = Some pc ->
    (forall t, temperature = Some t -> py_repr B (PFloat t) <> "--seed") ->
    let cmd := build_inspect_command B task_name model_id limit provider pc temperature
                 seed max_tokens None in
    match seed with
    | Some s =>
        exists before after,
          ~ In "--seed" before /\
          cmd = (before ++ ["--seed"; str_of_Z s; "--sample-shuffle"; str_of_Z s;
                            "--max-tokens"] ++ after)%list
    | None =>
        ~ In "--seed" cmd /\
        exists before after,
          cmd = (before ++ ["--sample-shuffle"; "--max-tokens"] ++ after)%list
    end.
Proof.
  intros B benchmark task_name provider pc model_id limit temperature seed max_tokens
    Htask Hpc Hrepr cmd.
  subst cmd. rewrite build_inspect_command_parts.
  pose proof (supported_tasks_are_not_flags _ Htask) as Hprefix.
  apply prefix_split in Hprefix as [task ->].
  apply known_provider in Hpc as [Hname ->].
  set (mode := if is_reasoning_model model_id then _ else _).
  assert (Hbase : ~ In "--seed"
                    (base_command ("inspect_evals/" ++ task) model_id limit provider
                       (provider_named provider))).
  { apply (@base_command_has_no_flag "--seed" "seed"); trivial; discriminate. }
  assert (Hmode : ~ In "--seed" mode).
  { subst mode. destruct (is_reasoning_model model_id).
    - unfold reasoning_flags, effort_or, truthy_str.
      repeat match goal with
             | |- context [if ?c then _ else _] => destruct c
             end; cbn; intuition discriminate.
    - destruct temperature as [t |]; cbn; [| tauto].
      specialize (Hrepr t eq_refl). intuition (try discriminate; congruence). }
  assert (Htokens : ~ In "--seed" (token_flags max_tokens)).
  { apply (@token_flags_have_no_flag "--seed" "seed"); trivial; discriminate. }
  destruct seed as [s |]; cbn [shuffle_flags].
  - exists (base_command ("inspect_evals/" ++ task) model_id limit provider
              (provider_named provider) ++ mode)%list.
    eexists. split.
    + rewrite in_app_iff. tauto.
    + unfold token_flags. rewrite <- !app_assoc. cbn [app]. reflexivity.
  - split.
    + rewrite !in_app_iff. cbn [In]. intuition discriminate.
    + exists (base_command ("inspect_evals/" ++ task) model_id limit provider
                (provider_named provider) ++ mode)%list.
      eexists. unfold token_flags. rewrite <- !app_assoc. cbn [app]. reflexivity.
Qed.

Lemma seed_goes_to_model_and_shuffle_witness :
  exists before after,
    ~ In "--seed" before /\
    build_inspect_command example_builtins "inspect_evals/mmlu_0_shot" "gpt-4o" 10
      "openrouter" (provider_named "openrouter") (Some 0.7%float) (Some 42%Z) None None
    = (before ++ ["--seed"; "42"; "--sample-shuffle"; "42"; "--max-tokens"] ++ after)%list.
Proof.
  apply (@seed_goes_to_model_and_shuffle example_builtins "mmlu"
           "inspect_evals/mmlu_0_shot" "openrouter" (provider_named "openrouter")
           "gpt-4o" 10%Z (Some 0.7%float) (Some 42%Z) None).
  - reflexivity.
  - reflexivity.
  - intros t [= <-]. vm_compute. discriminate.
Defined.
(** ** The deadline *)

Lemma validated_limit (model_id benchmark : string) (limit : Z) (provider : string)
    (temperature : option float) (seed epochs : option Z) :
  validate_parameters model_id benchmark limit provider temperature seed epochs = None ->
  (1 <= limit <= 10000)%Z.
Proof.
  unfold validate_parameters.
  destruct (String.eqb model_id EmptyString || _); [discriminate |].
  destruct (negb (model_id_pattern_match model_id) || _); [discriminate |].
  destruct (limit <? 1)%Z eqn:Hlow; [discriminate |].
  destruct (10000 <? limit)%Z eqn:Hhigh; [discriminate |].
  intros _. apply Z.ltb_ge in Hlow. apply Z.ltb_ge in Hhigh. lia.
Qed.

(** When the evaluation process of the first epoch runs out of time, the run
    ends with an error event of code [EVALUATION_TIMEOUT] that reports the
    deadline it had set.  For a benchmark that needs Docker this is 1800
    seconds and 300 more per sample, whatever deadline the caller or the
    environment gives; for a reasoning model it is the given deadline or 60
    seconds per sample, whichever is larger; otherwise the given deadline. *)
Theorem timeout_reports_the_deadline :
  forall (B : Builtins) (W : World) (model_id benchmark : string) (limit : Z)
         (api_key : option string) (provider : string) (temperature : option float)
         (max_tokens seed : option Z) (epochs : Z) (timeout : option Z) (base : Z),
    INSPECT_AI_AVAILABLE W = true ->
    INSPECT_EVALS_AVAILABLE W = true ->
    validate_parameters model_id benchmark limit (lower provider) temperature seed
      (Some epochs) = None ->
    (forall pc,
        assoc (lower provider) PROVIDERS = Some pc ->
        truthy_str (if truthy_str api_key then api_key
                    else getenv W (pc_api_key_env pc)) = true) ->
    base_timeout W timeout = Ok base ->
    (forall cmd credential deadline,
        subprocess_run W 0 cmd credential deadline = Raise TimeoutExpired) ->
    let deadline :=
      if str_in benchmark docker_benchmarks then (1800 + 300 * limit)%Z
      else if is_reasoning_model model_id then Z.max base (60 * limit)
      else base in
    exists before,
      run_with_inspect_ai B W model_id benchmark limit api_key provider temperature
        max_tokens seed epochs timeout
      = ((before ++
          [create_error EVALUATION_TIMEOUT
             ("Evaluation timed out after " ++ str_of_Z (deadline / 60)
              ++ " minutes. Consider reducing the sample limit or using a faster model.")
             [("timeout_seconds", PInt deadline)]])%list,
         Return).
Proof.
  intros B W model_id benchmark limit api_key provider temperature max_tokens seed
    epochs timeout base Hai Hevals Hvalid Hkey Hbase Hrun deadline.
  unfold run_with_inspect_ai. rewrite Hai, Hevals, Hvalid. cbn [negb].
  pose proof (validated_limit _ _ _ _ _ _ _ Hvalid) as Hlimit.
  apply validated_tables in Hvalid as ([task_name Htask] & [pc Hpc] & Hepochs).
  rewrite lower_idempotent in Hpc. rewrite Htask, Hpc. cbn [lift].
  rewrite !gbind_gret. rewrite (Hkey pc Hpc). cbn [negb]. rewrite Hbase. cbn [lift].
  rewrite gbind_gret.
  set (T := if str_in benchmark docker_benchmarks then Z.max 1800 _ else _).
  assert (HT : T = deadline).
  { subst T deadline. destruct (str_in benchmark docker_benchmarks); [lia |].
    destruct (is_reasoning_model model_id); [f_equal; lia | reflexivity]. }
  clearbody T. subst T.
  destruct (Z.to_nat epochs) as [| remaining] eqn:Hn; [lia |].
  cbn [run_epochs]. unfold run_epoch. rewrite Hrun.
  unfold epoch_except, yield, stop, lift, gret.
  destruct (1 <? epochs)%Z; cbn [gbind try_except app];
    eexists.
  - instantiate (1 := [_; _; _]). reflexivity.
  - instantiate (1 := [_; _]). reflexivity.
Qed.

Lemma timeout_reports_the_deadline_witness :
  exists before,
    run_with_inspect_ai example_builtins
      (example_world (Some "900") (fun _ => Raise TimeoutExpired) (fun _ _ => false)
         (fun _ _ => Plain (Raise FileNotFoundError)))
      "gpt-4o" "swe_bench" 2 None "openrouter" None None None 1 (Some 60%Z)
    = ((before ++
        [create_error EVALUATION_TIMEOUT
           "Evaluation timed out after 40 minutes. Consider reducing the sample limit or using a faster model."
           [("timeout_seconds", PInt 2400)]])%list,
       Return).
Proof.
  apply (@timeout_reports_the_deadline example_builtins
           (example_world (Some "900") (fun _ => Raise TimeoutExpired) (fun _ _ => false)
              (fun _ _ => Plain (Raise FileNotFoundError)))
           "gpt-4o" "swe_bench" 2%Z None "openrouter" None None None 1%Z (Some 60%Z) 60%Z);
    try reflexivity.
  - intros pc Hpc. vm_compute in Hpc. injection Hpc as <-. reflexivity.
Defined.
(** ** Reading an archive *)

Lemma read_members_readable (path : string) (members : list (string * result pyval)) :
  readable members ->
  forall (samples : list pyval) (header : pyval),
    snd (read_members path members samples header)
    = Ok ((samples ++ samples_of members)%list,
          fold_left (fun header m =>
                       if negb (is_sample_member (fst m))
                          && String.eqb (fst m) "header.json"
                       then match snd m with Ok v => v | Raise _ => header end
                       else header)
            members header).
Proof.
  induction 1 as [| [name loaded] members Hm _ IH]; intros samples header;
    cbn [read_members samples_of flat_map fold_left fst snd].
  - now rewrite app_nil_r.
  - fold (is_sample_member name). fold (samples_of members).
    cbn [fst snd] in Hm.
    destruct (is_sample_member name) eqn:Hsample; cbn [negb andb].
    + destruct Hm as [v ->]; [now left |].
      specialize (IH (samples ++ [v])%list header).
      destruct (read_members path members (samples ++ [v]) header) as [trace r].
      cbn [snd] in *. rewrite IH. now rewrite <- app_assoc.
    + destruct (String.eqb_spec name "header.json") as [-> | _].
      * destruct Hm as [v ->]; [now right |].
        specialize (IH samples v).
        destruct (read_members path members samples v) as [trace r].
        cbn [snd] in *. now rewrite IH.
      * cbn [app]. apply IH.
Qed.

(** From an archive whose sample members and header decode,
    [parse_log_results] returns the samples in the order of the archive's
    members, whatever other members lie between them, with the status and
    the results of the header: [success] and an empty dictionary when the
    header has none, or when there is no header. *)
Theorem archive_is_read_in_member_order :
  forall (W : World) (epoch : nat) (log_path : string)
         (members : list (string * result pyval)) (load : result pyval)
         (header : list (string * pyval)),
    within_logs_dir W log_path = true ->
    endswith log_path ".eval" = true ->
    file_at W epoch log_path = Archive (Ok members) load ->
    readable members ->
    header_of members = PDict header ->
    snd (parse_log_results W epoch log_path)
    = Ok (PDict [("status", match assoc "status" header with
                            | Some status => status
                            | None => PStr "success"
                            end);
                 ("results", match assoc "results" header with
                             | Some results => results
                             | None => PDict []
                             end);
                 ("samples", PList (samples_of members))]).
Proof.
  intros W epoch log_path members load header Hwithin Heval Hfile Hreadable Hheader.
  unfold parse_log_results. rewrite Hwithin, Heval, Hfile. cbn [negb].
  pose proof (read_members_readable log_path Hreadable [] (PDict [])) as Hread.
  fold (header_of members) in Hread. rewrite Hheader in Hread.
  destruct (read_members log_path members [] (PDict [])) as [trace r].
  cbn [snd] in *. subst r. reflexivity.
Qed.

Lemma archive_is_read_in_member_order_witness :
  snd (parse_log_results world_of_three_samples 0
         "logs/2026-01-15T10-30-00+00-00_mmlu_abc.eval")
  = Ok (PDict [("status", PStr "success");
               ("results", PDict []);
               ("samples",
                PList [sample_with "Answer: B" (PStr "B") [];
                       sample_with "Answer: A" (PStr "B") [];
                       sample_with "ANSWER: c" (PStr "C") []])]).
Proof.
  apply (@archive_is_read_in_member_order world_of_three_samples 0%nat
           "logs/2026-01-15T10-30-00+00-00_mmlu_abc.eval"
           [("header.json", Ok (PDict [("status", PStr "success")]));
            ("samples/1_epoch_1.json", Ok (sample_with "Answer: B" (PStr "B") []));
            ("samples/2_epoch_1.json", Ok (sample_with "Answer: A" (PStr "B") []));
            ("samples/3_epoch_1.json", Ok (sample_with "ANSWER: c" (PStr "C") []))]
           (Raise UnicodeDecodeError) [("status", PStr "success")]);
    try reflexivity.
  repeat constructor; cbn [fst snd]; intros _; eexists; reflexivity.
Defined.

Lemma read_members_stops (path : string) (before after : list (string * result pyval))
    (name : string) (e : exn) :
  readable before ->
  is_sample_member name = true \/ name = "header.json" ->
  forall (samples : list pyval) (header : pyval),
    read_members path (before ++ (name, Raise e) :: after) samples header
    = ((member_reads path before ++ [ReadMember path name])%list, Raise e).
Proof.
  intros Hreadable Hname.
  induction Hreadable as [| [n loaded] before Hm _ IH]; intros samples header;
    cbn [app read_members member_reads flat_map fst snd].
  - fold (is_sample_member name).
    destruct Hname as [-> | ->]; [reflexivity |].
    destruct (is_sample_member "header.json"); reflexivity.
  - fold (is_sample_member n). fold (member_reads path before). cbn [fst snd] in Hm.
    destruct (is_sample_member n) eqn:Hsample; cbn [orb].
    + destruct Hm as [v ->]; [now left |]. now rewrite IH.
    + destruct (String.eqb_spec n "header.json") as [-> | _].
      * destruct Hm as [v ->]; [now right |]. now rewrite IH.
      * apply IH.
Qed.

(** The first sample member or header of an archive that does not decode
    ends the reading: no member after it is read, and [parse_log_results]
    returns [None] when the failure is one of the four kinds it catches and
    lets any other exception through. *)
Theorem unreadable_member_ends_the_reading :
  forall (W : World) (epoch : nat) (log_path : string)
         (before after : list (string * result pyval)) (name : string) (e : exn)
         (load : result pyval),
    within_logs_dir W log_path = true ->
    endswith log_path ".eval" = true ->
    file_at W epoch log_path = Archive (Ok (before ++ (name, Raise e) :: after)%list) load ->
    readable before ->
    is_sample_member name = true \/ name = "header.json" ->
    parse_log_results W epoch log_path
    = ((IsZipfile log_path :: OpenZip log_path :: member_reads log_path before
        ++ [ReadMember log_path name])%list,
       match e with
       | JSONDecodeError | FileNotFoundError | PermissionError | BadZipFile => Ok PNone
       | _ => Raise e
       end).
Proof.
  intros W epoch log_path before after name e load Hwithin Heval Hfile Hreadable Hname.
  unfold parse_log_results. rewrite Hwithin, Heval, Hfile. cbn [negb].
  rewrite (read_members_stops log_path after e Hreadable Hname).
  destruct e; reflexivity.
Qed.

Lemma unreadable_member_ends_the_reading_witness :
  parse_log_results
    (example_world None (fun _ => prints "Log: logs/run.eval") (fun _ _ => true)
       (fun _ _ =>
          Archive
            (Ok [("header.json", Ok (PDict []));
                 ("_journal/start.json", Raise UnicodeDecodeError);
                 ("samples/1_epoch_1.json", Raise JSONDecodeError);
                 ("samples/2_epoch_1.json", Ok (sample_with "Answer: A" (PStr "A") []))])
            (Raise UnicodeDecodeError)))
    0 "logs/run.eval"
  = ([IsZipfile "logs/run.eval"; OpenZip "logs/run.eval";
      ReadMember "logs/run.eval" "header.json";
      ReadMember "logs/run.eval" "samples/1_epoch_1.json"],
     Ok PNone).
Proof.
  apply (@unreadable_member_ends_the_reading
           (example_world None (fun _ => prints "Log: logs/run.eval") (fun _ _ => true)
              (fun _ _ =>
                 Archive
                   (Ok [("header.json", Ok (PDict []));
                        ("_journal/start.json", Raise UnicodeDecodeError);
                        ("samples/1_epoch_1.json", Raise JSONDecodeError);
                        ("samples/2_epoch_1.json",
                         Ok (sample_with "Answer: A" (PStr "A") []))])
                   (Raise UnicodeDecodeError)))
           0%nat "logs/run.eval"
           [("header.json", Ok (PDict []));
            ("_journal/start.json", Raise UnicodeDecodeError)]
           [("samples/2_epoch_1.json", Ok (sample_with "Answer: A" (PStr "A") []))]
           "samples/1_epoch_1.json" JSONDecodeError (Raise UnicodeDecodeError));
    try reflexivity.
  - repeat constructor; cbn [fst snd].
    + intros _. eexists. reflexivity.
    + intros [H | H]; discriminate H.
  - now left.
Defined.
(** ** The events of the loop *)

Ltac loop_events :=
  repeat first
    [ apply all_events_gret
    | apply all_events_stop
    | apply all_events_lift
    | apply all_events_yield; constructor; first [reflexivity | cbn [In]; tauto]
    | apply all_events_bind; [| intros ?]
    | apply all_events_if
    | match goal with
      | |- all_events _ (match ?x with _ => _ end) => destruct x
      end ].

Section LoopEvents.

Variable B : Builtins.
Variable W : World.

Lemma emit_results_loop_events (samples : pyval) (total : Z) (epoch : nat)
    (items : list pyval) (i : nat) :
  all_events loop_event (emit_results B samples total epoch i items).
Proof.
  revert i. induction items as [| sample rest IH]; intros i; cbn [emit_results];
    loop_events. apply IH.
Qed.

Lemma run_epoch_loop_events (benchmark : string) (limit : Z) (epoch : nat)
    (cmd : list string) (credential : string * string) (eval_timeout : Z) :
  all_events loop_event (run_epoch B W benchmark limit epoch cmd credential eval_timeout).
Proof.
  unfold run_epoch.
  apply all_events_bind; [apply all_events_lift | intros result].
  apply all_events_if.
  - apply all_events_bind; [| intros _; apply all_events_stop].
    apply report_failure_events. intros. constructor. cbn [In]. tauto.
  - assert (Hscrape : all_events loop_event (scrape_stdout B epoch limit (stdout result))).
    { unfold scrape_stdout. loop_events. }
    destruct (find_log_path _) as [log_path |]; [apply all_events_if |]; trivial.
    unfold process_log. loop_events. apply emit_results_loop_events.
Qed.

Lemma run_epochs_loop_events (task_name model_id benchmark : string) (limit : Z)
    (api_key provider : string) (pc : provider_config) (temperature : option float)
    (max_tokens seed : option Z) (epochs eval_timeout : Z) (remaining epoch : nat)
    (acc : list epoch_result) :
  all_events loop_event
    (run_epochs B W task_name model_id benchmark limit api_key provider pc
       temperature max_tokens seed epochs eval_timeout remaining epoch acc).
Proof.
  revert epoch acc. induction remaining as [| remaining IH]; intros epoch acc;
    cbn [run_epochs]; [apply all_events_gret |].
  apply all_events_bind; [loop_events | intros _].
  apply all_events_bind; [loop_events | intros _].
  apply all_events_bind; [| intros er; apply IH].
  apply all_events_try_except.
  - apply all_events_bind; [apply run_epoch_loop_events | intros er]. loop_events.
  - intros e. unfold epoch_except. loop_events.
Qed.

Lemma aggregate_loop_events (model_id benchmark : string) (limit : Z) (provider : string)
    (pc : provider_config) (seed : option Z) (epochs : Z) (results : list epoch_result) :
  all_events loop_event
    (aggregate W model_id benchmark limit provider pc seed epochs results).
Proof. unfold aggregate. loop_events. Qed.

End LoopEvents.

(** ** Credentials *)

Lemma configured_flag_known (W : World) (provider : string) (pc : provider_config) :
  assoc provider PROVIDERS = Some pc ->
  configured_flag (get_available_providers W) provider
  = Some (PBool (truthy_str (getenv W (pc_api_key_env pc)))).
Proof.
  intros H. apply known_provider in H as [Hname ->].
  destruct Hname as [-> | [-> | [-> | [-> | [-> | ->]]]]]; reflexivity.
Qed.

Lemma loop_event_code (e : pyval) :
  loop_event e -> event_field "code" e <> Some (PStr "API_KEY_MISSING").
Proof.
  intros [message extra Hextra | question total correct running_score latency_ms extra Hextra
         | score correct total extra Hextra | code message details Hcode];
    cbn [event_field create_progress create_result create_complete create_error assoc
           String.eqb Ascii.eqb Bool.eqb app]; rewrite ?Hextra; try discriminate.
  cbn in Hcode. destruct details; destruct Hcode as [<- | [<- | [<- | []]]]; cbn; discriminate.
Qed.

(** The [configured] flag that [get_available_providers] reports for a
    provider tells whether a run on it, started without a key of its own,
    stops for want of a credential: with the flag [False] a run with valid
    parameters yields the [API_KEY_MISSING] error and nothing else, with the
    flag [True] no event of the run carries that code. *)
Theorem configured_flag_predicts_credential_error :
  forall (B : Builtins) (W : World) (model_id benchmark : string) (limit : Z)
         (provider : string) (temperature : option float)
         (max_tokens seed : option Z) (epochs : Z) (timeout : option Z),
    INSPECT_AI_AVAILABLE W = true ->
    INSPECT_EVALS_AVAILABLE W = true ->
    validate_parameters model_id benchmark limit (lower provider) temperature seed
      (Some epochs) = None ->
    let run := run_with_inspect_ai B W model_id benchmark limit None provider
                 temperature max_tokens seed epochs timeout in
    exists configured : bool,
      configured_flag (get_available_providers W) (lower provider)
      = Some (PBool configured) /\
      if configured
      then forall e, In e (fst run) -> event_field "code" e <> Some (PStr "API_KEY_MISSING")
      else exists message details,
             run = ([create_error API_KEY_MISSING message details], Return).
Proof.
  intros B W model_id benchmark limit provider temperature max_tokens seed epochs
    timeout Hai Hevals Hvalid run.
  subst run. unfold run_with_inspect_ai. rewrite Hai, Hevals, Hvalid. cbn [negb].
  apply validated_tables in Hvalid as ([task_name Htask] & [pc Hpc] & Hepochs).
  rewrite lower_idempotent in Hpc. rewrite Htask, Hpc. cbn [lift].
  rewrite !gbind_gret. cbn [truthy_str].
  exists (truthy_str (getenv W (pc_api_key_env pc))).
  split; [now apply configured_flag_known |].
  destruct (truthy_str (getenv W (pc_api_key_env pc))); cbn [negb].
  - intros e Hin. apply loop_event_code. revert e Hin. apply Forall_forall.
    change (all_events loop_event
              (base <~ lift (base_timeout W timeout) ;;
               yield (create_progress
                        ("Running " ++ task_name ++ " via " ++ pc_name pc
                         ++ " with limit=" ++ str_of_Z limit
                         ++ (match seed with
                             | Some sd => if (sd =? 0)%Z then EmptyString
                                          else ", seed=" ++ str_of_Z sd
                             | None => EmptyString
                             end)
                         ++ (if (1 <? epochs)%Z then ", epochs=" ++ str_of_Z epochs
                             else EmptyString)
                         ++ "...")
                        [("provider", PStr (lower provider)); ("seed", py_opt_int seed);
                         ("epochs", PInt epochs)]) ;;>
               all_epoch_results <~
                 run_epochs B W task_name model_id benchmark limit
                   (match getenv W (pc_api_key_env pc) with
                    | Some key => key
                    | None => EmptyString
                    end) (lower provider) pc temperature max_tokens seed epochs
                   (if str_in benchmark docker_benchmarks
                    then Z.max 1800 (1800 + limit * 300)
                    else if is_reasoning_model model_id then Z.max base (limit * 60)
                    else base)
                   (Z.to_nat epochs) 0 [] ;;
               aggregate W model_id benchmark limit (lower provider) pc seed epochs
                 all_epoch_results)).
    apply all_events_bind; [apply all_events_lift | intros base].
    apply all_events_bind; [apply all_events_yield; constructor; reflexivity | intros _].
    apply all_events_bind; [apply run_epochs_loop_events | intros results].
    apply aggregate_loop_events.
  - eexists _, _. reflexivity.
Qed.

Lemma configured_flag_predicts_credential_error_witness :
  exists configured : bool,
    configured_flag
      (get_available_providers
         (example_world None (fun _ => prints "accuracy: 0.8") (fun _ _ => false)
            (fun _ _ => Plain (Raise FileNotFoundError))))
      (lower "Together")
    = Some (PBool configured) /\
    if configured
    then forall e,
        In e (fst (run_with_inspect_ai example_builtins
                     (example_world None (fun _ => prints "accuracy: 0.8")
                        (fun _ _ => false) (fun _ _ => Plain (Raise FileNotFoundError)))
                     "gpt-4o" "mmlu" 10 None "Together" None None None 1 None)) ->
        event_field "code" e <> Some (PStr "API_KEY_MISSING")
    else exists message details,
        run_with_inspect_ai example_builtins
          (example_world None (fun _ => prints "accuracy: 0.8")
             (fun _ _ => false) (fun _ _ => Plain (Raise FileNotFoundError)))
          "gpt-4o" "mmlu" 10 None "Together" None None None 1 None
        = ([create_error API_KEY_MISSING message details], Return).
Proof.
  apply (@configured_flag_predicts_credential_error example_builtins
           (example_world None (fun _ => prints "accuracy: 0.8") (fun _ _ => false)
              (fun _ _ => Plain (Raise FileNotFoundError)))
           "gpt-4o" "mmlu" 10%Z "Together" None None None 1%Z None);
    reflexivity.
Defined.
(** ** The shape of the events *)

Lemma validation_error_built (model_id benchmark : string) (limit : Z)
    (provider : string) (temperature : option float) (seed epochs : option Z)
    (event : pyval) :
  validate_parameters model_id benchmark limit provider temperature seed epochs
  = Some event ->
  exists code message details, event = create_error code message details.
Proof.
  unfold validate_parameters.
  repeat match goal with
         | |- context [if ?c then _ else _] => destruct c
         | |- context [match assoc ?k ?t with _ => _ end] => destruct (assoc k t)
         end;
    intros [= <-]; eexists _, _, _; reflexivity.
Qed.

(** Every event of a run is an error built by [create_error] or an event of
    the loop. *)
Lemma run_events (P : pyval -> Prop) (B : Builtins) (W : World)
    (model_id benchmark : string) (limit : Z) (api_key : option string)
    (provider : string) (temperature : option float) (max_tokens seed : option Z)
    (epochs : Z) (timeout : option Z) :
  (forall code message details, P (create_error code message details)) ->
  (forall e, loop_event e -> P e) ->
  all_events P
    (run_with_inspect_ai B W model_id benchmark limit api_key provider temperature
       max_tokens seed epochs timeout).
Proof.
  intros Herror Hloop.
  assert (Hmono : forall (A : Type) (g : gen A), all_events loop_event g -> all_events P g).
  { intros A g. unfold all_events. apply Forall_impl, Hloop. }
  unfold run_with_inspect_ai.
  apply all_events_if.
  { apply all_events_bind; [apply all_events_yield, Herror | intros _; apply all_events_stop]. }
  apply all_events_if.
  { apply all_events_bind; [apply all_events_yield, Herror | intros _; apply all_events_stop]. }
  destruct (validate_parameters _ _ _ _ _ _ _) as [err |] eqn:Hvalid.
  { apply validation_error_built in Hvalid as (code & message & details & ->).
    apply all_events_bind; [apply all_events_yield, Herror | intros _; apply all_events_stop]. }
  apply all_events_bind; [apply all_events_lift | intros task_name].
  apply all_events_bind; [apply all_events_lift | intros pc].
  apply all_events_if.
  { apply all_events_bind; [apply all_events_yield, Herror | intros _; apply all_events_stop]. }
  apply all_events_bind; [apply all_events_lift | intros base].
  apply all_events_bind;
    [apply all_events_yield, Hloop; constructor; reflexivity | intros _].
  apply all_events_bind; [apply Hmono, run_epochs_loop_events | intros results].
  apply Hmono, aggregate_loop_events.
Qed.

(** Every event that a run yields is a dictionary of two entries, [type] and
    [data], in this order; the type is one of [progress], [result],
    [complete] and [error], and the data are a dictionary.  The data of an
    error hold one of the nine error codes and the same message twice, under
    [error] and under [message]. *)
Theorem every_event_has_type_and_data :
  forall (B : Builtins) (W : World) (model_id benchmark : string) (limit : Z)
         (api_key : option string) (provider : string) (temperature : option float)
         (max_tokens seed : option Z) (epochs : Z) (timeout : option Z) (e : pyval),
    In e (fst (run_with_inspect_ai B W model_id benchmark limit api_key provider
                 temperature max_tokens seed epochs timeout)) ->
    exists (type : string) (data : list (string * pyval)),
      e = PDict [("type", PStr type); ("data", PDict data)] /\
      In type ["progress"; "result"; "complete"; "error"] /\
      (type = "error" ->
       exists (code : ErrorCode) (message : string),
         assoc "code" data = Some (PStr (ErrorCode_value code)) /\
         assoc "error" data = Some (PStr message) /\
         assoc "message" data = Some (PStr message)).
Proof.
  intros B W model_id benchmark limit api_key provider temperature max_tokens seed
    epochs timeout e. revert e. apply Forall_forall.
  assert (Herror : forall code message details,
             exists (type : string) (data : list (string * pyval)),
               create_error code message details
               = PDict [("type", PStr type); ("data", PDict data)] /\
               In type ["progress"; "result"; "complete"; "error"] /\
               (type = "error" ->
                exists (code : ErrorCode) (message : string),
                  assoc "code" data = Some (PStr (ErrorCode_value code)) /\
                  assoc "error" data = Some (PStr message) /\
                  assoc "message" data = Some (PStr message))).
  { intros code message details. eexists _, _. split; [reflexivity |].
    split; [cbn [In]; tauto |]. intros _. exists code, message.
    destruct details; repeat split. }
  apply run_events; [exact Herror |].
  intros e [message extra _ | question total correct running_score latency_ms extra _
           | score correct total extra _ | code message details _];
    [| | | apply Herror];
    (eexists _, _; split; [reflexivity |]; split; [cbn [In]; tauto | discriminate]).
Qed.

Lemma every_event_has_type_and_data_witness :
  exists (type : string) (data : list (string * pyval)),
    last_event (example_run world_with_broken_log 1)
    = PDict [("type", PStr type); ("data", PDict data)] /\
    In type ["progress"; "result"; "complete"; "error"] /\
    (type = "error" ->
     exists (code : ErrorCode) (message : string),
       assoc "code" data = Some (PStr (ErrorCode_value code)) /\
       assoc "error" data = Some (PStr message) /\
       assoc "message" data = Some (PStr message)).
Proof.
  apply (@every_event_has_type_and_data example_builtins world_with_broken_log
           "gpt-4o" "mmlu" 10%Z None "openrouter" None (Some 1024%Z) None 1%Z None).
  vm_compute. tauto.
Defined.
(** * Properties of the service *)

(** An event in the form of the runner: a type and the data. *)
Lemma run_events_typed (B : Builtins) (W : World) (model_id benchmark : string)
    (limit : Z) (api_key : option string) (provider : string)
    (temperature : option float) (max_tokens seed : option Z) (epochs : Z)
    (timeout : option Z) :
  all_events
    (fun e => exists type data,
                e = PDict [("type", PStr type); ("data", PDict data)] /\
                In type ["progress"; "result"; "complete"; "error"])
    (run_with_inspect_ai B W model_id benchmark limit api_key provider temperature
       max_tokens seed epochs timeout).
Proof.
  apply run_events.
  - intros code message details. eexists _, _. split; [reflexivity | cbn [In]; tauto].
  - intros e [message extra _ | question total correct running_score latency_ms extra _
             | score correct total extra _ | code message details _];
      (eexists _, _; split; [reflexivity | cbn [In]; tauto]).
Qed.

Lemma handle_chunk_typed (type : string) (data : list (string * pyval)) :
  handle_chunk (PDict [("type", PStr type); ("data", PDict data)])
  = if String.eqb type "complete" || String.eqb type "error"
    then Some (Unhandled KeyError) else None.
Proof.
  unfold handle_chunk. cbn [py_get assoc String.eqb Ascii.eqb Bool.eqb is_str].
  destruct (String.eqb type "complete"); [reflexivity |].
  destruct (String.eqb type "error"); reflexivity.
Qed.

Lemma relay_typed (type : string) (data : list (string * pyval)) (rest : list pyval)
    (fl : flow unit) :
  relay (PDict [("type", PStr type); ("data", PDict data)] :: rest) fl
  = if String.eqb type "complete" || String.eqb type "error"
    then ([PDict [("type", PStr type); ("data", PDict data)]], Return)
    else (PDict [("type", PStr type); ("data", PDict data)] :: fst (relay rest fl),
          snd (relay rest fl)).
Proof.
  cbn [relay py_get assoc String.eqb Ascii.eqb Bool.eqb is_str].
  destruct (String.eqb type "complete" || String.eqb type "error"); [reflexivity |].
  now destruct (relay rest fl).
Qed.

(** What [run_evaluation_sync] makes of the relayed events of a run. *)
Lemma collect_relay (events : list pyval) (fl : flow unit) :
  Forall (fun e => exists type data,
                     e = PDict [("type", PStr type); ("data", PDict data)] /\
                     In type ["progress"; "result"; "complete"; "error"]) events ->
  (forall fields,
      collect (fst (relay events fl)) (snd (relay events fl)) <> EvalResult fields) /\
  (forall t, In t (fst (relay events fl)) -> is_terminal t = true ->
             collect (fst (relay events fl)) (snd (relay events fl)) = Unhandled KeyError).
Proof.
  induction 1 as [| e events (type & data & -> & Htype) _ IH].
  - cbn. split; [destruct fl; discriminate | intros t []].
  - rewrite relay_typed.
    destruct (String.eqb type "complete" || String.eqb type "error") eqn:Hterminal;
      cbn [fst snd collect]; rewrite handle_chunk_typed, Hterminal.
    + split; [discriminate | intros; reflexivity].
    + destruct IH as [IH1 IH2]. split; [exact IH1 |].
      intros t [<- | Hin] Ht; [| exact (IH2 t Hin Ht)].
      unfold is_terminal, has_type in Ht.
      cbn [event_type assoc String.eqb Ascii.eqb Bool.eqb] in Ht. congruence.
Qed.

(** The synchronous endpoint never answers with a result.  It reads the
    model, the score and the other figures of a complete event beside its
    type, where the runner does not put them: they are under [data].  So a
    run that completes makes the endpoint raise [KeyError], and so does a
    run that ends with an error event of the runner, whose message is under
    [data] as well. *)
Theorem sync_endpoint_never_returns_a_result :
  forall (B : Builtins) (W : World) (request : EvalRequest),
    (forall fields, run_evaluation_sync B W request <> EvalResult fields) /\
    (forall t,
        In t (fst (request_stream B W request)) ->
        (has_type "complete" t = true \/
         exists code message details, t = create_error code message details) ->
        run_evaluation_sync B W request = Unhandled KeyError).
Proof.
  intros B W request. unfold run_evaluation_sync, request_stream, run_inspect_evaluation.
  destruct (assoc (request_benchmark request) AVAILABLE_BENCHMARKS) as [config |].
  2: { split; [discriminate |]. cbn. intros t [<- | []] [Ht | (code & message & details & Ht)].
       - discriminate Ht.
       - destruct details; discriminate Ht. }
  destruct (assoc _ PROVIDERS) as [pc |].
  2: { split; [discriminate |]. cbn. intros t [<- | []] [Ht | (code & message & details & Ht)].
       - discriminate Ht.
       - destruct details; discriminate Ht. }
  destruct (is_inspect_available W); cbn [negb].
  2: { split; [discriminate |]. cbn.
       intros t [<- | [<- | []]] [Ht | (code & message & details & Ht)];
         try discriminate Ht; destruct details; discriminate Ht. }
  destruct (str_in _ get_supported_benchmarks); cbn [negb].
  2: { split; [discriminate |]. cbn.
       intros t [<- | [<- | []]] [Ht | (code & message & details & Ht)];
         try discriminate Ht; destruct details; discriminate Ht. }
  match goal with
  | |- context [relay (fst ?run) (snd ?run)] =>
      pose proof (collect_relay (snd run)
                    (run_events_typed B W _ _ _ _ _ _ _ _ _ _ : Forall _ (fst run)))
        as [Hnever Hkey];
      destruct (relay (fst run) (snd run)) as [relayed fl] eqn:Hrelay
  end.
  cbn [fst snd] in *. unfold yield. cbn [gbind fst snd app collect handle_chunk py_get assoc
    String.eqb Ascii.eqb Bool.eqb is_str].
  split; [exact Hnever |].
  intros t [<- | [<- | Hin]] [Ht | (code & message & details & Ht)];
    try discriminate Ht; try (destruct details; discriminate Ht).
  - apply (Hkey t Hin). unfold is_terminal. now rewrite Ht.
  - apply (Hkey t Hin). subst t. destruct details; reflexivity.
Qed.

Lemma sync_endpoint_never_returns_a_result_witness :
  run_evaluation_sync example_builtins world_of_three_samples
    {| request_model := "gpt-4o"; request_benchmark := "mmlu";
       request_provider := Some "openrouter"; request_limit := Some 10%Z;
       request_temperature := Some 0%float; request_max_tokens := Some 1024%Z;
       request_seed := None; request_epochs := Some 1%Z |}
  = Unhandled KeyError.
Proof.
  destruct (sync_endpoint_never_returns_a_result example_builtins world_of_three_samples
              {| request_model := "gpt-4o"; request_benchmark := "mmlu";
                 request_provider := Some "openrouter"; request_limit := Some 10%Z;
                 request_temperature := Some 0%float; request_max_tokens := Some 1024%Z;
                 request_seed := None; request_epochs := Some 1%Z |}) as [_ Hkey].
  apply (Hkey (last (fst (request_stream example_builtins world_of_three_samples
                            {| request_model := "gpt-4o"; request_benchmark := "mmlu";
                               request_provider := Some "openrouter";
                               request_limit := Some 10%Z;
                               request_temperature := Some 0%float;
                               request_max_tokens := Some 1024%Z;
                               request_seed := None; request_epochs := Some 1%Z |}))
                 PNone)).
  - vm_compute. tauto.
  - left. vm_compute. reflexivity.
Defined.
